(* ===== verification/_CoqProject ===== *)
-Q . S2P
Prelude.v
Json.v
Codec.v
CodecFuel.v
Board.v
Host.v
HostShape.v
HostDoc.v
EarlyHost.v
Webview.v
EarlyWebview.v
DragDrop.v
Page.v
PageEarly.v
DropIndex.v
Sync.v
Files.v
Launcher.v
Scroll.v
