(* ===== verification/Prelude.v ===== *)
(** * A verification development of todo-board

    todo-board is a VS Code extension that shows a [*.board.json] file
    (columns of cards, spec §3) as a Kanban board.  Two programs
    cooperate through messages:

    - the extension host ([TodoBoardEditor.resolveCustomTextEditor] in
      [src/unnamed/part_000], lines 146-265) parses the document, sends
      it to the page ([sendData]), applies each message the page posts
      ([onDidReceiveMessage], lines 168-262: a branch chain, an [await]
      on [showInputBox] for the add messages, a [WorkspaceEdit] and
      [document.save()]), and resends the document when it changes;
    - the board page (the script of [getHtml], lines 436-682) keeps its
      own copy [state] of the board, renders it, and on user events
      posts messages: [update] with a whole new board after a card drop,
      or a narrow mutation ([delete-column], [rename-column],
      [add-column], [add-card], [delete-card], [move-column]); mouse
      listeners scroll the board by dragging;
    - the commands [openPreview] and [createBoard] (lines 70-144) open
      or create board files in the workspace.

    [src/extension.js] and [src/unnamed/part_001] hold the earlier
    versions: [extension.js] (a host without [move-column] and without
    save, a page whose drop appends), the first version of [part_001]
    (lines 1-686: the host of [part_000], a page with column drag and an
    appending drop) and the earliest one (lines 687-936: a host that
    only replaces the text on [update], a page with only card drag).

    ** Files (in dependency order)

    - [Prelude] (this file): the [result] type of computations that may
      throw ([TypeError], [ReferenceError]), its bind notations in
      [js_scope] (the state-keeping [x <-{s} c ;; k] for handlers that
      mutate before they throw), and the [Array.prototype] methods the
      code calls ([findIndex], [find], [splice], [push]) with the
      ECMAScript index clamping written out.
    - [Json]: JSON values ([json]; [jsval] adds [undefined]), property
      read and write with their exceptions, [===], truthiness, and the
      id-comparison callbacks [c => c.id === x] ([id_is]).
    - [Codec]: [JSON.stringify(_, null, 2)] and [JSON.parse] from the
      ECMAScript specification (the parser with fuel), and the round
      trip.
    - [CodecFuel]: the fuel of the parser is enough (a fact about the
      model's bound, below): a successful parse replays with the fuel
      of the text it consumes.
    - [Board]: the typed board of spec §3, its encoding [board_to_json]
      as the object literals the code writes, the abstract operations
      of spec §4.1 ([remove_column], [move_card], ...) and the
      well-formedness [wf] (unique ids).  The code has no board type:
      these are the specification the JSON-level code is proved
      against.
    - [Host]: the host's branch chain ([receive_core], lines 177-247) on
      the parsed document, and a typed reducer [reduce] (spec §9).
    - [HostShape]: the shape of a board document (columns are objects
      with a [cards] array of objects) as a boolean predicate, and its
      preservation by the branch chain whatever the ids are.
    - [HostDoc]: the host around the branch chain: the document text
      and the saved file ([hstate]), [sendData], the edit with its
      [positionAt] clamp, [save], and the [await] as a pending callback
      resumed by a later event, interleaved with other messages and
      external edits ([hstep]).
    - [EarlyHost]: the hosts of [extension.js] (lines 196-275) and of
      the earliest version ([part_001] lines 795-808).
    - [Webview]: the page's [moveCard] (lines 662-681), mutating the
      shared [state] and possibly throwing midway.
    - [EarlyWebview]: the appending [moveCard] of [extension.js] and of
      the first [part_001] version, and the earliest one without the
      [-1] guard.
    - [DragDrop]: [getDragAfterElement] (lines 648-660) on exact
      rational coordinates.
    - [Page]: the board page as a state machine: its globals ([state],
      the implicitly created [dragged] and [fromColumn], [draggedType]),
      the view [render] builds, the messages posted; [handle] runs one
      DOM event to completion, [step] is one event, [run] a sequence.
    - [PageEarly]: the pages of [extension.js] ([Ext]), the first
      [part_001] version ([V1]) and the earliest one ([V0]) on the same
      state and events as [Page], each packaged as a [script] whose
      runs and reachable pages are defined once.
    - [DropIndex]: the range of the index a card drop computes
      ([drop_index], lines 537-540): its range and the card it inserts before.
    - [Sync]: the two programs composed: a card drop on the page, the
      host's processing of the posted [update], and the page's
      re-render of the board the host sends back.
    - [Files]: [openPreview] and [createBoard] on a workspace whose file
      system is a [gmap] from paths to contents.
    - [Launcher]: the tree view [BoardProvider.getChildren] (lines
      48-67: [findFiles], [asRelativePath], the [TreeItem] and its
      command) and the two commands [activate] registers (lines 13-19)
      as [executeCommand].
    - [Scroll]: the drag-to-scroll globals and the four mouse listeners
      (lines 614-645).

    ** Theorems

    - The host ([Host], [HostDoc]): on an encoded board every message
      does what the reducer of spec §9 says and preserves [wf]; the
      per-message facts (idempotent delete, stale ids are no-ops,
      move-column's target slot, blank titles accepted, cancelled
      prompts); a message on the document is the reducer followed by a
      write that parses back and a save; and the findings on the
      [await]: the forced refresh sends the old document, edits made
      while the prompt is open are discarded, and a document that grew
      meanwhile is saved corrupted.  Type preservation ([HostShape]):
      on any document of the board's shape, every message but
      [update] succeeds and keeps the shape, even with numeric or
      repeated ids.
    - The codec ([Codec]): [JSON.parse (JSON.stringify j) = j] for every
      value without duplicate keys or non-finite numbers.
    - The card drop ([Webview], [EarlyWebview]): conservation of the
      cards, the shift of the index on a same-column move, the
      cross-column insert, the loss of the card when the target column
      is missing; the drop index ([DropIndex]) lies in
      [[-1, cards.length]], is the position of the first card whose id
      is the hovered card's [dataset.id], and is [-1] on every card of
      a column whose ids are numbers, so the card lands before the last
      card; the appending versions are [move_card] with no index,
      and the earliest one moves the last card on a stale id.
    - The drop geometry ([DragDrop]): the reduce returns the first card
      whose centre is below the pointer when the cards are stacked.
    - The pages ([Page], [PageEarly]): a card drop after a drag start
      posts exactly the board [move_card] gives (composing [DragDrop],
      [Webview] and [render]); a drop before any drag throws a
      [ReferenceError]; after any sequence of events the drag globals
      are the objects a drag start set (the column, or the card and the
      id of its column), by induction on the sequence; rename and
      column drops post the messages of spec §8 and §4.3; the
      [extension.js] page keeps a cancelled drag, and each message it
      posts is treated by its host's branch chain as the current host
      treats it; each message the earliest page posts is an [update]
      its host writes to the document.
    - Page and host together ([Sync]): after a card drop the
      document, the saved file (which parses back), the board the host
      sends back and the page's view all hold the board [move_card]
      gives.
    - The earlier hosts ([EarlyHost]): the [extension.js] host never
      saves.
    - The files ([Files]): [createBoard] never overwrites a file, names
      the new file after the sanitised answer and writes a template
      that parses to a board; [openPreview] throws on a non-Uri
      argument without a workspace.  The tree view ([Launcher]) shows
      only board files, each item opens its file, and a created board
      appears in it.
    - Scrolling ([Scroll]): reachable states keep the scroll in range;
      while the button is down, moving back to the press point restores
      the scroll of the press and the content follows the pointer; a
      drag scrolls by twice the travel to the last pointer position.

    ** Modelling choices

    - Integers: ids are strings; [Date.now()] is a [Z] input; array
      indices are [Z] at the JavaScript level (so [-1] and clamping are
      visible) and [nat] in the typed board.  Text offsets are
      characters of an ASCII string (the code's UTF-16 units coincide
      on ASCII).
    - Fuel: only [Codec.json_parse] uses fuel, [S (length s)]; each
      nested call consumes at least one character, so it never runs out:
      [CodecFuel.json_parse_fuel_adequate] shows that any parse that
      succeeds with some fuel gives the same value with this fuel, and
      [Codec.jsize_le_length] bounds the nesting of a printed value by
      its length.  Everything else is structurally recursive.
    - Coordinates are [Q] (the code's doubles, without rounding).
    - [showInputBox], [Date.now()] and the workspace are inputs of the
      handlers; [applyEdit] and [save] take effect at once (their
      promises are awaited in order); the DOM is abstracted to what the
      handlers read (the objects each element closes over, the element
      boxes at a drop).
    - Not modelled: class and style changes (drag-over highlighting,
      opacity), the Enter key handler (it only blurs), the registration
      calls of [activate] and the watcher's [refresh] (they only notify
      VS Code; [getChildren] is a function of the workspace, so the
      tree is always current), and the HTML/CSS of [getHtml].  The glob
      [**/*.board.json] is read as: under the folder, ending with
      [.board.json].  Code of the
      earlier versions that is the code of [part_000] up to comments
      (the first [part_001] host, its scroll listeners, the earlier
      [openPreview]/[createBoard]) is covered by the same definitions. *)

From stdpp Require Export base list strings decidable.
From Stdlib Require Export ZArith.

Declare Scope js_scope.
Delimit Scope js_scope with js.

(** ** Exceptions *)

Inductive exn := TypeError | ReferenceError.

#[export] Instance exn_eq_dec : EqDecision exn.
Proof. solve_decision. Defined.

Inductive result (A : Type) : Type :=
| Ok (a : A)
| Throw (e : exn).
Arguments Ok {A} a.
Arguments Throw {A} e.

Notation "x <- c ;; k" :=
  (match c with Ok x => k | Throw e => Throw e end)
  (at level 100, c at next level, right associativity) : js_scope.

Open Scope js_scope.

(** A handler of the webview mutates the global [state] in place: when it
    throws, the mutations done so far stay.  [x <-{ s } c ;; k] runs [k]
    on the value of [c], or stops with the current state [s] and the
    exception. *)
Notation "x <-{ s } c ;; k" :=
  (match c with Ok x => k | Throw e => (s, Throw e) end)
  (at level 100, c at next level, right associativity) : js_scope.

Definition is_ok {A} (r : result A) : bool :=
  match r with Ok _ => true | Throw _ => false end.

(** ** [Array.prototype.findIndex] and [find] with a callback that may throw *)

Section ArrayMethods.
Context {A : Type}.

(** Index of the first element satisfying [p], or [None]: the
    callback is run left to right and its exceptions propagate. *)
Fixpoint find_index_nat (p : A -> result bool) (l : list A) : result (option nat) :=
  match l with
  | [] => Ok None
  | x :: l' =>
      b <- p x ;;
      if b then Ok (Some 0%nat)
      else r <- find_index_nat p l' ;; Ok (S <$> r)
  end.

(** [arr.findIndex(p)]: the index as a number, [-1] when absent. *)
Definition js_findIndex (p : A -> result bool) (l : list A) : result Z :=
  r <- find_index_nat p l ;;
  match r with Some i => Ok (Z.of_nat i) | None => Ok (-1)%Z end.

(** [arr.find(p)]: the element, [None] standing for [undefined]. *)
Fixpoint js_find (p : A -> result bool) (l : list A) : result (option A) :=
  match l with
  | [] => Ok None
  | x :: l' => b <- p x ;; if b then Ok (Some x) else js_find p l'
  end.

(** The start index of [splice] after the clamping of ECMA-262
    (relative index: negative counts from the end, then clamped to
    [0, len]). *)
Definition splice_start (len : nat) (start : Z) : nat :=
  if decide (start < 0)%Z then Z.to_nat (Z.max (Z.of_nat len + start) 0)
  else Z.to_nat (Z.min start (Z.of_nat len)).

(** [arr.splice(start, deleteCount, ...items)]: the new array and the
    removed elements. *)
Definition js_splice (l : list A) (start dc : Z) (items : list A) : list A * list A :=
  let s := splice_start (length l) start in
  let d := Z.to_nat (Z.min (Z.max dc 0) (Z.of_nat (length l - s))) in
  (take s l ++ items ++ drop (s + d) l, take d (drop s l)).

(** [arr.push(x)]. *)
Definition js_push (l : list A) (x : A) : list A := l ++ [x].
End ArrayMethods.

(** ** Lemmas on the array primitives *)

Section ArrayLemmas.
Context {A : Type}.
Implicit Types (l : list A) (p : A -> result bool).

(** A callback that never throws: [findIndex] is stdpp's [list_find]. *)
Lemma find_index_nat_pure (f : A -> bool) l :
  find_index_nat (fun x => Ok (f x)) l = Ok (fst <$> list_find f l).
Proof.
  induction l as [|x l IH]; [done|]. simpl.
  destruct (f x) eqn:E; simpl; rewrite ?E; [done|].
  rewrite IH. by destruct (list_find f l) as [[]|].
Qed.

(** A callback that is a decidable test on the preimage under [f]. *)
Lemma find_index_nat_map {B} (f : B -> A) (P : B -> Prop) `{forall x, Decision (P x)} p (l : list B) :
  (forall x, p (f x) = Ok (bool_decide (P x))) ->
  find_index_nat p (map f l) = Ok (fst <$> list_find P l).
Proof.
  intros Hp. induction l as [|x l IH]; [done|]. simpl. rewrite Hp.
  case_bool_decide; simpl; [by rewrite decide_True|].
  rewrite decide_False by done. rewrite IH. by destruct (list_find P l) as [[]|].
Qed.

Lemma find_index_nat_Some p l i :
  find_index_nat p l = Ok (Some i) ->
  exists x, l !! i = Some x /\ p x = Ok true /\
    forall j y, (j < i)%nat -> l !! j = Some y -> p y = Ok false.
Proof.
  revert i. induction l as [|x l IH]; intros i H; simpl in H; [done|].
  destruct (p x) as [[]|] eqn:Hp; try discriminate.
  - injection H as <-. exists x. split_and!; [done|done|]. intros j y Hj. lia.
  - destruct (find_index_nat p l) as [[j|]|] eqn:Hl; try discriminate.
    injection H as <-. destruct (IH j eq_refl) as (y & Hy & Hpy & Hbefore).
    exists y. split_and!; [done|done|].
    intros [|k] z Hk Hz; simpl in Hz; [congruence|]. apply (Hbefore k); [lia|done].
Qed.

Lemma find_index_nat_None p l :
  find_index_nat p l = Ok None -> forall x, x ∈ l -> p x = Ok false.
Proof.
  induction l as [|y l IH]; intros H x Hx; simpl in H; [by apply elem_of_nil in Hx|].
  destruct (p y) as [[]|] eqn:Hp; try discriminate.
  destruct (find_index_nat p l) as [[]|] eqn:Hl; try discriminate.
  apply elem_of_cons in Hx as [->|Hx]; [done|]. by apply IH.
Qed.

(** [find] returns the element at the index [findIndex] returns. *)
Lemma js_find_find_index p l :
  js_find p l = (r <- find_index_nat p l ;;
                 Ok (match r with Some i => l !! i | None => None end)).
Proof.
  induction l as [|x l IH]; [done|]. simpl.
  destruct (p x) as [[]|]; [done| |done]. rewrite IH.
  by destruct (find_index_nat p l) as [[]|].
Qed.

Lemma splice_start_in len (i : nat) : (i <= len)%nat -> splice_start len (Z.of_nat i) = i.
Proof.
  intros H. unfold splice_start. case_decide; [lia|]. lia.
Qed.

(** Removing one element at an index in range. *)
Lemma js_splice_remove l (i : nat) x :
  l !! i = Some x ->
  js_splice l (Z.of_nat i) 1 [] = (take i l ++ drop (S i) l, [x]).
Proof.
  intros Hi. pose proof (lookup_lt_Some _ _ _ Hi) as Hlt.
  unfold js_splice. rewrite splice_start_in by lia.
  replace (Z.to_nat (Z.min (Z.max 1 0) (Z.of_nat (length l - i)))) with 1%nat by lia.
  rewrite Nat.add_1_r. f_equal.
  rewrite (drop_S _ x) by done. done.
Qed.

(** Inserting at an index in range. *)
Lemma js_splice_insert l (i : nat) x :
  (i <= length l)%nat ->
  js_splice l (Z.of_nat i) 0 [x] = (take i l ++ x :: drop i l, []).
Proof.
  intros H. unfold js_splice. rewrite splice_start_in by lia.
  replace (Z.to_nat (Z.min (Z.max 0 0) (Z.of_nat (length l - i)))) with 0%nat by lia.
  by rewrite Nat.add_0_r.
Qed.

(** Inserting at [-1]: before the last element (the end of an empty
    array). *)
Lemma js_splice_insert_neg1 l x :
  js_splice l (-1) 0 [x] = (take (length l - 1) l ++ x :: drop (length l - 1) l, []).
Proof.
  unfold js_splice, splice_start. case_decide; [|lia].
  replace (Z.to_nat (Z.max (Z.of_nat (length l) + -1) 0)) with (length l - 1)%nat by lia.
  replace (Z.to_nat (Z.min (Z.max 0 0) (Z.of_nat (length l - (length l - 1))))) with 0%nat by lia.
  by rewrite Nat.add_0_r.
Qed.

(** Removing one element with the start [-1]: the last element goes. *)
Lemma js_splice_remove_neg1 l x :
  js_splice (l ++ [x]) (-1) 1 [] = (l, [x]).
Proof.
  unfold js_splice, splice_start. rewrite length_app. simpl.
  replace (Z.to_nat (Z.max (Z.of_nat (length l + 1) + -1) 0)) with (length l) by lia.
  replace (Z.to_nat (Z.min (Z.max 1 0) (Z.of_nat (length l + 1 - length l)))) with 1%nat by lia.
  rewrite take_app_length, !drop_app_ge by lia.
  rewrite Nat.sub_diag. replace (length l + 1 - length l)%nat with 1%nat by lia.
  simpl. by rewrite app_nil_r.
Qed.

Lemma take_drop_S_perm l (i : nat) x :
  l !! i = Some x -> l ≡ₚ x :: take i l ++ drop (S i) l.
Proof.
  intros Hi. rewrite <- (take_drop_middle l i x Hi) at 1.
  by rewrite Permutation_middle.
Qed.

Lemma length_take_drop_S l (i : nat) x :
  l !! i = Some x -> length (take i l ++ drop (S i) l) = (length l - 1)%nat.
Proof.
  intros Hi. pose proof (lookup_lt_Some _ _ _ Hi).
  rewrite length_app, length_take, length_drop. lia.
Qed.
End ArrayLemmas.

(** ** Automation shared by the components *)

Create HintDb js.
Create Rewrite HintDb js.
#[export] Hint Rewrite @js_splice_remove @js_splice_insert using (done || lia) : js.
#[export] Hint Resolve find_index_nat_Some find_index_nat_None : js.

(** Case analysis on a [result] produced inside a goal. *)
Ltac destruct_result :=
  repeat match goal with
  | |- context [match ?r with Ok _ => _ | Throw _ => _ end] =>
      let E := fresh "Hr" in destruct r eqn:E
  end.
