(* ===== verification/Json.v ===== *)
(** * Json: the values the extension manipulates.

    Both halves of the extension work on the result of [JSON.parse]: the
    host on [data = JSON.parse(document.getText())], the webview on
    [state = e.data.data] (a structured clone of the same).  This file
    holds those values and the few JavaScript operations the code applies
    to them:
    - [json]: null, booleans, numbers (integers: the only numbers the
      documents contain are the [Date.now()] stamps inside ids), strings,
      arrays and objects (fields in insertion order, as JavaScript keeps
      them);
    - [jsval]: a [json] or [undefined] (a missing property);
    - property read [js_get] (TypeError on [null]/[undefined]), property
      write [js_set] (sloppy mode: ignored on primitives), strict
      equality [js_seq] ([===]: objects and arrays coming from two
      different parses are never identical), truthiness [js_truthy],
      and the array view [js_array] of a value whose array methods are
      called;
    - [js_string_of_int]: [String(n)] for the integers of [Date.now()]. *)

From S2P Require Import Prelude.
From Stdlib Require Import DecimalString DecimalN.

#[warnings="-register-all"]
Inductive json : Type :=
| JNull
| JBool (b : bool)
| JNum (n : Z)
| JStr (s : string)
| JArr (items : list json)
| JObj (fields : list (string * json)).

(** Structural induction through arrays and objects. *)
Section JsonInd.
Variable P : json -> Prop.
Hypothesis HNull : P JNull.
Hypothesis HBool : forall b, P (JBool b).
Hypothesis HNum : forall n, P (JNum n).
Hypothesis HStr : forall s, P (JStr s).
Hypothesis HArr : forall l, Forall P l -> P (JArr l).
Hypothesis HObj : forall fs, Forall (fun kv => P kv.2) fs -> P (JObj fs).

Fixpoint json_ind' (j : json) : P j :=
  match j with
  | JNull => HNull
  | JBool b => HBool b
  | JNum n => HNum n
  | JStr s => HStr s
  | JArr l =>
      HArr l ((fix go (l : list json) : Forall P l :=
                 match l with
                 | [] => Forall_nil_2 _
                 | x :: l' => Forall_cons_2 _ _ _ (json_ind' x) (go l')
                 end) l)
  | JObj fs =>
      HObj fs ((fix go (fs : list (string * json)) : Forall (fun kv => P kv.2) fs :=
                  match fs with
                  | [] => Forall_nil_2 _
                  | kv :: fs' => Forall_cons_2 _ _ _ (json_ind' kv.2) (go fs')
                  end) fs)
  end.
End JsonInd.

(** A JavaScript value as read from a property: [None] is [undefined]. *)
Abbreviation jsval := (option json).
Abbreviation undefined := (@None json).

(** ** Property access *)

(** The first field named [k] (a parsed object has one per name). *)
Definition field_lookup (k : string) (fs : list (string * json)) : option json :=
  option_map (fun p => p.2.2) (list_find (fun kv => kv.1 = k) fs).

(** Assignment [o[k] = v]: an existing field keeps its position, a new
    one is appended (JavaScript's insertion order). *)
Fixpoint field_set (k : string) (v : json) (fs : list (string * json)) : list (string * json) :=
  match fs with
  | [] => [(k, v)]
  | (k', v') :: fs' => if bool_decide (k' = k) then (k, v) :: fs' else (k', v') :: field_set k v fs'
  end.

(** [v.k]: TypeError on [null] and [undefined]; a missing field reads
    [undefined].  The code reads only ["columns"], ["id"], ["title"] and
    ["cards"], none of which is a built-in property of strings, numbers,
    booleans or arrays, so those read [undefined]. *)
Definition js_get (v : jsval) (k : string) : result jsval :=
  match v with
  | None | Some JNull => Throw TypeError
  | Some (JObj fs) => Ok (field_lookup k fs)
  | Some _ => Ok undefined
  end.

(** [o.k = v] on the value [o] found in the tree: sloppy-mode scripts
    ignore writes to primitives, and a named property of an array is not
    serialised by [JSON.stringify], so only objects change. *)
Definition js_set (o : json) (k : string) (v : json) : result json :=
  match o with
  | JNull => Throw TypeError
  | JObj fs => Ok (JObj (field_set k v fs))
  | _ => Ok o
  end.

(** [v.method(...)] for an array method: only an array has it; on
    anything else the property is [undefined] (or the read throws) and
    the call throws TypeError. *)
Definition js_array (v : jsval) : result (list json) :=
  match v with
  | Some (JArr l) => Ok l
  | _ => Throw TypeError
  end.

(** [o.k.method(...)]: read the property, then take its array. *)
Definition get_array (o : json) (k : string) : result (list json) :=
  v <- js_get (Some o) k ;; js_array v.

(** ** Strict equality and truthiness *)

(** [a === b]. Objects and arrays compare by reference; the values the
    code compares ([c.id] from one parse, [msg.columnId] from a message
    clone) never share one, so they are never identical. *)
Definition js_seq (a b : jsval) : bool :=
  match a, b with
  | None, None => true
  | Some JNull, Some JNull => true
  | Some (JBool x), Some (JBool y) => bool_decide (x = y)
  | Some (JNum x), Some (JNum y) => bool_decide (x = y)
  | Some (JStr x), Some (JStr y) => bool_decide (x = y)
  | _, _ => false
  end.

(** [if (v)]. *)
Definition js_truthy (v : jsval) : bool :=
  match v with
  | None | Some JNull | Some (JBool false) | Some (JNum 0) | Some (JStr "") => false
  | Some _ => true
  end.

(** [String(n)] for an integer. *)
Definition js_string_of_int (n : Z) : string :=
  (if decide (n < 0)%Z then "-" else "") ++
  NilEmpty.string_of_uint (N.to_uint (Z.to_N (Z.abs n))).

(** ** Callbacks shared by the host and the webview *)

(** The callback [c => c.id === target]. *)
Definition id_is (target : jsval) (c : json) : result bool :=
  v <- js_get (Some c) "id" ;; Ok (js_seq v target).

(** [arr.find(p)] whose result object is then mutated in place: the
    position of the found element, so that the mutation can be written
    back into the tree ([find_ref_find] relates it to [js_find]). *)
Definition find_ref (p : json -> result bool) (l : list json) : result (option (nat * json)) :=
  r <- find_index_nat p l ;;
  Ok (match r with Some i => (fun x => (i, x)) <$> l !! i | None => None end).

(** ** Lemmas *)

Lemma field_lookup_set_eq k v fs : field_lookup k (field_set k v fs) = Some v.
Proof.
  induction fs as [|[k' v'] fs IH]; unfold field_lookup in *; simpl.
  - by rewrite decide_True.
  - case_bool_decide; simpl; [by rewrite decide_True|].
    rewrite decide_False by done. by destruct (list_find _ _) as [[]|].
Qed.

Lemma js_seq_sym a b : js_seq a b = js_seq b a.
Proof.
  destruct a as [[]|], b as [[]|]; simpl; try done;
    apply bool_decide_ext; split; congruence.
Qed.

(** [===] on strings is string equality. *)
Lemma js_seq_str s t : js_seq (Some (JStr s)) (Some (JStr t)) = bool_decide (s = t).
Proof. done. Qed.

(** Two values identical to a third are identical to each other. *)
Lemma js_seq_trans a b c : js_seq a b = true -> js_seq b c = js_seq a c.
Proof.
  destruct a as [[]|], b as [[]|], c as [[]|]; simpl; try done;
    repeat case_bool_decide; subst; congruence.
Qed.

Lemma js_truthy_obj fs : js_truthy (Some (JObj fs)) = true.
Proof. done. Qed.

Create Rewrite HintDb json.
#[export] Hint Rewrite field_lookup_set_eq js_seq_str js_truthy_obj : json.

(** [find_ref] finds what [Array.prototype.find] finds. *)
Lemma find_ref_find p l : (r <- find_ref p l ;; Ok (snd <$> r)) = js_find p l.
Proof.
  rewrite js_find_find_index. unfold find_ref.
  destruct (find_index_nat p l) as [[i|]|]; [|done|done]. simpl.
  by destruct (l !! i).
Qed.
