(* ===== verification/Codec.v ===== *)
(** * Codec: the document text ([JSON.stringify(data, null, 2)] and [JSON.parse]).

    The host reads the document with [JSON.parse(document.getText())]
    and writes it with [JSON.stringify(data, null, 2)]
    ([src/unnamed/part_000] lines 155, 172, 257).  Both are ECMAScript
    built-ins: this file models them from the ECMAScript specification
    (SerializeJSONProperty with a gap of two spaces, QuoteJSONString, and
    the JSON grammar of JSON.parse) on the [json] values of [Json], with
    strings as byte strings (the document's UTF-8 text).

    Outside the model, where [json_parse] answers [None] although
    JavaScript would produce a value: numbers with a fraction or an
    exponent ([json] numbers are integers), and [\u] escapes of code
    points from 128 on.  Objects are kept as association lists in
    insertion order; JavaScript lists integer-like keys first, which no
    key of a board document is.

    The main theorem is the round trip of spec §4.2: parsing the text
    written for a value gives the value back, for every value whose
    objects have distinct keys (the only ones [JSON.parse] produces). *)

From S2P Require Import Prelude Json.
From Stdlib Require Import Ascii DecimalString DecimalN DecimalFacts.

Local Open Scope string_scope.

(** The text is built by concatenation; let [simpl] compute it. *)
Local Arguments String.append : simpl nomatch.

(** ** Characters *)

Definition chr (n : nat) : ascii := ascii_of_nat n.
Definition str1 (c : ascii) : string := String c EmptyString.
Definition nl : string := str1 "010"%char.
Definition dquote : ascii := "034"%char.
Definition bslash : ascii := "092"%char.

Definition is_ws (c : ascii) : bool :=
  let n := nat_of_ascii c in bool_decide (n = 9 \/ n = 10 \/ n = 13 \/ n = 32)%nat.

Definition is_digit (c : ascii) : bool :=
  let n := nat_of_ascii c in bool_decide (48 <= n <= 57)%nat.

Definition hex_digit (n : nat) : ascii := if decide (n < 10)%nat then chr (48 + n) else chr (87 + n).

(** ** [JSON.stringify(value, null, 2)] *)

(** QuoteJSONString, one code unit. *)
Definition escape_char (c : ascii) : string :=
  let n := nat_of_ascii c in
  if decide (n = 8)%nat then String bslash "b"
  else if decide (n = 9)%nat then String bslash "t"
  else if decide (n = 10)%nat then String bslash "n"
  else if decide (n = 12)%nat then String bslash "f"
  else if decide (n = 13)%nat then String bslash "r"
  else if decide (n = 34)%nat then String bslash (str1 dquote)
  else if decide (n = 92)%nat then String bslash (str1 bslash)
  else if decide (n < 32)%nat then
    String bslash (String "u" (String "0" (String "0"
      (String (hex_digit (n / 16)) (str1 (hex_digit (n mod 16)))))))
  else str1 c.

Fixpoint quote_body (s : string) : string :=
  match s with
  | EmptyString => EmptyString
  | String c s' => escape_char c ++ quote_body s'
  end.

Definition quote (s : string) : string := String dquote (quote_body s ++ str1 dquote).

Fixpoint join (sep : string) (xs : list string) : string :=
  match xs with
  | [] => EmptyString
  | [x] => x
  | x :: xs' => x ++ sep ++ join sep xs'
  end.

(** SerializeJSONProperty with [gap = "  "]; [ind] is the current
    indent. *)
Fixpoint stringify_at (ind : string) (j : json) : string :=
  match j with
  | JNull => "null"
  | JBool b => if b then "true" else "false"
  | JNum n => js_string_of_int n
  | JStr s => quote s
  | JArr l =>
      match l with
      | [] => "[]"
      | _ => let ind' := ind ++ "  " in
             "[" ++ nl ++ ind' ++ join ("," ++ nl ++ ind') (map (stringify_at ind') l)
                 ++ nl ++ ind ++ "]"
      end
  | JObj fs =>
      match fs with
      | [] => "{}"
      | _ => let ind' := ind ++ "  " in
             "{" ++ nl ++ ind' ++
               join ("," ++ nl ++ ind') (map (fun kv => quote kv.1 ++ ": " ++ stringify_at ind' kv.2) fs)
                 ++ nl ++ ind ++ "}"
      end
  end.

Definition json_stringify (j : json) : string := stringify_at "" j.

(** ** [JSON.parse(text)] *)

Fixpoint skip_ws (s : string) : string :=
  match s with
  | String c s' => if is_ws c then skip_ws s' else s
  | EmptyString => EmptyString
  end.

Fixpoint strip_prefix (p s : string) : option string :=
  match p, s with
  | EmptyString, _ => Some s
  | String a p', String b s' => if decide (a = b) then strip_prefix p' s' else None
  | _, _ => None
  end.

Fixpoint span_digits (s : string) : string * string :=
  match s with
  | String c s' => if is_digit c then let '(d, r) := span_digits s' in (String c d, r) else (EmptyString, s)
  | EmptyString => (EmptyString, EmptyString)
  end.

(** The integer part of a number: [0] alone, or a non-zero digit and
    digits. *)
Definition parse_uint_tok (s : string) : option (N * string) :=
  match s with
  | String c r =>
      if decide (c = "0"%char) then Some (0%N, r)
      else if is_digit c then
        let '(ds, r') := span_digits r in
        (fun d => (N.of_uint d, r')) <$> NilEmpty.uint_of_string (String c ds)
      else None
  | EmptyString => None
  end.

(** A fraction or an exponent follows. *)
Definition number_continues (s : string) : bool :=
  match s with
  | String c _ => bool_decide (c = "."%char \/ c = "e"%char \/ c = "E"%char)
  | EmptyString => false
  end.

Definition parse_number (s : string) : option (Z * string) :=
  let tok := match s with
             | String c r =>
                 if decide (c = "-"%char) then (fun p => (Z.opp (Z.of_N p.1), p.2)) <$> parse_uint_tok r
                 else (fun p => (Z.of_N p.1, p.2)) <$> parse_uint_tok s
             | EmptyString => None
             end in
  match tok with
  | Some (z, r) => if number_continues r then None else Some (z, r)
  | None => None
  end.

Definition hex_val (c : ascii) : option nat :=
  let n := nat_of_ascii c in
  if decide (48 <= n <= 57)%nat then Some (n - 48)%nat
  else if decide (97 <= n <= 102)%nat then Some (n - 87)%nat
  else if decide (65 <= n <= 70)%nat then Some (n - 55)%nat
  else None.

Definition cons_fst (c : ascii) (o : option (string * string)) : option (string * string) :=
  (fun p => (String c p.1, p.2)) <$> o.

(** The characters of a string literal after its opening quote, up to
    and including the closing one. *)
Fixpoint parse_str_body (s : string) : option (string * string) :=
  match s with
  | EmptyString => None
  | String c s1 =>
      if decide (c = dquote) then Some (EmptyString, s1)
      else if decide (c = bslash) then
        match s1 with
        | String e s2 =>
            if decide (e = dquote) then cons_fst dquote (parse_str_body s2)
            else if decide (e = bslash) then cons_fst bslash (parse_str_body s2)
            else if decide (e = "/"%char) then cons_fst "/"%char (parse_str_body s2)
            else if decide (e = "b"%char) then cons_fst ("008"%char) (parse_str_body s2)
            else if decide (e = "f"%char) then cons_fst ("012"%char) (parse_str_body s2)
            else if decide (e = "n"%char) then cons_fst ("010"%char) (parse_str_body s2)
            else if decide (e = "r"%char) then cons_fst ("013"%char) (parse_str_body s2)
            else if decide (e = "t"%char) then cons_fst ("009"%char) (parse_str_body s2)
            else if decide (e = "u"%char) then
              match s2 with
              | String h1 (String h2 (String h3 (String h4 s3))) =>
                  match hex_val h1, hex_val h2, hex_val h3, hex_val h4 with
                  | Some v1, Some v2, Some v3, Some v4 =>
                      let code := (v1 * 4096 + v2 * 256 + v3 * 16 + v4)%nat in
                      if decide (code < 128)%nat then cons_fst (chr code) (parse_str_body s3) else None
                  | _, _, _, _ => None
                  end
              | _ => None
              end
            else None
        | EmptyString => None
        end
      else if decide (nat_of_ascii c < 32)%nat then None
      else cons_fst c (parse_str_body s1)
  end.

(** Objects are built as [JSON.parse] builds them: each member is an
    assignment, a repeated key keeps its first position and its last
    value. *)
Definition build_object (ms : list (string * json)) : json :=
  JObj (fold_left (fun fs kv => field_set kv.1 kv.2 fs) ms []).

(** A value, the elements of an array after its [[], the members of an
    object after its [{]; [fuel] bounds the nesting and the number of
    elements. *)
Fixpoint parse_value (fuel : nat) (s : string) {struct fuel} : option (json * string) :=
  match fuel with
  | O => None
  | S n =>
      let t := skip_ws s in
      match strip_prefix "null" t, strip_prefix "true" t, strip_prefix "false" t with
      | Some r, _, _ => Some (JNull, r)
      | _, Some r, _ => Some (JBool true, r)
      | _, _, Some r => Some (JBool false, r)
      | None, None, None =>
          match t with
          | String c r =>
              if decide (c = dquote) then (fun p => (JStr p.1, p.2)) <$> parse_str_body r
              else if decide (c = "["%char) then
                match strip_prefix "]" (skip_ws r) with
                | Some r' => Some (JArr [], r')
                | None => (fun p => (JArr p.1, p.2)) <$> parse_elems n r
                end
              else if decide (c = "{"%char) then
                match strip_prefix "}" (skip_ws r) with
                | Some r' => Some (JObj [], r')
                | None => (fun p => (build_object p.1, p.2)) <$> parse_members n r
                end
              else (fun p => (JNum p.1, p.2)) <$> parse_number t
          | EmptyString => None
          end
      end
  end
with parse_elems (fuel : nat) (s : string) {struct fuel} : option (list json * string) :=
  match fuel with
  | O => None
  | S n =>
      match parse_value n s with
      | Some (v, r) =>
          let r := skip_ws r in
          match strip_prefix "," r with
          | Some r' => (fun p => (v :: p.1, p.2)) <$> parse_elems n r'
          | None => match strip_prefix "]" r with Some r' => Some ([v], r') | None => None end
          end
      | None => None
      end
  end
with parse_members (fuel : nat) (s : string) {struct fuel} : option (list (string * json) * string) :=
  match fuel with
  | O => None
  | S n =>
      match strip_prefix (str1 dquote) (skip_ws s) with
      | Some s1 =>
          match parse_str_body s1 with
          | Some (k, s2) =>
              match strip_prefix ":" (skip_ws s2) with
              | Some s3 =>
                  match parse_value n s3 with
                  | Some (v, r) =>
                      let r := skip_ws r in
                      match strip_prefix "," r with
                      | Some r' => (fun p => ((k, v) :: p.1, p.2)) <$> parse_members n r'
                      | None => match strip_prefix "}" r with Some r' => Some ([(k, v)], r') | None => None end
                      end
                  | None => None
                  end
              | None => None
              end
          | None => None
          end
      | None => None
      end
  end.

(** [JSON.parse(text)]: [None] is the [SyntaxError] the host catches.
    Every call consumes a character before the next one, so the length
    of the text is enough fuel. *)
Definition json_parse (s : string) : option json :=
  match parse_value (S (String.length s)) s with
  | Some (j, r) => if decide (skip_ws r = EmptyString) then Some j else None
  | None => None
  end.

(** ** Well-formed values and the size bound on the fuel *)

(** What [JSON.parse] produces: objects with distinct keys. *)
Fixpoint json_wf (j : json) : bool :=
  match j with
  | JArr l => forallb json_wf l
  | JObj fs => bool_decide (NoDup (map fst fs)) && forallb (fun kv => json_wf kv.2) fs
  | _ => true
  end.

(** The fuel a value needs: one per value and one per element or
    member. *)
Fixpoint jsize (j : json) : nat :=
  match j with
  | JArr l => S (list_sum (map (fun x => S (jsize x)) l))
  | JObj fs => S (list_sum (map (fun kv => S (jsize kv.2)) fs))
  | _ => 1%nat
  end.

(** Only white space. *)
Fixpoint ws_only (s : string) : bool :=
  match s with
  | String c s' => is_ws c && ws_only s'
  | EmptyString => true
  end.

(** What may follow a value in the text [json_stringify] writes. *)
Definition value_end (r : string) : bool :=
  match r with
  | EmptyString => true
  | String c _ => bool_decide (c = ","%char \/ c = "010"%char)
  end.

(** ** Lemmas on strings *)

Lemma sapp_assoc (s1 s2 s3 : string) : (s1 ++ s2) ++ s3 = s1 ++ (s2 ++ s3).
Proof. induction s1; simpl; congruence. Qed.

Lemma sapp_nil_r (s : string) : s ++ EmptyString = s.
Proof. induction s; simpl; congruence. Qed.

Lemma slength_app (s1 s2 : string) : String.length (s1 ++ s2) = (String.length s1 + String.length s2)%nat.
Proof. induction s1; simpl; congruence. Qed.

Lemma skip_ws_app w s : ws_only w = true -> skip_ws (w ++ s) = skip_ws s.
Proof.
  induction w as [|c w IH]; [done|]. simpl. intros [-> Hw]%andb_prop. by apply IH.
Qed.

Lemma skip_ws_nonws c s : is_ws c = false -> skip_ws (String c s) = String c s.
Proof. simpl. by intros ->. Qed.

Lemma ws_only_app w w' : ws_only w = true -> ws_only w' = true -> ws_only (w ++ w') = true.
Proof. induction w as [|c w IH]; [done|]. simpl. intros [-> Hw]%andb_prop Hw'. by apply IH. Qed.

Lemma strip_prefix_app p s : strip_prefix p (p ++ s) = Some s.
Proof. induction p as [|c p IH]; [done|]. simpl. by rewrite decide_True. Qed.

Lemma nat_of_ascii_inj c d : nat_of_ascii c = nat_of_ascii d -> c = d.
Proof. intros H. by rewrite <- (ascii_nat_embedding c), <- (ascii_nat_embedding d), H. Qed.

Lemma nat_of_ascii_chr c : chr (nat_of_ascii c) = c.
Proof. apply ascii_nat_embedding. Qed.

Lemma nat_of_ascii_lt c : (nat_of_ascii c < 256)%nat.
Proof. apply nat_ascii_bounded. Qed.

#[export] Hint Rewrite sapp_assoc sapp_nil_r : json.

(** ** String literals *)

Lemma nat_of_hex_digit k : (k < 16)%nat -> hex_val (hex_digit k) = Some k.
Proof.
  intros Hk. unfold hex_val, hex_digit, chr.
  destruct (decide (k < 10)%nat);
    rewrite nat_ascii_embedding by lia; repeat case_decide; f_equal; lia.
Qed.

(** The code of [c] determines [c]. *)
Ltac ascii_of_code c n :=
  let E := fresh in
  assert (E : c = ascii_of_nat n) by (rewrite <- (ascii_nat_embedding c); congruence);
  subst c.

(** One escaped code unit reads back as itself. *)
Lemma parse_str_body_escape c s : parse_str_body (escape_char c ++ s) = cons_fst c (parse_str_body s).
Proof.
  unfold escape_char. set (n := nat_of_ascii c). assert (Hn : nat_of_ascii c = n) by done.
  pose proof (nat_of_ascii_lt c) as Hlt. clearbody n.
  case_decide; [ascii_of_code c 8; reflexivity|].
  case_decide; [ascii_of_code c 9; reflexivity|].
  case_decide; [ascii_of_code c 10; reflexivity|].
  case_decide; [ascii_of_code c 12; reflexivity|].
  case_decide; [ascii_of_code c 13; reflexivity|].
  case_decide; [ascii_of_code c 34; reflexivity|].
  case_decide; [ascii_of_code c 92; reflexivity|].
  case_decide.
  - pose proof (Nat.div_mod_eq n 16). pose proof (Nat.mod_upper_bound n 16 ltac:(lia)).
    set (q := n / 16) in *. set (r := n mod 16) in *. clearbody q r.
    simpl. rewrite !nat_of_hex_digit by lia.
    rewrite decide_True by lia.
    unfold chr. f_equal. f_equal. rewrite <- (ascii_nat_embedding c), Hn. f_equal. lia.
  - simpl. rewrite decide_False by (intros ->; vm_compute in Hn; lia).
    rewrite decide_False by (intros ->; vm_compute in Hn; lia).
    by rewrite decide_False by lia.
Qed.

Lemma parse_quote s rest : parse_str_body (quote_body s ++ String dquote rest) = Some (s, rest).
Proof.
  induction s as [|c s IH]; [done|].
  simpl. by rewrite sapp_assoc, parse_str_body_escape, IH.
Qed.

(** ** Numbers *)

Definition no_digit_start (r : string) : bool :=
  match r with String c _ => negb (is_digit c) | EmptyString => true end.

Lemma span_digits_uint d r :
  no_digit_start r = true -> span_digits (NilEmpty.string_of_uint d ++ r) = (NilEmpty.string_of_uint d, r).
Proof.
  intros Hr. induction d; simpl; try (by rewrite IHd).
  destruct r as [|c r]; [done|]. simpl in *. by destruct (is_digit c).
Qed.

(** [Number::toString] writes no leading zero. *)
Lemma to_uint_D0 m d : N.to_uint m = Decimal.D0 d -> d = Decimal.Nil.
Proof.
  intros E. pose proof (DecimalN.Unsigned.to_of (N.to_uint m)) as Hn.
  rewrite DecimalN.Unsigned.of_to, E, unorm_D0 in Hn.
  destruct (Decimal.nzhead d) eqn:Ez.
  1: (apply unorm_0 in Ez; rewrite Ez in Hn; by injection Hn).
  1: (exfalso; by eapply nzhead_nonzero).
  all: rewrite unorm_nzhead in Hn by (by rewrite Ez); rewrite Ez in Hn; discriminate.
Qed.

Lemma parse_uint_tok_print m r :
  no_digit_start r = true -> parse_uint_tok (NilEmpty.string_of_uint (N.to_uint m) ++ r) = Some (m, r).
Proof.
  intros Hr. pose proof (DecimalN.Unsigned.of_to m) as Hm.
  pose proof (DecimalN.Unsigned.to_of (N.to_uint m)) as Hn. rewrite Hm in Hn.
  destruct (N.to_uint m) eqn:E.
  1: (exfalso; by apply (unorm_nonnil Decimal.Nil)).
  1: (apply to_uint_D0 in E; subst; done).
  all: simpl; rewrite span_digits_uint by done; simpl; rewrite NilEmpty.usu; simpl; by rewrite <- Hm.
Qed.

Lemma uint_head m : exists c s', NilEmpty.string_of_uint (N.to_uint m) = String c s' /\ is_digit c = true.
Proof.
  pose proof (DecimalN.Unsigned.to_of (N.to_uint m)) as Hn. rewrite DecimalN.Unsigned.of_to in Hn.
  destruct (N.to_uint m); [exfalso; by apply (unorm_nonnil Decimal.Nil)|..]; by eexists _, _.
Qed.

Lemma parse_number_print z r :
  no_digit_start r = true -> number_continues r = false ->
  parse_number (js_string_of_int z ++ r) = Some (z, r).
Proof.
  intros Hd Hc. unfold parse_number, js_string_of_int.
  destruct (decide (z < 0)%Z).
  - simpl. rewrite parse_uint_tok_print by done. simpl. rewrite Hc. do 2 f_equal. lia.
  - destruct (uint_head (Z.to_N (Z.abs z))) as (c & s' & Es & Hm).
    cbn [String.append]. rewrite Es. cbn [String.append]. rewrite decide_False by (intros ->; done).
    change (String c (s' ++ r)) with (String c s' ++ r). rewrite <- Es, parse_uint_tok_print by done.
    cbn [fmap option_fmap option_map fst snd]. rewrite Hc. do 2 f_equal. lia.
Qed.

(** ** The first character of a value *)

Definition value_start (c : ascii) : bool :=
  bool_decide (c ∈ ["n"; "t"; "f"; "-"; dquote; "["; "{"]%char) || is_digit c.

Lemma stringify_head ind j : exists c s, stringify_at ind j = String c s /\ value_start c = true.
Proof.
  destruct j as [|[]|z|str|[]|[]]; try (by eexists _, _).
  simpl. unfold js_string_of_int. destruct (decide (z < 0)%Z); [by eexists _, _|].
  destruct (uint_head (Z.to_N (Z.abs z))) as (c & s' & -> & Hc).
  exists c, s'. split; [done|]. unfold value_start. by rewrite Hc, orb_true_r.
Qed.

Lemma value_start_not_ws c : value_start c = true -> is_ws c = false.
Proof.
  unfold value_start. intros [Hin|Hd]%orb_prop.
  - apply bool_decide_eq_true in Hin.
    repeat (apply elem_of_cons in Hin as [->|Hin]; [done|]). by apply elem_of_nil in Hin.
  - unfold is_digit, is_ws in *. apply bool_decide_eq_true in Hd. apply bool_decide_eq_false. lia.
Qed.

Lemma value_start_not_close c : value_start c = true -> c <> "]"%char /\ c <> "}"%char /\ c <> ","%char.
Proof. intros Hv. repeat split; intros ->; discriminate. Qed.

Lemma skip_ws_value ind j w r :
  ws_only w = true -> skip_ws (w ++ stringify_at ind j ++ r) = stringify_at ind j ++ r.
Proof.
  intros Hw. rewrite skip_ws_app by done.
  destruct (stringify_head ind j) as (c & s & E & Hc). rewrite E. simpl.
  by rewrite value_start_not_ws.
Qed.

(** ** Arrays and objects *)

Lemma field_set_fresh k v acc : k ∉ map fst acc -> field_set k v acc = (acc ++ [(k, v)])%list.
Proof.
  induction acc as [|[k' v'] acc IH]; [done|]. simpl. intros Hk.
  rewrite bool_decide_false by (intros ->; apply Hk; left).
  rewrite IH; [done|]. intros Hin. apply Hk. by right.
Qed.

Lemma fold_field_set_fresh fs acc :
  NoDup (map fst (acc ++ fs)%list) -> fold_left (fun fs kv => field_set kv.1 kv.2 fs) fs acc = (acc ++ fs)%list.
Proof.
  revert acc. induction fs as [|[k v] fs IH]; intros acc Hnd; simpl; [by rewrite List.app_nil_r|].
  rewrite map_app in Hnd. simpl in Hnd.
  apply list.NoDup_app in Hnd as (Hacc & Hdis & Hkfs). apply list.NoDup_cons in Hkfs as [Hk Hfs].
  rewrite field_set_fresh by (intros Hin; by apply (Hdis k); [|left]).
  rewrite IH, <- List.app_assoc; [done|].
  rewrite map_app, map_app. simpl. apply list.NoDup_app. split_and!.
  - apply list.NoDup_app. split_and!; [done| |apply NoDup_singleton].
    intros x Hx ?%list_elem_of_singleton; subst. by apply (Hdis k); [|left].
  - intros x [Hx|Hx%list_elem_of_singleton]%elem_of_app Hx'; [by apply (Hdis x); [|right]|by subst].
  - done.
Qed.

Lemma build_object_NoDup fs : NoDup (map fst fs) -> build_object fs = JObj fs.
Proof. intros Hnd. unfold build_object. by rewrite fold_field_set_fresh. Qed.

Lemma skip_ws_comma x : skip_ws ("," ++ x) = "," ++ x.
Proof. reflexivity. Qed.

(** Only a number needs a delimiter after it. *)
Definition is_num (j : json) : bool := match j with JNum _ => true | _ => false end.

(** The text of [j] at any indent, after any white space, reads back
    as [j] with enough fuel. *)
Definition prints_back (j : json) : Prop :=
  forall ind w rest fuel, ws_only ind = true -> ws_only w = true ->
    (value_end rest || negb (is_num j)) = true ->
    (jsize j <= fuel)%nat -> parse_value fuel (w ++ stringify_at ind j ++ rest) = Some (j, rest).

Lemma parse_elems_print ind l t rest :
  Forall prints_back l -> l <> [] -> ws_only ind = true ->
  value_end t = true -> skip_ws t = String "]" rest ->
  forall fuel w, ws_only w = true -> (list_sum (map (fun x => S (jsize x)) l) <= fuel)%nat ->
  parse_elems fuel (w ++ join ("," ++ nl ++ ind) (map (stringify_at ind) l) ++ t) = Some (l, rest).
Proof.
  intros Hl Hne Hind Ht Hskip. induction Hl as [|x l Hx Hl IH]; [done|]. intros fuel w Hw Hf.
  destruct fuel as [|m]; [simpl in Hf; lia|]. simpl in Hf.
  destruct l as [|y l].
  - cbn [map join parse_elems]. rewrite Hx by (rewrite ?Ht; done || lia). rewrite Hskip. done.
  - change (join ("," ++ nl ++ ind) (map (stringify_at ind) (x :: y :: l)))
      with (stringify_at ind x ++ ("," ++ nl ++ ind) ++ join ("," ++ nl ++ ind) (map (stringify_at ind) (y :: l))).
    rewrite !sapp_assoc. cbn [parse_elems]. rewrite Hx by (rewrite ?Ht; done || lia).
    cbn [String.append]. rewrite skip_ws_nonws by reflexivity.
    cbn [strip_prefix]. rewrite decide_True by done.
    cbn [strip_prefix]. rewrite <- sapp_assoc, IH; [done|done|apply ws_only_app; [done|done]|lia].
Qed.

Lemma parse_members_print ind fs t rest :
  Forall (fun kv => prints_back kv.2) fs -> fs <> [] -> ws_only ind = true ->
  value_end t = true -> skip_ws t = String "}" rest ->
  forall fuel w, ws_only w = true -> (list_sum (map (fun kv => S (jsize kv.2)) fs) <= fuel)%nat ->
  parse_members fuel (w ++ join ("," ++ nl ++ ind)
                              (map (fun kv => quote kv.1 ++ ": " ++ stringify_at ind kv.2) fs) ++ t)
  = Some (fs, rest).
Proof.
  intros Hl Hne Hind Ht Hskip. induction Hl as [|[k v] fs Hx Hl IH]; [done|]. intros fuel w Hw Hf.
  destruct fuel as [|m]; [simpl in Hf; lia|]. simpl in Hf.
  assert (Hkey : forall r, parse_members (S m) (w ++ (quote k ++ ": " ++ stringify_at ind v) ++ r)
                  = match parse_value m (" " ++ stringify_at ind v ++ r) with
                    | Some (v', r') =>
                        match strip_prefix "," (skip_ws r') with
                        | Some r'' => (fun p => ((k, v') :: p.1, p.2)) <$> parse_members m r''
                        | None => match strip_prefix "}" (skip_ws r') with
                                  | Some r'' => Some ([(k, v')], r'') | None => None end
                        end
                    | None => None
                    end).
  { intros r. cbn [parse_members]. rewrite skip_ws_app by done. unfold quote.
    rewrite !sapp_assoc. cbn [String.append]. rewrite skip_ws_nonws by reflexivity.
    cbn [strip_prefix str1]. rewrite decide_True by done. cbn [strip_prefix].
    rewrite sapp_assoc. unfold str1. cbn [String.append]. rewrite parse_quote.
    cbn [String.append]. rewrite skip_ws_nonws by reflexivity.
    cbn [strip_prefix]. rewrite decide_True by done. done. }
  destruct fs as [|[k' v'] fs].
  - cbn [map join]. rewrite Hkey, (Hx ind " " t) by (rewrite ?Ht; done || simpl in *; lia).
    by rewrite Hskip.
  - change (join ("," ++ nl ++ ind) (map (fun kv => quote kv.1 ++ ": " ++ stringify_at ind kv.2) ((k, v) :: (k', v') :: fs)))
      with ((quote k ++ ": " ++ stringify_at ind v) ++ ("," ++ nl ++ ind) ++
              join ("," ++ nl ++ ind) (map (fun kv => quote kv.1 ++ ": " ++ stringify_at ind kv.2) ((k', v') :: fs))).
    rewrite sapp_assoc, Hkey. rewrite (sapp_assoc ("," ++ nl ++ ind)).
    rewrite (Hx ind " ") by (rewrite ?Ht; done || simpl in *; lia).
    rewrite !sapp_assoc, skip_ws_comma, strip_prefix_app, <- (sapp_assoc nl ind).
    rewrite IH; [done|done|by apply ws_only_app|simpl in *; lia].
Qed.

Lemma parse_value_ws n w s : ws_only w = true -> parse_value n (w ++ s) = parse_value n s.
Proof. intros Hw. destruct n; [done|]. cbn [parse_value]. by rewrite skip_ws_app. Qed.

Lemma int_head z : exists c s, js_string_of_int z = String c s /\ (c = "-"%char \/ is_digit c = true).
Proof.
  unfold js_string_of_int. destruct (decide (z < 0)%Z); [by eexists _, _; split; [|left]|].
  destruct (uint_head (Z.to_N (Z.abs z))) as (c & s' & E & Hc). rewrite E. by eexists _, _; split; [|right].
Qed.

Lemma value_end_number r : value_end r = true -> no_digit_start r = true /\ number_continues r = false.
Proof.
  destruct r as [|c r]; [done|]. unfold value_end. intros Hc%bool_decide_eq_true.
  by destruct Hc as [->| ->].
Qed.

Lemma join_cons_head sep x xs : exists r, join sep (x :: xs) = x ++ r.
Proof. destruct xs; [exists EmptyString; by rewrite sapp_nil_r|by eexists]. Qed.

Lemma join_map_head {A} sep (f : A -> string) x xs : exists r, join sep (map f (x :: xs)) = f x ++ r.
Proof. apply join_cons_head. Qed.

Lemma Forall_wf_prints {A} (f : A -> json) (l : list A) :
  Forall (fun x => json_wf (f x) = true -> prints_back (f x)) l -> forallb (fun x => json_wf (f x)) l = true ->
  Forall (fun x => prints_back (f x)) l.
Proof.
  induction 1 as [|x l Hx Hl IH]; [constructor|]. simpl. intros [Hw Hws]%andb_prop.
  constructor; auto.
Qed.

Lemma open_bracket x : "[" ++ x = String "[" x.
Proof. reflexivity. Qed.

Lemma open_brace x : "{" ++ x = String "{" x.
Proof. reflexivity. Qed.

Lemma parse_value_array n x :
  parse_value (S n) (String "[" x)
  = match strip_prefix "]" (skip_ws x) with
    | Some r' => Some (JArr [], r')
    | None => (fun p => (JArr p.1, p.2)) <$> parse_elems n x
    end.
Proof. reflexivity. Qed.

Lemma parse_value_object n x :
  parse_value (S n) (String "{" x)
  = match strip_prefix "}" (skip_ws x) with
    | Some r' => Some (JObj [], r')
    | None => (fun p => (build_object p.1, p.2)) <$> parse_members n x
    end.
Proof. reflexivity. Qed.

Lemma strip_close_value ind j r : strip_prefix "]" (skip_ws (stringify_at ind j ++ r)) = None.
Proof.
  destruct (stringify_head ind j) as (c & s & E & Hc). rewrite E. cbn [String.append].
  rewrite skip_ws_nonws by (by apply value_start_not_ws). cbn [strip_prefix].
  rewrite decide_False; [done|]. intros <-. discriminate Hc.
Qed.

Lemma parse_print j : json_wf j = true -> prints_back j.
Proof.
  induction j as [| b | z | str | l IH | fs IH] using json_ind';
    intros Hwf ind w rest fuel Hind Hw Hr Hf; rewrite parse_value_ws by done;
    destruct fuel as [|n]; [simpl in Hf; lia| |simpl in Hf; lia| |simpl in Hf; lia| |simpl in Hf; lia| |
                            simpl in Hf; lia| |simpl in Hf; lia|].
  - reflexivity.
  - by destruct b.
  - destruct (int_head z) as (c & s & E & Hc). rewrite orb_false_r in Hr.
    apply value_end_number in Hr as [Hd Hn].
    cbn [parse_value stringify_at]. rewrite E. cbn [String.append].
    rewrite skip_ws_nonws by (destruct Hc as [->|Hc]; [done|apply value_start_not_ws; unfold value_start; by rewrite Hc, orb_true_r]).
    assert (Hnot : forall a p, a ∈ ["n"; "t"; "f"; dquote; "["; "{"]%char -> strip_prefix (String a p) (String c (s ++ rest)) = None /\ c <> a).
    { intros a p Ha. assert (c <> a).
      { intros ->. destruct Hc as [->|Hc]; [by repeat (apply elem_of_cons in Ha as [?|Ha]; [done|]); apply elem_of_nil in Ha|].
        by repeat (apply elem_of_cons in Ha as [->|Ha]; [done|]); apply elem_of_nil in Ha. }
      split; [|done]. simpl. by rewrite decide_False. }
    rewrite (proj1 (Hnot "n"%char _ ltac:(apply list_elem_of_In; simpl; auto 10))), (proj1 (Hnot "t"%char _ ltac:(apply list_elem_of_In; simpl; auto 10))),
      (proj1 (Hnot "f"%char _ ltac:(apply list_elem_of_In; simpl; auto 10))).
    rewrite decide_False by (apply (Hnot _ EmptyString); apply list_elem_of_In; simpl; auto 10).
    rewrite decide_False by (apply (Hnot _ EmptyString); apply list_elem_of_In; simpl; auto 10).
    rewrite decide_False by (apply (Hnot _ EmptyString); apply list_elem_of_In; simpl; auto 10).
    change (String c (s ++ rest)) with (String c s ++ rest). rewrite <- E, parse_number_print by done. done.
  - change (stringify_at ind (JStr str) ++ rest) with (String dquote ((quote_body str ++ str1 dquote) ++ rest)).
    rewrite sapp_assoc. change (str1 dquote ++ rest) with (String dquote rest).
    transitivity ((fun p => (JStr p.1, p.2)) <$> parse_str_body (quote_body str ++ String dquote rest));
      [reflexivity|]. by rewrite parse_quote.
  - destruct l as [|x l']; [reflexivity|]. simpl in Hf, Hwf. cbn [stringify_at].
    remember (ind ++ "  ") as ind' eqn:Ei.
    assert (Hind' : ws_only ind' = true) by (subst; apply ws_only_app; [done|reflexivity]).
    rewrite !sapp_assoc, open_bracket, parse_value_array, <- (sapp_assoc nl ind'), skip_ws_app
      by (by apply ws_only_app).
    destruct (join_cons_head ("," ++ nl ++ ind') (stringify_at ind' x) (map (stringify_at ind') l')) as [R HR].
    assert (Hs : forall T, strip_prefix "]" (skip_ws (join ("," ++ nl ++ ind') (map (stringify_at ind') (x :: l')) ++ T)) = None).
    { intros T. cbn [map]. rewrite HR, sapp_assoc. apply strip_close_value. }
    rewrite Hs, (parse_elems_print ind' (x :: l') (nl ++ ind ++ "]" ++ rest) rest); [done| | |done|done| |by apply ws_only_app|simpl; lia].
    + by apply (Forall_wf_prints id).
    + done.
    + rewrite (skip_ws_app nl), (skip_ws_app ind); [reflexivity|done|reflexivity].
  - destruct fs as [|[k v] fs']; [reflexivity|]. simpl in Hf, Hwf. cbn [stringify_at].
    apply andb_prop in Hwf as [Hnd Hwf]. apply bool_decide_eq_true in Hnd.
    remember (ind ++ "  ") as ind' eqn:Ei.
    assert (Hind' : ws_only ind' = true) by (subst; apply ws_only_app; [done|reflexivity]).
    rewrite !sapp_assoc, open_brace, parse_value_object, <- (sapp_assoc nl ind'), skip_ws_app
      by (by apply ws_only_app).
    assert (Hs : forall T, strip_prefix "}" (skip_ws (join ("," ++ nl ++ ind')
                  (map (fun kv => quote kv.1 ++ ": " ++ stringify_at ind' kv.2) ((k, v) :: fs')) ++ T)) = None).
    { intros T. destruct (join_map_head ("," ++ nl ++ ind') (fun kv => quote kv.1 ++ ": " ++ stringify_at ind' kv.2)
        (k, v) fs') as [R HR].
      rewrite HR. reflexivity. }
    rewrite Hs, (parse_members_print ind' ((k, v) :: fs') (nl ++ ind ++ "}" ++ rest) rest);
      [|by apply (Forall_wf_prints snd)|done|done|done|
        rewrite (skip_ws_app nl), (skip_ws_app ind); [reflexivity|done|reflexivity]|by apply ws_only_app|simpl; lia].
    cbn [fmap option_fmap option_map fst snd]. by rewrite build_object_NoDup.
Qed.

(** ** The fuel of [json_parse] is enough *)

Lemma join_length_ge sep xs :
  (1 <= String.length sep)%nat -> xs <> [] ->
  (list_sum (map (fun x => S (String.length x)) xs) <= S (String.length (join sep xs)))%nat.
Proof.
  intros Hs. induction xs as [|x [|y xs] IH]; intros Hne; [done|simpl; lia|].
  change (join sep (x :: y :: xs)) with (x ++ sep ++ join sep (y :: xs)).
  rewrite !slength_app. cbn [map list_sum foldr] in *. specialize (IH ltac:(done)). lia.
Qed.

Lemma list_sum_le {A} (f g : A -> nat) l :
  Forall (fun x => f x <= g x)%nat l -> (list_sum (map f l) <= list_sum (map g l))%nat.
Proof. induction 1; simpl; lia. Qed.

Lemma jsize_le_length ind j : (jsize j <= String.length (stringify_at ind j))%nat.
Proof.
  revert ind. induction j as [| b | z | str | l IH | fs IH] using json_ind'; intros ind.
  - simpl; lia.
  - destruct b; simpl; lia.
  - destruct (int_head z) as (c & s & E & _). cbn [stringify_at]. rewrite E. simpl; lia.
  - simpl; lia.
  - destruct l as [|x l]; [simpl; lia|]. cbn [stringify_at jsize].
    rewrite !slength_app.
    pose proof (join_length_ge ("," ++ nl ++ (ind ++ "  ")) (map (stringify_at (ind ++ "  ")) (x :: l))
                  ltac:(simpl; lia) ltac:(done)) as Hj.
    rewrite map_map in Hj.
    assert (list_sum (map (fun x => S (jsize x)) (x :: l))
            <= list_sum (map (fun y => S (String.length (stringify_at (ind ++ "  ") y))) (x :: l)))%nat.
    { apply list_sum_le. eapply list.Forall_impl; [exact IH|]. intros y Hy. simpl. specialize (Hy (ind ++ "  ")). lia. }
    simpl (String.length "[") in *. simpl (String.length "]"). simpl (String.length nl). lia.
  - destruct fs as [|[k v] fs]; [simpl; lia|]. cbn [stringify_at jsize].
    rewrite !slength_app.
    pose proof (join_length_ge ("," ++ nl ++ (ind ++ "  "))
                  (map (fun kv => quote kv.1 ++ ": " ++ stringify_at (ind ++ "  ") kv.2) ((k, v) :: fs))
                  ltac:(simpl; lia) ltac:(done)) as Hj.
    rewrite map_map in Hj.
    assert (list_sum (map (fun kv => S (jsize kv.2)) ((k, v) :: fs))
            <= list_sum (map (fun kv => S (String.length (quote kv.1 ++ ": " ++ stringify_at (ind ++ "  ") kv.2)))
                          ((k, v) :: fs)))%nat.
    { apply list_sum_le. eapply list.Forall_impl; [exact IH|]. intros [k' v'] Hy. simpl in Hy |- *.
      rewrite !slength_app. specialize (Hy (ind ++ "  ")). simpl. lia. }
    simpl (String.length "{") in *. simpl (String.length "}"). simpl (String.length nl). lia.
Qed.

(** ** The round trip *)

(** C21. The document round trip (spec §4.2, "serializing a Board and
    reparsing it yields an observably-equal Board"): [JSON.parse] of
    the text [JSON.stringify(data, null, 2)] writes gives [data] back,
    for every value whose objects have distinct keys. *)
Theorem json_parse_stringify (j : json) : json_wf j = true -> json_parse (json_stringify j) = Some j.
Proof.
  intros Hwf. unfold json_parse.
  pose proof (parse_print j Hwf "" "" "" (S (String.length (json_stringify j))) eq_refl eq_refl eq_refl
                ltac:(pose proof (jsize_le_length "" j); unfold json_stringify; lia)) as E.
  rewrite sapp_nil_r in E. cbn [String.append] in E. unfold json_stringify in *. rewrite E.
  by rewrite decide_True.
Qed.

(** ** Text after a value *)

Lemma skip_ws_empty r : skip_ws r = EmptyString -> ws_only r = true.
Proof. induction r as [|c r IH]; [done|]. simpl. destruct (is_ws c); [done|discriminate]. Qed.

(** An array or object followed by anything but white space is not a
    JSON text: [JSON.parse] throws. *)
Lemma json_parse_trailing j r :
  json_wf j = true -> is_num j = false -> ws_only r = false -> json_parse (json_stringify j ++ r) = None.
Proof.
  intros Hwf Hn Hr. unfold json_parse.
  pose proof (parse_print j Hwf "" "" r (S (String.length (json_stringify j ++ r))) eq_refl eq_refl
                ltac:(by rewrite Hn, orb_true_r)
                ltac:(pose proof (jsize_le_length "" j); rewrite slength_app; unfold json_stringify in *; lia)) as E.
  cbn [String.append] in E. unfold json_stringify in *. rewrite E.
  rewrite decide_False; [done|]. intros Hs. apply skip_ws_empty in Hs. congruence.
Qed.

Lemma json_parse_stringify_witness :
  json_wf (JObj [("columns", JArr [JObj [("id", JStr "todo"); ("title", JStr "To Do"); ("cards", JArr [])]])]) = true /\
  json_parse (json_stringify (JObj [("columns", JArr [JObj [("id", JStr "todo"); ("title", JStr "To Do"); ("cards", JArr [])]])]))
  = Some (JObj [("columns", JArr [JObj [("id", JStr "todo"); ("title", JStr "To Do"); ("cards", JArr [])]])]).
Proof.
  assert (H : json_wf (JObj [("columns", JArr [JObj [("id", JStr "todo"); ("title", JStr "To Do"); ("cards", JArr [])]])]) = true)
    by (vm_compute; reflexivity).
  split; [exact H|]. exact (json_parse_stringify _ H).
Defined.
