(* ===== verification/CodecFuel.v ===== *)
(** * CodecFuel: the fuel of [JSON.parse] never runs out.

    [Codec.json_parse] runs the recursive-descent parser with fuel
    [S (length s)].  This file shows the choice is enough: a parse that
    succeeds with some fuel succeeds with as much fuel as the characters
    it consumes, so giving more fuel than [S (length s)] never changes
    the result, and [json_parse] is the parser run without a bound.

    The proof measures the text consumed: every nested call of
    [parse_value], [parse_elems] and [parse_members] is preceded or
    followed by at least one character of its caller ([[], [,], [:],
    the closing bracket), so a successful call of fuel [n] can be
    replayed with fuel [m] as soon as [m] covers the consumed length.
    This is a fact about the model (the bound [S (length s)] chosen for
    [Codec.json_parse]), not about the repository's code. *)

From S2P Require Import Prelude Json Codec.
From Stdlib Require Import Ascii DecimalString.

Local Arguments String.append : simpl nomatch.

(** ** Lengths of the scanners *)

Lemma skip_ws_length s : (String.length (skip_ws s) <= String.length s)%nat.
Proof. induction s as [|c s IH]; cbn; [done|]. destruct (is_ws c); cbn; lia. Qed.

Lemma strip_prefix_length p s r :
  strip_prefix p s = Some r -> String.length s = (String.length p + String.length r)%nat.
Proof.
  revert s. induction p as [|a p IH]; intros [|b s] H; cbn in H; [by injection H as <-..|done|].
  destruct (decide (a = b)); [|done]. cbn. by rewrite (IH s H).
Qed.

Lemma span_digits_length s : (String.length (span_digits s).2 <= String.length s)%nat.
Proof.
  induction s as [|c s IH]; cbn; [done|]. destruct (is_digit c); cbn; [|done].
  destruct (span_digits s); cbn in *; lia.
Qed.

Lemma parse_number_length s z r : parse_number s = Some (z, r) -> (String.length r < String.length s)%nat.
Proof.
  assert (Hu : forall t p, parse_uint_tok t = Some p -> (String.length p.2 < String.length t)%nat).
  { intros [|c t] [m r'] H; cbn in H; [done|].
    destruct (decide (c = "0"%char)); [injection H as <- <-; cbn; lia|].
    destruct (is_digit c); [|done]. pose proof (span_digits_length t) as Ht.
    destruct (span_digits t) as [ds r'']. cbn [snd] in Ht.
    match type of H with context [_ <$> ?o] => destruct o end; cbn [fmap option_fmap option_map] in H; [|done].
    injection H as <- <-. cbn [snd String.length]. lia. }
  unfold parse_number. intros H.
  destruct s as [|c t]; [done|]. destruct (decide (c = "-"%char)).
  - destruct (parse_uint_tok t) as [p|] eqn:E; cbn in H; [|done].
    destruct (number_continues p.2); [done|]. injection H as _ <-. apply Hu in E. cbn. lia.
  - destruct (parse_uint_tok (String c t)) as [p|] eqn:E; cbn in H; [|done].
    destruct (number_continues p.2); [done|]. injection H as _ <-. by apply Hu in E.
Qed.

Lemma cons_fst_length c o k r :
  cons_fst c o = Some (k, r) -> exists k', o = Some (k', r).
Proof. destruct o as [[]|]; cbn; [intros [= _ <-]; by eexists|done]. Qed.

(** The string body ends at its closing quote, after the text it read. *)
Lemma parse_str_body_length s k r : parse_str_body s = Some (k, r) -> (String.length r < String.length s)%nat.
Proof.
  revert k r. induction s as [s IH] using (induction_ltof1 _ String.length); unfold ltof in IH.
  intros k r H. destruct s as [|c s1]; cbn in H; [done|].
  destruct (decide (c = dquote)); [injection H as _ <-; cbn; lia|].
  destruct (decide (c = bslash)).
  - destruct s1 as [|x s2]; [done|].
    assert (Hs2 : forall k', parse_str_body s2 = Some (k', r) -> (String.length r < String.length (String c (String x s2)))%nat).
    { intros k' Hk. cbn. apply IH in Hk; cbn; lia. }
    repeat (case_decide; [by destruct (cons_fst_length _ _ _ _ H) as [? ?%Hs2]|]).
    case_decide; [|done].
    destruct s2 as [|h1 [|h2 [|h3 [|h4 s3]]]]; try done.
    destruct (hex_val h1), (hex_val h2), (hex_val h3), (hex_val h4); try done.
    case_decide; [|done]. destruct (cons_fst_length _ _ _ _ H) as [k' Hk].
    apply IH in Hk; cbn in *; lia.
  - case_decide; [done|]. destruct (cons_fst_length _ _ _ _ H) as [k' Hk].
    apply IH in Hk; cbn; lia.
Qed.

(** ** Every call consumes text *)

(** The length facts behind one branch of the parser. *)
Ltac len_step IHv IHe IHm :=
  match goal with
  | H : strip_prefix _ (skip_ws ?x) = Some _ |- _ =>
      pose proof (skip_ws_length x); apply strip_prefix_length in H; cbn [String.length] in H
  | H : strip_prefix _ _ = Some _ |- _ => apply strip_prefix_length in H; cbn [String.length] in H
  | H : skip_ws ?x = _ |- _ => pose proof (skip_ws_length x); rewrite H in *; clear H
  | H : parse_str_body _ = Some (_, _) |- _ => apply parse_str_body_length in H
  | H : parse_number _ = Some (_, _) |- _ => apply parse_number_length in H
  | H : parse_value _ _ = Some _ |- _ => apply IHv in H
  | H : parse_elems _ _ = Some _ |- _ => apply IHe in H
  | H : parse_members _ _ = Some _ |- _ => apply IHm in H
  end.

Lemma parse_consumes n :
  (forall s p, parse_value n s = Some p -> (String.length p.2 < String.length s)%nat) /\
  (forall s p, parse_elems n s = Some p -> (String.length p.2 < String.length s)%nat) /\
  (forall s p, parse_members n s = Some p -> (String.length p.2 < String.length s)%nat).
Proof.
  induction n as [|n (IHv & IHe & IHm)]; [done|].
  split_and!; intros s p H; cbn [parse_value parse_elems parse_members] in H;
    repeat (case_match; simplify_eq); cbn [fst snd] in *;
    repeat match goal with
           | H : _ <$> ?o = Some _ |- _ =>
               destruct o as [[]|] eqn:?; cbn [fmap option_fmap option_map fst snd] in H; simplify_eq
           end;
    repeat len_step IHv IHe IHm; cbn [fst snd String.length] in *; lia.
Qed.

(** ** A successful parse replays with the fuel of its length *)

(** Rewrite a recursive call of the goal, made with fuel [m], by the
    same call of the hypotheses made with fuel [n]. *)
Ltac fuel_rewrite IHv IHe IHm Cv Ce Cm :=
  match goal with
  | E : parse_value ?k ?x = Some ?q |- context [parse_value ?m ?x] =>
      tryif unify k m then fail
      else rewrite (IHv x q m E) by (repeat len_step Cv Ce Cm; cbn [fst snd String.length] in *; lia)
  | E : parse_elems ?k ?x = Some ?q |- context [parse_elems ?m ?x] =>
      tryif unify k m then fail
      else rewrite (IHe x q m E) by (repeat len_step Cv Ce Cm; cbn [fst snd String.length] in *; lia)
  | E : parse_members ?k ?x = Some ?q |- context [parse_members ?m ?x] =>
      tryif unify k m then fail
      else rewrite (IHm x q m E) by (repeat len_step Cv Ce Cm; cbn [fst snd String.length] in *; lia)
  end.

Lemma parse_fuel n :
  (forall s p m, parse_value n s = Some p -> (String.length s <= m + String.length p.2)%nat ->
     parse_value m s = Some p) /\
  (forall s p m, parse_elems n s = Some p -> (String.length s <= m + String.length p.2)%nat ->
     parse_elems m s = Some p) /\
  (forall s p m, parse_members n s = Some p -> (String.length s <= m + String.length p.2)%nat ->
     parse_members m s = Some p).
Proof.
  induction n as [|n (IHv & IHe & IHm)]; [done|].
  pose proof (parse_consumes (S n)) as (Cv & Ce & Cm).
  pose proof (parse_consumes n) as (Cv' & Ce' & Cm').
  split_and!; intros s p [|m] H Hm;
    try (first [apply Cv in H | apply Ce in H | apply Cm in H]; lia).
  all: cbn [parse_value parse_elems parse_members] in H |- *.
  (* follow the branch the hypothesis took *)
  all: repeat match type of H with
         | context [match ?x with _ => _ end] => destruct x eqn:?
         | context [_ <$> ?o] => destruct o as [[]|] eqn:?; cbn [fmap option_fmap option_map fst snd] in H
         end.
  all: simplify_eq; cbn [fst snd] in Hm.
  (* replay it in the goal, with fuel [m] for the nested calls *)
  all: repeat first
         [ fuel_rewrite IHv IHe IHm Cv' Ce' Cm'
         | match goal with E : strip_prefix ?a ?b = _ |- context [strip_prefix ?a ?b] =>
             rewrite E; cbn beta iota zeta end ].
  all: by cbn [fmap option_fmap option_map fst snd].
Qed.

(** ** Adequacy of the fuel *)

(** The fuel of [json_parse], [S (length s)], never cuts a parse short:
    whenever the parser, run with any fuel, reads a value followed only
    by white space, [json_parse] returns that value.  This justifies
    the bound of the model; [JSON.parse] itself has no fuel. *)
Lemma json_parse_fuel_adequate (s : string) (n : nat) (j : json) (r : string) :
  parse_value n s = Some (j, r) -> skip_ws r = EmptyString -> json_parse s = Some j.
Proof.
  intros H Hr. unfold json_parse.
  rewrite (proj1 (parse_fuel n) s (j, r) (S (String.length s)) H) by (cbn [snd]; lia).
  by rewrite decide_True.
Qed.
