(* ===== verification/Board.v ===== *)
(** * Board: the abstract board model (spec §3 and §4.1).

    The code never declares a board type: it works on parsed JSON.  This
    file gives the typed view the rest of the development refines the
    code against:
    - [card], [column] and [board] with the fields of the document
      format, and the encoding [board_to_json] into the [json] the code
      sees, with the field order the code itself writes
      ([{ id, title, cards }] for a column, [{ id, title }] for a card);
    - the operations of spec §4.1 as total functions on boards, each a
      no-op when an identifier does not resolve ([remove_column],
      [rename_column], [add_column], [add_card], [remove_card],
      [move_column], [move_card]);
    - [all_cards], the multiset of cards used by the conservation
      theorems, and lemmas on list insertion shared by the components. *)

From S2P Require Import Prelude Json.

Record card := Card { card_id : string; card_title : string }.
Record column := Column { col_id : string; col_title : string; col_cards : list card }.
Abbreviation board := (list column).

#[export] Instance card_eq_dec : EqDecision card.
Proof. solve_decision. Defined.
#[export] Instance column_eq_dec : EqDecision column.
Proof. solve_decision. Defined.

(** ** Encoding into the document's JSON *)

Definition card_to_json (k : card) : json :=
  JObj [("id", JStr (card_id k)); ("title", JStr (card_title k))].

Definition column_to_json (c : column) : json :=
  JObj [("id", JStr (col_id c)); ("title", JStr (col_title c));
        ("cards", JArr (map card_to_json (col_cards c)))].

Definition board_to_json (b : board) : json :=
  JObj [("columns", JArr (map column_to_json b))].

(** The board of the scenarios of spec §8: column "a" with cards c1, c2
    and an empty column "b". *)
Definition spec_board : board :=
  [Column "a" "A" [Card "c1" "X"; Card "c2" "Y"]; Column "b" "B" []].

(** ** The abstract operations *)

(** [l] with [x] inserted before position [i] (appended past the end). *)
Definition insert_at {A} (i : nat) (x : A) (l : list A) : list A :=
  take i l ++ x :: drop i l.

Definition set_title (t : string) (c : column) : column :=
  Column (col_id c) t (col_cards c).
Definition set_cards (ks : list card) (c : column) : column :=
  Column (col_id c) (col_title c) ks.

Definition find_col (id : string) (b : board) : option (nat * column) :=
  list_find (fun c => col_id c = id) b.
Definition find_card (id : string) (ks : list card) : option (nat * card) :=
  list_find (fun k => card_id k = id) ks.

Definition remove_column (id : string) (b : board) : board :=
  match find_col id b with Some (i, _) => delete i b | None => b end.

Definition rename_column (id t : string) (b : board) : board :=
  match find_col id b with Some (i, c) => <[i := set_title t c]> b | None => b end.

Definition add_column (c : column) (b : board) : board := b ++ [c].

Definition add_card (id : string) (k : card) (b : board) : board :=
  match find_col id b with
  | Some (i, c) => <[i := set_cards (col_cards c ++ [k]) c]> b
  | None => b
  end.

Definition remove_card (cid kid : string) (b : board) : board :=
  match find_col cid b with
  | Some (i, c) =>
      match find_card kid (col_cards c) with
      | Some (j, _) => <[i := set_cards (delete j (col_cards c)) c]> b
      | None => b
      end
  | None => b
  end.

(** Spec §4.3: the column [fromId] takes the slot [toId] had. *)
Definition move_column (fromId toId : string) (b : board) : board :=
  match find_col fromId b, find_col toId b with
  | Some (i, c), Some (j, _) => if decide (i = j) then b else insert_at j c (delete i b)
  | _, _ => b
  end.

(** Spec §4.1 [moveCard]: remove, shift the destination left by one in a
    same-column move past the source, insert (append when no index). *)
Definition move_card (fromId toId kid : string) (toIndex : option nat) (b : board) : board :=
  match find_col fromId b, find_col toId b with
  | Some (i, c), Some (j, _) =>
      match find_card kid (col_cards c) with
      | Some (p, k) =>
          let b1 := <[i := set_cards (delete p (col_cards c)) c]> b in
          match b1 !! j with
          | Some d =>
              let q := match toIndex with
                       | Some t => if bool_decide (fromId = toId /\ p < t)%nat then (t - 1)%nat else t
                       | None => length (col_cards d)
                       end in
              <[j := set_cards (insert_at q k (col_cards d)) d]> b1
          | None => b
          end
      | None => b
      end
  | _, _ => b
  end.

Definition all_cards (b : board) : list card := concat (map col_cards b).

(** ** Lemmas *)

Lemma insert_at_perm {A} i (x : A) l : insert_at i x l ≡ₚ x :: l.
Proof.
  unfold insert_at. rewrite <- Permutation_middle. by rewrite take_drop.
Qed.

Lemma insert_at_lookup {A} i (x : A) l : (i <= length l)%nat -> insert_at i x l !! i = Some x.
Proof.
  intros H. unfold insert_at. rewrite lookup_app_r; rewrite length_take; [|lia].
  by replace (i - i `min` length l)%nat with 0%nat by lia.
Qed.

Lemma length_insert_at {A} i (x : A) l : length (insert_at i x l) = S (length l).
Proof. pose proof (insert_at_perm i x l) as H. by rewrite H. Qed.

Lemma delete_perm {A} (l : list A) i x : l !! i = Some x -> l ≡ₚ x :: delete i l.
Proof. intros H. rewrite delete_take_drop. by apply take_drop_S_perm. Qed.

Lemma find_col_Some id b i c :
  find_col id b = Some (i, c) -> b !! i = Some c /\ col_id c = id.
Proof.
  unfold find_col. intros H. apply list_find_Some in H as (Hi & Hp & _).
  done.
Qed.

Lemma find_card_Some id ks i k :
  find_card id ks = Some (i, k) -> ks !! i = Some k /\ card_id k = id.
Proof.
  unfold find_card. intros H. apply list_find_Some in H as (Hi & Hp & _).
  done.
Qed.

(** Replacing one column's cards by a permutation of them plus [extra]. *)
Lemma all_cards_insert b i c ks :
  b !! i = Some c ->
  all_cards (<[i := set_cards ks c]> b) ++ col_cards c ≡ₚ all_cards b ++ ks.
Proof.
  unfold all_cards. revert i. induction b as [|c' b IH]; intros [|i] Hi; simpl in *; try done.
  - injection Hi as ->. simpl. solve_Permutation.
  - rewrite <- !app_assoc. apply Permutation_app_head. by apply IH.
Qed.

Lemma length_all_cards_insert b i c ks :
  b !! i = Some c ->
  length (all_cards (<[i := set_cards ks c]> b)) + length (col_cards c)
  = length (all_cards b) + length ks.
Proof.
  intros H. rewrite <- !length_app. apply Permutation_length. by apply all_cards_insert.
Qed.

Create HintDb board.
#[export] Hint Resolve find_col_Some find_card_Some : board.

(** ** Uniqueness of identifiers (spec §3) *)

(** Column ids are unique in the board, card ids are unique across it. *)
Definition wf (b : board) : Prop :=
  NoDup (map col_id b) /\ NoDup (map card_id (all_cards b)).

Lemma NoDup_map_perm_app {A B} (f : A -> B) l l' r :
  l ≡ₚ l' ++ r -> NoDup (map f l) -> NoDup (map f l').
Proof. intros Hp Hnd. rewrite Hp, map_app in Hnd. by apply list.NoDup_app in Hnd as [? _]. Qed.

(** With unique keys, the element found by key is the only one: after
    deleting it the key no longer resolves. *)
Lemma list_find_delete_unique {A} (f : A -> string) (l : list A) id i x :
  NoDup (map f l) -> list_find (fun y => f y = id) l = Some (i, x) ->
  list_find (fun y => f y = id) (delete i l) = None.
Proof.
  intros Hnd Hf. apply list_find_Some in Hf as (Hi & Hx & _).
  apply list_find_None, Forall_forall. intros y Hy Hfy.
  apply list_elem_of_In, list_elem_of_lookup in Hy as [j Hj]. rewrite list_lookup_delete in Hj.
  assert (Hl1 : map f l !! i = Some id) by (rewrite list_lookup_fmap, Hi; simpl; by rewrite Hx).
  assert (Hl2 : map f l !! (if decide (j < i) then j else S j) = Some id)
    by (rewrite list_lookup_fmap, Hj; simpl; by rewrite Hfy).
  pose proof (NoDup_lookup _ _ _ _ Hnd Hl1 Hl2).
  case_decide; lia.
Qed.

Lemma map_col_id_set_cards b i c ks :
  b !! i = Some c -> map col_id (<[i := set_cards ks c]> b) = map col_id b.
Proof.
  intros Hi. rewrite list_fmap_insert. simpl. by apply list_insert_id; rewrite list_lookup_fmap, Hi.
Qed.

Lemma map_col_id_set_title b i c t :
  b !! i = Some c -> map col_id (<[i := set_title t c]> b) = map col_id b.
Proof.
  intros Hi. rewrite list_fmap_insert. simpl. by apply list_insert_id; rewrite list_lookup_fmap, Hi.
Qed.

Lemma all_cards_set_title b i c t :
  b !! i = Some c -> all_cards (<[i := set_title t c]> b) = all_cards b.
Proof.
  unfold all_cards. revert i. induction b as [|c' b IH]; intros [|i] Hi; simpl in *; try done.
  - by injection Hi as ->.
  - by rewrite IH.
Qed.

Lemma all_cards_delete b i c :
  b !! i = Some c -> all_cards b ≡ₚ all_cards (delete i b) ++ col_cards c.
Proof.
  intros Hi. unfold all_cards. rewrite (delete_perm b i c Hi) at 1. simpl. apply Permutation_app_comm.
Qed.

Lemma all_cards_app b b' : all_cards (b ++ b') = all_cards b ++ all_cards b'.
Proof. unfold all_cards. by rewrite map_app, concat_app. Qed.

Lemma all_cards_perm b b' : b ≡ₚ b' -> all_cards b ≡ₚ all_cards b'.
Proof. intros Hp. unfold all_cards. by rewrite Hp. Qed.

#[export] Hint Resolve NoDup_map_perm_app : board.

Section WfPreservation.
Implicit Types (b : board) (id : string).

Lemma wf_perm b b' : b ≡ₚ b' -> wf b -> wf b'.
Proof.
  intros Hp [Hc Hk]. split.
  - by rewrite <- Hp.
  - by rewrite <- (all_cards_perm _ _ Hp).
Qed.

Lemma wf_remove_column b id : wf b -> wf (remove_column id b).
Proof.
  intros [Hc Hk]. unfold remove_column.
  destruct (find_col id b) as [[i c]|] eqn:E; [|done].
  apply find_col_Some in E as [Hi _]. split.
  - apply (NoDup_map_perm_app _ b _ [c]); [|done].
    rewrite (delete_perm b i c Hi) at 1. apply Permutation_cons_append.
  - apply (NoDup_map_perm_app _ (all_cards b) _ (col_cards c)); [|done].
    by apply all_cards_delete.
Qed.

Lemma wf_rename_column b id t : wf b -> wf (rename_column id t b).
Proof.
  intros [Hc Hk]. unfold rename_column.
  destruct (find_col id b) as [[i c]|] eqn:E; [|done].
  apply find_col_Some in E as [Hi _].
  split; [by rewrite map_col_id_set_title | by rewrite all_cards_set_title].
Qed.

Lemma wf_add_column b c :
  wf b -> col_id c ∉ map col_id b -> col_cards c = [] -> wf (add_column c b).
Proof.
  intros [Hc Hk] Hfresh Hnil. unfold add_column. split.
  - rewrite map_app. apply list.NoDup_app. split_and!; [done| |by apply NoDup_singleton].
    intros x Hx ->%list_elem_of_singleton. done.
  - by rewrite all_cards_app; unfold all_cards at 2; simpl; rewrite Hnil, !app_nil_r.
Qed.

Lemma all_cards_add_card b id k :
  all_cards (add_card id k b) ≡ₚ
  match find_col id b with Some _ => all_cards b ++ [k] | None => all_cards b end.
Proof.
  unfold add_card. destruct (find_col id b) as [[i c]|] eqn:E; [|done].
  apply find_col_Some in E as [Hi _].
  apply (Permutation_app_inv_r (col_cards c)).
  rewrite all_cards_insert by done. solve_Permutation.
Qed.

Lemma wf_add_card b id k :
  wf b -> card_id k ∉ map card_id (all_cards b) -> wf (add_card id k b).
Proof.
  intros [Hc Hk] Hfresh. split.
  - unfold add_card. destruct (find_col id b) as [[i c]|] eqn:E; [|done].
    apply find_col_Some in E as [Hi _]. by rewrite map_col_id_set_cards.
  - rewrite all_cards_add_card. destruct (find_col id b); [|done].
    rewrite map_app. apply list.NoDup_app. split_and!; [done| |by apply NoDup_singleton].
    intros x Hx ->%list_elem_of_singleton. done.
Qed.

Lemma all_cards_remove_card b cid kid :
  match find_col cid b with
  | Some (_, c) =>
      match find_card kid (col_cards c) with
      | Some (_, k) => all_cards b ≡ₚ all_cards (remove_card cid kid b) ++ [k]
      | None => remove_card cid kid b = b
      end
  | None => remove_card cid kid b = b
  end.
Proof.
  unfold remove_card. destruct (find_col cid b) as [[i c]|] eqn:E; [|done].
  destruct (find_card kid (col_cards c)) as [[j k]|] eqn:F; [|done].
  apply find_col_Some in E as [Hi _]. apply find_card_Some in F as [Hj _].
  apply (Permutation_app_inv_r (delete j (col_cards c))).
  rewrite <- app_assoc. simpl. rewrite <- (delete_perm _ _ _ Hj).
  by rewrite all_cards_insert.
Qed.

Lemma wf_remove_card b cid kid : wf b -> wf (remove_card cid kid b).
Proof.
  intros [Hc Hk]. pose proof (all_cards_remove_card b cid kid) as Hperm.
  unfold remove_card in *. destruct (find_col cid b) as [[i c]|] eqn:E; [|done].
  destruct (find_card kid (col_cards c)) as [[j k]|] eqn:F; [|done].
  apply find_col_Some in E as [Hi _]. split.
  - by rewrite map_col_id_set_cards.
  - by apply (NoDup_map_perm_app _ _ _ [k] Hperm).
Qed.

Lemma move_column_perm b f t : move_column f t b ≡ₚ b.
Proof.
  unfold move_column.
  destruct (find_col f b) as [[i c]|] eqn:E, (find_col t b) as [[j d]|]; try done.
  case_decide; [done|]. apply find_col_Some in E as [Hi _].
  rewrite insert_at_perm. symmetry. by apply delete_perm.
Qed.

Lemma wf_move_column b f t : wf b -> wf (move_column f t b).
Proof. apply wf_perm. symmetry. apply move_column_perm. Qed.
End WfPreservation.

(** ** Operations on an identifier that does not resolve *)

Section Missing.
Implicit Types (b : board) (id : string).
Context (b : board) (id : string) (Hnone : find_col id b = None).

Lemma remove_column_missing : remove_column id b = b.
Proof. unfold remove_column. by rewrite Hnone. Qed.
Lemma rename_column_missing t : rename_column id t b = b.
Proof. unfold rename_column. by rewrite Hnone. Qed.
Lemma add_card_missing k : add_card id k b = b.
Proof. unfold add_card. by rewrite Hnone. Qed.
Lemma remove_card_missing kid : remove_card id kid b = b.
Proof. unfold remove_card. by rewrite Hnone. Qed.
Lemma move_column_missing_from t : move_column id t b = b.
Proof. unfold move_column. by rewrite Hnone. Qed.
Lemma move_column_missing_to f : move_column f id b = b.
Proof. unfold move_column. rewrite Hnone. by destruct (find_col f b) as [[]|]. Qed.
End Missing.

Lemma delete_insert_at {A} i (x : A) l : (i <= length l)%nat -> delete i (insert_at i x l) = l.
Proof.
  intros H. unfold insert_at. rewrite delete_take_drop.
  rewrite take_app_le by (rewrite length_take; lia). rewrite take_take, Nat.min_id.
  rewrite drop_app_ge by (rewrite length_take; lia).
  rewrite length_take. replace (S i - i `min` length l)%nat with 1%nat by lia.
  simpl. rewrite ?drop_0. apply take_drop.
Qed.

(** ** Reading and writing encoded boards *)

Section Encoded.
Implicit Types (b : board) (c : column) (k : card) (id : string).

Lemma id_is_column id c :
  id_is (Some (JStr id)) (column_to_json c) = Ok (bool_decide (col_id c = id)).
Proof. reflexivity. Qed.

Lemma id_is_card id k :
  id_is (Some (JStr id)) (card_to_json k) = Ok (bool_decide (card_id k = id)).
Proof. reflexivity. Qed.

Lemma js_truthy_column c : js_truthy (Some (column_to_json c)) = true.
Proof. reflexivity. Qed.

Lemma get_columns b : get_array (board_to_json b) "columns" = Ok (map column_to_json b).
Proof. reflexivity. Qed.

Lemma get_cards c : get_array (column_to_json c) "cards" = Ok (map card_to_json (col_cards c)).
Proof. reflexivity. Qed.

Lemma set_columns b b' :
  js_set (board_to_json b) "columns" (JArr (map column_to_json b')) = Ok (board_to_json b').
Proof. reflexivity. Qed.

Lemma set_column_title c t :
  js_set (column_to_json c) "title" (JStr t) = Ok (column_to_json (set_title t c)).
Proof. reflexivity. Qed.

Lemma set_column_cards c ks :
  js_set (column_to_json c) "cards" (JArr (map card_to_json ks)) = Ok (column_to_json (set_cards ks c)).
Proof. reflexivity. Qed.

Lemma findIndex_columns id b :
  js_findIndex (id_is (Some (JStr id))) (map column_to_json b)
  = Ok (match find_col id b with Some (i, _) => Z.of_nat i | None => (-1)%Z end).
Proof.
  unfold js_findIndex. rewrite (find_index_nat_map _ (fun c => col_id c = id)) by apply id_is_column.
  unfold find_col. by destruct (list_find _ b) as [[]|].
Qed.

Lemma findIndex_cards id ks :
  js_findIndex (id_is (Some (JStr id))) (map card_to_json ks)
  = Ok (match find_card id ks with Some (i, _) => Z.of_nat i | None => (-1)%Z end).
Proof.
  unfold js_findIndex. rewrite (find_index_nat_map _ (fun k => card_id k = id)) by apply id_is_card.
  unfold find_card. by destruct (list_find _ ks) as [[]|].
Qed.

Lemma find_ref_columns id b :
  find_ref (id_is (Some (JStr id))) (map column_to_json b)
  = Ok ((fun ic => (ic.1, column_to_json ic.2)) <$> find_col id b).
Proof.
  unfold find_ref. rewrite (find_index_nat_map _ (fun c => col_id c = id)) by apply id_is_column.
  unfold find_col. destruct (list_find _ b) as [[i c]|] eqn:E; [|done]. simpl.
  apply list_find_Some in E as (Hi & _). by rewrite list_lookup_fmap, Hi.
Qed.

Lemma splice_remove_map {A} (f : A -> json) (l : list A) i x :
  l !! i = Some x -> (js_splice (map f l) (Z.of_nat i) 1 []).1 = map f (delete i l).
Proof.
  intros Hi. rewrite (js_splice_remove _ _ (f x)) by (by rewrite list_lookup_fmap, Hi).
  by rewrite delete_take_drop, map_app, firstn_map, skipn_map.
Qed.

Lemma insert_map {A} (f : A -> json) (l : list A) i x :
  <[i := f x]> (map f l) = map f (<[i := x]> l).
Proof. by rewrite list_fmap_insert. Qed.
End Encoded.

Create Rewrite HintDb enc.
#[export] Hint Rewrite id_is_column id_is_card js_truthy_column get_columns get_cards set_columns
  set_column_title set_column_cards findIndex_columns findIndex_cards find_ref_columns : enc.
#[export] Hint Rewrite @insert_map : enc.


(** [splice(q, 0, x)] at any non-negative index inserts at [q], the end
    when [q] is past it (the start is clamped). *)
Lemma js_splice_insert_any {A} (l : list A) (q : nat) x :
  js_splice l (Z.of_nat q) 0 [x] = (insert_at q x l, []).
Proof.
  destruct (decide (q <= length l)) as [H|H].
  - by rewrite js_splice_insert.
  - unfold js_splice, splice_start, insert_at. rewrite decide_False by lia.
    replace (Z.to_nat (Z.of_nat q `min` Z.of_nat (length l))) with (length l) by lia.
    replace (Z.to_nat ((0 `max` 0) `min` Z.of_nat (length l - length l))) with 0%nat by lia.
    rewrite Nat.add_0_r, (take_ge l q), (drop_ge l q), take_ge, drop_ge by lia. done.
Qed.

Lemma splice_remove_map_pair {A} (f : A -> json) (l : list A) i x :
  l !! i = Some x -> js_splice (map f l) (Z.of_nat i) 1 [] = (map f (delete i l), [f x]).
Proof.
  intros Hi. rewrite (js_splice_remove _ _ (f x)) by (by rewrite list_lookup_fmap, Hi).
  by rewrite delete_take_drop, map_app, firstn_map, skipn_map.
Qed.

Lemma insert_at_map {A B} (f : A -> B) q x l : insert_at q (f x) (map f l) = map f (insert_at q x l).
Proof. unfold insert_at. by rewrite map_app, map_cons, firstn_map, skipn_map. Qed.

(** ** [move_card] *)

Section MoveCard.
Context (b : board) (f t k : string) (i : nat) (c : column) (p : nat) (kd : card).
Hypothesis Hf : find_col f b = Some (i, c).
Hypothesis Hk : find_card k (col_cards c) = Some (p, kd).

Let b1 := <[i := set_cards (delete p (col_cards c)) c]> b.

Lemma move_card_unfold (ti : option nat) j d :
  find_col t b = Some (j, d) ->
  exists d', b1 !! j = Some d' /\
    move_card f t k ti b =
    <[j := set_cards (insert_at (match ti with
                                 | Some q => if bool_decide (f = t /\ p < q)%nat then (q - 1)%nat else q
                                 | None => length (col_cards d') end) kd (col_cards d')) d']> b1.
Proof.
  intros Ht. pose proof (find_col_Some _ _ _ _ Ht) as [Hj _].
  destruct (b1 !! j) as [d'|] eqn:Ed.
  - exists d'. split; [done|]. unfold move_card. rewrite Hf, Ht, Hk. fold b1. by rewrite Ed.
  - apply lookup_ge_None in Ed. unfold b1 in Ed. rewrite length_insert in Ed.
    apply lookup_lt_Some in Hj. lia.
Qed.

Lemma all_cards_b1 : all_cards b1 ++ [kd] ≡ₚ all_cards b.
Proof.
  pose proof (all_cards_remove_card b f k) as H. rewrite Hf, Hk in H.
  unfold remove_card in H. rewrite Hf, Hk in H. by symmetry.
Qed.

Lemma move_card_conserves (ti : option nat) j d :
  find_col t b = Some (j, d) ->
  all_cards (move_card f t k ti b) ≡ₚ all_cards b /\
  map col_id (move_card f t k ti b) = map col_id b.
Proof.
  intros Ht. destruct (move_card_unfold ti j d Ht) as (d' & Ed & ->).
  pose proof (find_col_Some _ _ _ _ Hf) as [Hi _]. split.
  - apply (Permutation_app_inv_r (col_cards d')). rewrite all_cards_insert by done.
    rewrite insert_at_perm, <- all_cards_b1. solve_Permutation.
  - rewrite map_col_id_set_cards by done. unfold b1. by rewrite map_col_id_set_cards.
Qed.
End MoveCard.

(** ** Lookups by a unique key *)

Lemma list_find_unique {A} (f : A -> string) (l : list A) i x :
  NoDup (map f l) -> l !! i = Some x -> list_find (fun y => f y = f x) l = Some (i, x).
Proof.
  intros Hnd Hi. apply list_find_Some. split_and!; [done|done|].
  intros j y Hj Hlt Hfy.
  assert (j = i); [|lia].
  eapply NoDup_lookup; [exact Hnd| |]; rewrite list_lookup_fmap; [rewrite Hj|rewrite Hi]; simpl;
    [by rewrite Hfy|done].
Qed.

Lemma wf_find_col b j d : wf b -> b !! j = Some d -> find_col (col_id d) b = Some (j, d).
Proof. intros [Hc _] Hj. by apply list_find_unique. Qed.

Lemma wf_column_cards b i c : wf b -> b !! i = Some c -> NoDup (map card_id (col_cards c)).
Proof.
  intros [_ Hk] Hi. apply (NoDup_map_perm_app _ (all_cards b) _ (all_cards (delete i b))); [|done].
  rewrite (all_cards_delete b i c Hi). apply Permutation_app_comm.
Qed.

Lemma wf_find_card b i c p k :
  wf b -> b !! i = Some c -> col_cards c !! p = Some k -> find_card (card_id k) (col_cards c) = Some (p, k).
Proof. intros Hwf Hi Hp. apply list_find_unique; [|done]. by eapply wf_column_cards. Qed.

Lemma find_card_elem_of id ks : id ∈ map card_id ks -> exists q k, find_card id ks = Some (q, k).
Proof.
  intros Hin. apply list_elem_of_fmap in Hin as [k [-> Hk]].
  destruct (find_card (card_id k) ks) as [[q k']|] eqn:E; [by eauto|].
  unfold find_card in E. apply list_find_None in E. rewrite Forall_forall in E.
  exfalso. apply (E k); [by apply list_elem_of_In|done].
Qed.
