(* ===== verification/Host.v ===== *)
(** * Host: the extension host's message handler (the Mutation Dispatcher).

    Models [TodoBoardEditor.resolveCustomTextEditor]'s
    [panel.webview.onDidReceiveMessage] callback of
    [src/unnamed/part_000] (lines 168-262): the document text is parsed
    into [data], one branch per [msg.type] mutates [data] and sets
    [dirty], and a dirty [data] is written back with [JSON.stringify].
    This file holds the part between the parse and the write: the
    branch chain of lines 177-247 as [receive_core], on the parsed
    [json] value, with the JavaScript failure modes kept (a property read
    on [null], an array method called on a non-array: the async callback
    rejects and nothing is written).  The text-level wrapper (parse,
    write, save) and the interleaving of several callbacks are in later
    files.

    The add branches call [showInputBox]; the user's answer is the
    parameter [prompt] ([None]: cancelled) and [Date.now()] is the
    parameter [now].  [sendData()] in those branches is the [refresh]
    flag of the outcome. *)

From S2P Require Import Prelude Json Board.
From Stdlib Require Import Ascii.

(** ** Messages (the webview's [vscode.postMessage] payloads) *)

(** Field values come from the webview's copy of the document, so an
    id may be any JSON value or [undefined]; [newTitle] is always the
    trimmed [textContent] string. *)
Inductive msg : Type :=
| MsgUpdate (data : json)
| MsgDeleteColumn (columnId : jsval)
| MsgRenameColumn (columnId : jsval) (newTitle : string)
| MsgAddColumn
| MsgAddCard (columnId : jsval)
| MsgDeleteCard (columnId cardId : jsval)
| MsgMoveColumn (fromId toId : jsval)
| MsgOther (type : string).

(** What the branch chain leaves behind. *)
Record outcome := Outcome {
  out_data : json;      (** [data] after the branch *)
  out_dirty : bool;     (** [dirty]: the document is rewritten *)
  out_refresh : bool    (** [sendData()] was called *)
}.

(** ** Identifiers of new entities *)

Definition ascii_lower (c : ascii) : ascii :=
  let n := Ascii.nat_of_ascii c in
  if decide (65 <= n <= 90)%nat then Ascii.ascii_of_nat (n + 32) else c.

Definition is_lower_alnum (c : ascii) : bool :=
  let n := Ascii.nat_of_ascii c in
  bool_decide (97 <= n <= 122)%nat || bool_decide (48 <= n <= 57)%nat.

(** [title.toLowerCase().replace(/[^a-z0-9]/g, '-')]. *)
Fixpoint slug (s : string) : string :=
  match s with
  | EmptyString => EmptyString
  | String c s' =>
      let c' := ascii_lower c in
      String (if is_lower_alnum c' then c' else "-"%char) (slug s')
  end.

(** Lines 201-204: the id of a new column. *)
Definition new_column_id (title : string) (now : Z) : string :=
  slug title ++ "-" ++ js_string_of_int now.

(** Line 216: the id of a new card. *)
Definition new_card_id (now : Z) : string := "card-" ++ js_string_of_int now.

(** ** Helpers of the branches *)

(** [if (title)] on the answer of [showInputBox]. *)
Definition prompt_truthy (prompt : option string) : option string :=
  match prompt with Some t => if bool_decide (t = "") then None else Some t | None => None end.

Definition unchanged (data : json) : result outcome := Ok (Outcome data false false).

(** ** The branch chain (lines 177-247) *)

Definition receive_core (data : json) (m : msg) (prompt : option string) (now : Z)
    : result outcome :=
  match m with
  | MsgUpdate d => Ok (Outcome d true false)
  | MsgDeleteColumn cid =>
      cols <- get_array data "columns" ;;
      index <- js_findIndex (id_is cid) cols ;;
      if bool_decide (index = -1)%Z then unchanged data
      else data' <- js_set data "columns" (JArr (js_splice cols index 1 []).1) ;;
           Ok (Outcome data' true false)
  | MsgRenameColumn cid t =>
      cols <- get_array data "columns" ;;
      r <- find_ref (id_is cid) cols ;;
      match r with
      | Some (i, col) =>
          if js_truthy (Some col) then
            col' <- js_set col "title" (JStr t) ;;
            data' <- js_set data "columns" (JArr (<[i := col']> cols)) ;;
            Ok (Outcome data' true false)
          else unchanged data
      | None => unchanged data
      end
  | MsgAddColumn =>
      match prompt_truthy prompt with
      | Some title =>
          cols <- get_array data "columns" ;;
          let col := JObj [("id", JStr (new_column_id title now)); ("title", JStr title);
                           ("cards", JArr [])] in
          data' <- js_set data "columns" (JArr (js_push cols col)) ;;
          Ok (Outcome data' true true)
      | None => unchanged data
      end
  | MsgAddCard cid =>
      match prompt_truthy prompt with
      | Some title =>
          cols <- get_array data "columns" ;;
          r <- find_ref (id_is cid) cols ;;
          match r with
          | Some (i, col) =>
              if js_truthy (Some col) then
                cards <- get_array col "cards" ;;
                let card := JObj [("id", JStr (new_card_id now)); ("title", JStr title)] in
                col' <- js_set col "cards" (JArr (js_push cards card)) ;;
                data' <- js_set data "columns" (JArr (<[i := col']> cols)) ;;
                Ok (Outcome data' true true)
              else unchanged data
          | None => unchanged data
          end
      | None => unchanged data
      end
  | MsgDeleteCard cid kid =>
      cols <- get_array data "columns" ;;
      r <- find_ref (id_is cid) cols ;;
      match r with
      | Some (i, col) =>
          if js_truthy (Some col) then
            cards <- get_array col "cards" ;;
            idx <- js_findIndex (id_is kid) cards ;;
            if bool_decide (idx = -1)%Z then unchanged data
            else
              col' <- js_set col "cards" (JArr (js_splice cards idx 1 []).1) ;;
              data' <- js_set data "columns" (JArr (<[i := col']> cols)) ;;
              Ok (Outcome data' true false)
          else unchanged data
      | None => unchanged data
      end
  | MsgMoveColumn fromId toId =>
      cols <- get_array data "columns" ;;
      fromIndex <- js_findIndex (id_is fromId) cols ;;
      toIndex <- js_findIndex (id_is toId) cols ;;
      if bool_decide (fromIndex <> -1 /\ toIndex <> -1 /\ fromIndex <> toIndex)%Z then
        let '(cols1, removed) := js_splice cols fromIndex 1 [] in
        (* [const [col] = ...]: an [undefined] element is written as [null] *)
        let col := default JNull (head removed) in
        data' <- js_set data "columns" (JArr (js_splice cols1 toIndex 0 [col]).1) ;;
        Ok (Outcome data' true false)
      else unchanged data
  | MsgOther _ => unchanged data
  end.

(** ** The abstract dispatcher: spec §9's pure reducer on typed boards *)

Inductive bmsg : Type :=
| BUpdate (b : board)
| BDeleteColumn (id : string)
| BRenameColumn (id t : string)
| BAddColumn
| BAddCard (id : string)
| BDeleteCard (cid kid : string)
| BMoveColumn (fromId toId : string).

(** The message the webview sends for a typed action. *)
Definition embed_msg (m : bmsg) : msg :=
  match m with
  | BUpdate b => MsgUpdate (board_to_json b)
  | BDeleteColumn id => MsgDeleteColumn (Some (JStr id))
  | BRenameColumn id t => MsgRenameColumn (Some (JStr id)) t
  | BAddColumn => MsgAddColumn
  | BAddCard id => MsgAddCard (Some (JStr id))
  | BDeleteCard cid kid => MsgDeleteCard (Some (JStr cid)) (Some (JStr kid))
  | BMoveColumn f t => MsgMoveColumn (Some (JStr f)) (Some (JStr t))
  end.

(** New board, [dirty], [refresh]. *)
Definition reduce (b : board) (m : bmsg) (prompt : option string) (now : Z) : board * bool * bool :=
  match m with
  | BUpdate b' => (b', true, false)
  | BDeleteColumn id => (remove_column id b, bool_decide (is_Some (find_col id b)), false)
  | BRenameColumn id t => (rename_column id t b, bool_decide (is_Some (find_col id b)), false)
  | BAddColumn =>
      match prompt_truthy prompt with
      | Some t => (add_column (Column (new_column_id t now) t []) b, true, true)
      | None => (b, false, false)
      end
  | BAddCard id =>
      match prompt_truthy prompt with
      | Some t =>
          let found := bool_decide (is_Some (find_col id b)) in
          (add_card id (Card (new_card_id now) t) b, found, found)
      | None => (b, false, false)
      end
  | BDeleteCard cid kid =>
      (remove_card cid kid b,
       match find_col cid b with
       | Some (_, c) => bool_decide (is_Some (find_card kid (col_cards c)))
       | None => false
       end, false)
  | BMoveColumn f t =>
      (move_column f t b,
       match find_col f b, find_col t b with
       | Some (i, _), Some (j, _) => bool_decide (i <> j)
       | _, _ => false
       end, false)
  end.

Definition outcome_of (r : board * bool * bool) : outcome :=
  let '(b, d, f) := r in Outcome (board_to_json b) d f.

Ltac host_unfold :=
  cbn [receive_core embed_msg reduce outcome_of]; autorewrite with enc.
Ltac host_simpl :=
  cbn [fmap option_fmap option_map fst snd]; autorewrite with enc.

Section Refinement.
Implicit Types (b : board) (id : string).

Lemma receive_delete_column b id p n :
  receive_core (board_to_json b) (embed_msg (BDeleteColumn id)) p n
  = Ok (outcome_of (reduce b (BDeleteColumn id) p n)).
Proof.
  host_unfold. unfold remove_column.
  destruct (find_col id b) as [[i c]|] eqn:E; [|done].
  apply find_col_Some in E as [Hi _].
  rewrite bool_decide_false by lia.
  by rewrite (splice_remove_map _ _ _ c), set_columns.
Qed.

Lemma receive_rename_column b id t p n :
  receive_core (board_to_json b) (embed_msg (BRenameColumn id t)) p n
  = Ok (outcome_of (reduce b (BRenameColumn id t) p n)).
Proof.
  host_unfold. unfold rename_column.
  destruct (find_col id b) as [[i c]|]; [|done]. host_simpl.
  by autorewrite with enc.
Qed.

Lemma receive_add_column b p n :
  receive_core (board_to_json b) (embed_msg BAddColumn) p n
  = Ok (outcome_of (reduce b BAddColumn p n)).
Proof.
  host_unfold. destruct (prompt_truthy p) as [t|]; [|done].
  autorewrite with enc. unfold add_column.
  replace (js_push _ _) with (map column_to_json (b ++ [Column (new_column_id t n) t []]))
    by (unfold js_push; by rewrite map_app).
  by rewrite set_columns.
Qed.

Lemma receive_add_card b id p n :
  receive_core (board_to_json b) (embed_msg (BAddCard id)) p n
  = Ok (outcome_of (reduce b (BAddCard id) p n)).
Proof.
  host_unfold. unfold add_card. destruct (prompt_truthy p) as [t|]; [|done].
  autorewrite with enc. destruct (find_col id b) as [[i c]|]; [|done]. host_simpl.
  replace (js_push _ _) with (map card_to_json (col_cards c ++ [Card (new_card_id n) t]))
    by (unfold js_push; by rewrite map_app).
  by autorewrite with enc.
Qed.

Lemma receive_delete_card b cid kid p n :
  receive_core (board_to_json b) (embed_msg (BDeleteCard cid kid)) p n
  = Ok (outcome_of (reduce b (BDeleteCard cid kid) p n)).
Proof.
  host_unfold. unfold remove_card.
  destruct (find_col cid b) as [[i c]|]; [|done]. host_simpl.
  destruct (find_card kid (col_cards c)) as [[j k]|] eqn:E; [|done].
  apply find_card_Some in E as [Hj _].
  rewrite bool_decide_false by lia.
  rewrite (splice_remove_map _ _ _ k) by done. by autorewrite with enc.
Qed.

Lemma receive_move_column b f t p n :
  receive_core (board_to_json b) (embed_msg (BMoveColumn f t)) p n
  = Ok (outcome_of (reduce b (BMoveColumn f t) p n)).
Proof.
  host_unfold. unfold move_column.
  destruct (find_col f b) as [[i c]|] eqn:Ef, (find_col t b) as [[j d]|] eqn:Et;
    try (cbn; by rewrite ?bool_decide_false by lia).
  apply find_col_Some in Ef as [Hi _], Et as [Hj _].
  pose proof (lookup_lt_Some _ _ _ Hj).
  destruct (decide (i = j)) as [->|Hne].
  - by rewrite !bool_decide_false by lia.
  - rewrite !bool_decide_true by lia.
    rewrite (js_splice_remove _ _ (column_to_json c)) by (by rewrite list_lookup_fmap, Hi).
    cbn [head default].
    rewrite js_splice_insert by (rewrite length_app, length_take, length_drop, length_map; lia).
    replace (_ ++ _ :: _) with (map column_to_json (insert_at j c (delete i b))).
    { cbn [fst]. by rewrite set_columns. }
    cbn [id]. unfold insert_at. rewrite delete_take_drop.
    by rewrite map_app, map_cons, <- firstn_map, <- skipn_map, map_app, <- !firstn_map, <- !skipn_map.
Qed.
End Refinement.

(** C1. On a well-formed document (the encoding of a typed board), every
    message the webview sends is handled by the branch chain exactly as
    the pure reducer [reduce] of spec §9 prescribes: the handler never
    throws, writes the encoding of the reduced board, and marks the
    document dirty and refreshes the view exactly when [reduce] does. *)
Theorem receive_core_refines (b : board) (m : bmsg) (prompt : option string) (now : Z) :
  receive_core (board_to_json b) (embed_msg m) prompt now = Ok (outcome_of (reduce b m prompt now)).
Proof.
  destruct m.
  - reflexivity.
  - apply receive_delete_column.
  - apply receive_rename_column.
  - apply receive_add_column.
  - apply receive_add_card.
  - apply receive_delete_card.
  - apply receive_move_column.
Qed.

(** Rewrite a handler call on an encoded board with its branch lemma. *)
Ltac host_branch :=
  first [ rewrite receive_delete_column | rewrite receive_rename_column
        | rewrite receive_add_column | rewrite receive_add_card
        | rewrite receive_delete_card | rewrite receive_move_column ].

(** The column ids a typed message refers to. *)
Definition column_refs (m : bmsg) : list string :=
  match m with
  | BDeleteColumn id | BRenameColumn id _ | BAddCard id | BDeleteCard id _ => [id]
  | BMoveColumn f t => [f; t]
  | _ => []
  end.

(** What the reducer needs to keep identifiers unique: fresh generated
    ids (spec §3: "practical uniqueness") and a well-formed [update]. *)
Definition admissible (b : board) (m : bmsg) (prompt : option string) (now : Z) : Prop :=
  match m with
  | BUpdate b' => wf b'
  | BAddColumn => forall t, prompt_truthy prompt = Some t -> new_column_id t now ∉ map col_id b
  | BAddCard _ => new_card_id now ∉ map card_id (all_cards b)
  | _ => True
  end.

Lemma reduce_preserves_wf b m p n : wf b -> admissible b m p n -> wf (reduce b m p n).1.1.
Proof.
  intros Hwf Hadm. destruct m; simpl in *.
  - done.
  - by apply wf_remove_column.
  - by apply wf_rename_column.
  - destruct (prompt_truthy p) as [t|]; [|done]. apply wf_add_column; [done| |done]. by apply Hadm.
  - destruct (prompt_truthy p); [by apply wf_add_card|done].
  - by apply wf_remove_card.
  - by apply wf_move_column.
Qed.

(** C5. Invariant: when the document encodes a board whose column ids
    and card ids are unique, every message the webview sends (with fresh
    generated ids and a well-formed [update] payload) is handled without
    an exception and the document written back again encodes a board
    with unique ids. *)
Theorem receive_core_preserves_wf (b : board) (m : bmsg) (p : option string) (n : Z) :
  wf b -> admissible b m p n ->
  exists o b', receive_core (board_to_json b) (embed_msg m) p n = Ok o /\
               out_data o = board_to_json b' /\ wf b'.
Proof.
  intros Hwf Hadm. exists (outcome_of (reduce b m p n)), (reduce b m p n).1.1.
  split_and!.
  - destruct m; try host_branch; reflexivity.
  - by destruct (reduce b m p n) as [[]].
  - by apply reduce_preserves_wf.
Qed.

(** C6. Idempotent deletion (spec §8): with unique column ids, a second
    [delete-column] for the same id (the webview re-sending it before it
    saw the new snapshot) leaves the document untouched and does not
    rewrite it. *)
Theorem delete_column_idempotent (b : board) (id : string) (p : option string) (n : Z) :
  NoDup (map col_id b) ->
  receive_core (board_to_json (remove_column id b)) (embed_msg (BDeleteColumn id)) p n
  = unchanged (board_to_json (remove_column id b)).
Proof.
  intros Hnd.
  assert (Hn : find_col id (remove_column id b) = None).
  { unfold remove_column. destruct (find_col id b) as [[i c]|] eqn:E; [|done].
    by apply (list_find_delete_unique col_id b id i c). }
  host_branch. cbn [reduce outcome_of]. by rewrite (remove_column_missing _ _ Hn), Hn.
Qed.

(** C7. Stale identifiers (spec §4.1, §7 ValidationError): a message
    naming a column that is not on the board is dropped: the handler does
    not throw, the document is not rewritten and no refresh is sent,
    whatever the prompt answers. *)
Theorem stale_column_noop (b : board) (m : bmsg) (id : string) (p : option string) (n : Z) :
  id ∈ column_refs m -> find_col id b = None ->
  receive_core (board_to_json b) (embed_msg m) p n = unchanged (board_to_json b).
Proof.
  intros Hin Hn. destruct m; simpl in Hin; try by apply elem_of_nil in Hin.
  all: host_branch; cbn [reduce outcome_of].
  all: try (apply list_elem_of_singleton in Hin as ->).
  - by rewrite remove_column_missing, Hn.
  - by rewrite rename_column_missing, Hn.
  - by destruct (prompt_truthy p); rewrite ?add_card_missing, ?Hn.
  - by rewrite remove_card_missing, Hn.
  - apply elem_of_cons in Hin as [->|Hin%list_elem_of_singleton].
    + by rewrite move_column_missing_from, Hn.
    + rewrite <- Hin. rewrite move_column_missing_to by done. rewrite Hn.
      by destruct (find_col fromId b) as [[]|].
Qed.

(** C8. Spec §8 scenario: [move-column] with [fromId === toId] is a no-op
    on every board: the order is unchanged and nothing is written. *)
Theorem move_column_same_id_noop (b : board) (id : string) (p : option string) (n : Z) :
  receive_core (board_to_json b) (embed_msg (BMoveColumn id id)) p n = unchanged (board_to_json b).
Proof.
  host_branch. cbn [reduce outcome_of]. unfold move_column.
  destruct (find_col id b) as [[i c]|]; [|done].
  rewrite decide_True by done. rewrite bool_decide_false; [done|]. by intros [].
Qed.

(** C9. Column reordering (spec §4.3): moving the column found at [i]
    onto the column found at [j <> i] rewrites the document with the
    moved column in slot [j] (the slot the target had) and the other
    columns in their previous relative order. *)
Theorem move_column_target_slot (b : board) (f t : string) (i j : nat) (c d : column)
    (p : option string) (n : Z) :
  find_col f b = Some (i, c) -> find_col t b = Some (j, d) -> i <> j ->
  exists b', receive_core (board_to_json b) (embed_msg (BMoveColumn f t)) p n
             = Ok (Outcome (board_to_json b') true false)
             /\ b' !! j = Some c /\ delete j b' = delete i b.
Proof.
  intros Hf Ht Hne. exists (insert_at j c (delete i b)).
  pose proof (find_col_Some _ _ _ _ Hf) as [Hi _]. pose proof (find_col_Some _ _ _ _ Ht) as [Hj _].
  pose proof (lookup_lt_Some _ _ _ Hi). pose proof (lookup_lt_Some _ _ _ Hj).
  assert (j <= length (delete i b))%nat by (rewrite length_delete by eauto; lia).
  split_and!.
  - host_branch. cbn [reduce outcome_of]. unfold move_column. rewrite Hf, Ht.
    by rewrite decide_False, bool_decide_true.
  - by apply insert_at_lookup.
  - by apply delete_insert_at.
Qed.

(** C10. The host does not reject a blank title: [rename-column] with
    [newTitle = ""] on an existing column rewrites the document with an
    empty title.  (Spec §8 says such a rename is rejected; only the
    webview's [saveRename] filters blank titles before sending.) *)
Theorem rename_column_accepts_blank (b : board) (id : string) (i : nat) (c : column)
    (p : option string) (n : Z) :
  find_col id b = Some (i, c) ->
  receive_core (board_to_json b) (MsgRenameColumn (Some (JStr id)) "") p n
  = Ok (Outcome (board_to_json (<[i := set_title "" c]> b)) true false).
Proof.
  intros Hf. change (MsgRenameColumn (Some (JStr id)) "") with (embed_msg (BRenameColumn id "")).
  host_branch. cbn [reduce outcome_of]. unfold rename_column. by rewrite Hf.
Qed.

(** C11. PromptCancelled (spec §7): when the input box is dismissed or
    answered with an empty string, [add-column] and [add-card] change
    nothing and write nothing, on any document, even one that is not a
    board. *)
Theorem prompt_cancelled_noop (data : json) (cid : jsval) (p : option string) (n : Z) :
  prompt_truthy p = None ->
  receive_core data MsgAddColumn p n = unchanged data /\
  receive_core data (MsgAddCard cid) p n = unchanged data.
Proof. intros Hp. cbn [receive_core]. by rewrite Hp. Qed.

(** The branches that read [data.columns] (the add branches only once
    the prompt answered). *)
Definition reads_columns (m : msg) (prompt : option string) : bool :=
  match m with
  | MsgDeleteColumn _ | MsgRenameColumn _ _ | MsgDeleteCard _ _ | MsgMoveColumn _ _ => true
  | MsgAddColumn | MsgAddCard _ => bool_decide (is_Some (prompt_truthy prompt))
  | MsgUpdate _ | MsgOther _ => false
  end.

(** C12. A document that parses but is not a board (no [columns] array:
    [null], [{}], a list...) makes every branch that reads
    [data.columns] throw, so the callback rejects and nothing is written;
    the document stays as it is. *)
Theorem non_board_throws (data : json) (m : msg) (p : option string) (n : Z) :
  (forall l, get_array data "columns" <> Ok l) -> reads_columns m p = true ->
  exists e, receive_core data m p n = Throw e.
Proof.
  intros Hcols Hr. destruct (get_array data "columns") as [l|e] eqn:E; [by destruct (Hcols l)|].
  exists e. destruct m; cbn [reads_columns] in Hr; try discriminate; cbn [receive_core]; rewrite ?E; try done.
  all: destruct (prompt_truthy p); [reflexivity|].
  all: apply bool_decide_eq_true in Hr; by destruct Hr.
Qed.

(** ** Witnesses on the board of spec §8 *)

Lemma receive_core_preserves_wf_witness :
  (wf spec_board /\ admissible spec_board (BAddCard "a") (Some "Z") 1700000000%Z) /\
  exists o b', receive_core (board_to_json spec_board) (embed_msg (BAddCard "a")) (Some "Z") 1700000000%Z = Ok o /\
               out_data o = board_to_json b' /\ wf b'.
Proof.
  assert (Hwf : wf spec_board /\ admissible spec_board (BAddCard "a") (Some "Z") 1700000000%Z).
  { split; [split|]; [apply (bool_decide_unpack _); vm_compute; reflexivity..|].
    apply (bool_decide_unpack _); vm_compute; reflexivity. }
  split; [exact Hwf|]. destruct Hwf as [Hwf Hadm].
  exact (receive_core_preserves_wf spec_board (BAddCard "a") (Some "Z") 1700000000%Z Hwf Hadm).
Defined.

Lemma delete_column_idempotent_witness :
  NoDup (map col_id spec_board) /\
  receive_core (board_to_json (remove_column "a" spec_board)) (embed_msg (BDeleteColumn "a")) None 0%Z
  = unchanged (board_to_json (remove_column "a" spec_board)).
Proof.
  assert (Hnd : NoDup (map col_id spec_board)) by (apply (bool_decide_unpack _); vm_compute; reflexivity).
  split; [exact Hnd|]. exact (delete_column_idempotent spec_board "a" None 0%Z Hnd).
Defined.

Lemma stale_column_noop_witness :
  ("z" ∈ column_refs (BDeleteCard "z" "c1") /\ find_col "z" spec_board = None) /\
  receive_core (board_to_json spec_board) (embed_msg (BDeleteCard "z" "c1")) None 0%Z
  = unchanged (board_to_json spec_board).
Proof.
  assert (Hin : "z" ∈ column_refs (BDeleteCard "z" "c1")) by (simpl; left).
  assert (Hn : find_col "z" spec_board = None) by reflexivity.
  split; [split; assumption|]. exact (stale_column_noop _ _ _ None 0%Z Hin Hn).
Defined.

Lemma move_column_target_slot_witness :
  (find_col "a" spec_board = Some (0%nat, Column "a" "A" [Card "c1" "X"; Card "c2" "Y"]) /\
   find_col "b" spec_board = Some (1%nat, Column "b" "B" []) /\ 0%nat <> 1%nat) /\
  exists b', receive_core (board_to_json spec_board) (embed_msg (BMoveColumn "a" "b")) None 0%Z
             = Ok (Outcome (board_to_json b') true false)
             /\ b' !! 1%nat = Some (Column "a" "A" [Card "c1" "X"; Card "c2" "Y"])
             /\ delete 1 b' = delete 0 spec_board.
Proof.
  assert (Hf : find_col "a" spec_board = Some (0%nat, Column "a" "A" [Card "c1" "X"; Card "c2" "Y"]))
    by reflexivity.
  assert (Ht : find_col "b" spec_board = Some (1%nat, Column "b" "B" [])) by reflexivity.
  assert (Hne : 0%nat <> 1%nat) by lia.
  split; [split; [exact Hf|split; [exact Ht|exact Hne]]|].
  exact (move_column_target_slot spec_board "a" "b" 0 1 _ _ None 0%Z Hf Ht Hne).
Defined.

Lemma rename_column_accepts_blank_witness :
  find_col "a" spec_board = Some (0%nat, Column "a" "A" [Card "c1" "X"; Card "c2" "Y"]) /\
  receive_core (board_to_json spec_board) (MsgRenameColumn (Some (JStr "a")) "") None 0%Z
  = Ok (Outcome (board_to_json [Column "a" "" [Card "c1" "X"; Card "c2" "Y"]; Column "b" "B" []]) true false).
Proof.
  assert (Hf : find_col "a" spec_board = Some (0%nat, Column "a" "A" [Card "c1" "X"; Card "c2" "Y"]))
    by reflexivity.
  split; [exact Hf|]. exact (rename_column_accepts_blank spec_board "a" 0 _ None 0%Z Hf).
Defined.

Lemma prompt_cancelled_noop_witness :
  prompt_truthy (Some "") = None /\
  receive_core JNull MsgAddColumn (Some "") 0%Z = unchanged JNull /\
  receive_core JNull (MsgAddCard undefined) (Some "") 0%Z = unchanged JNull.
Proof.
  assert (Hp : prompt_truthy (Some "") = None) by reflexivity.
  split; [exact Hp|]. exact (prompt_cancelled_noop JNull undefined (Some "") 0%Z Hp).
Defined.

Lemma non_board_throws_witness :
  ((forall l, get_array (JObj []) "columns" <> Ok l) /\ reads_columns (MsgDeleteColumn undefined) None = true) /\
  exists e, receive_core (JObj []) (MsgDeleteColumn undefined) None 0%Z = Throw e.
Proof.
  assert (Hc : forall l, get_array (JObj []) "columns" <> Ok l) by (intros l; simpl; discriminate).
  assert (Hr : reads_columns (MsgDeleteColumn undefined) None = true) by reflexivity.
  split; [split; assumption|]. exact (non_board_throws (JObj []) _ None 0%Z Hc Hr).
Defined.
