(* ===== verification/HostShape.v ===== *)
(** * HostShape: the host on any board-shaped document.

    The theorems of [Host] take the document to encode a typed board
    with unique ids.  A document edited by hand or by another tool need
    not: ids may repeat, be numbers or be missing, and objects may carry
    other fields.  This file gives the document a type at the JSON level,
    [board_shaped] (a [columns] array of objects, each with a [cards]
    array of objects), and shows that the branch chain [receive_core]
    neither throws on such a document nor leaves it of another shape,
    for every message but [update], whose data the host takes as is. *)

From S2P Require Import Prelude Json Board Host.

(** ** The shape *)

Definition is_obj (v : json) : bool := match v with JObj _ => true | _ => false end.

(** [v[k]] when [v] is an object and the field holds an array. *)
Definition array_field (k : string) (v : json) : option (list json) :=
  match v with
  | JObj fs => match field_lookup k fs with Some (JArr l) => Some l | _ => None end
  | _ => None
  end.

Definition column_shaped (c : json) : bool :=
  match array_field "cards" c with Some ks => forallb is_obj ks | None => false end.

Definition board_shaped (d : json) : bool :=
  match array_field "columns" d with Some cs => forallb column_shaped cs | None => false end.

(** ** Lemmas *)

Lemma forallb_iff {A} (f : A -> bool) l : forallb f l = true <-> Forall (fun x => f x = true) l.
Proof.
  by rewrite forallb_forall, List.Forall_forall.
Qed.

Lemma column_shaped_obj c : column_shaped c = true -> is_obj c = true.
Proof. by destruct c. Qed.

Lemma get_array_field v k l : array_field k v = Some l -> get_array v k = Ok l.
Proof.
  destruct v as [| | | | |fs]; try done. cbn.
  destruct (field_lookup k fs) as [[]|]; by intros [= ->].
Qed.

Lemma field_lookup_set_ne k k' v fs : k <> k' -> field_lookup k' (field_set k v fs) = field_lookup k' fs.
Proof.
  intros Hk. induction fs as [|[k1 v1] fs IH]; unfold field_lookup in *; cbn.
  - by rewrite decide_False by done.
  - case_bool_decide as E; cbn.
    + subst. by rewrite !decide_False by done.
    + destruct (decide (k1 = k')); [done|].
      destruct (list_find _ (field_set k v fs)) as [[]|], (list_find _ fs) as [[]|]; cbn in *; congruence.
Qed.

Lemma array_field_set_eq k l fs : array_field k (JObj (field_set k (JArr l) fs)) = Some l.
Proof. cbn. by rewrite field_lookup_set_eq. Qed.

Lemma array_field_set_ne k k' v fs :
  k <> k' -> array_field k' (JObj (field_set k v fs)) = array_field k' (JObj fs).
Proof. intros Hk. cbn. by rewrite field_lookup_set_ne. Qed.

(** [splice] returns elements of the array and of the inserted items. *)
Lemma js_splice_Forall {A} (P : A -> Prop) l s d items :
  Forall P l -> Forall P items -> Forall P (js_splice l s d items).1 /\ Forall P (js_splice l s d items).2.
Proof.
  intros Hl Hi. unfold js_splice. cbn [fst snd].
  split; [apply Forall_app; split; [by apply Forall_take|apply Forall_app; split; [done|by apply Forall_drop]]|].
  by apply Forall_take, Forall_drop.
Qed.

(** On objects the id callback never throws; the index found is in the
    array. *)
Lemma find_index_objs x l :
  Forall (fun c => is_obj c = true) l ->
  exists r, find_index_nat (id_is x) l = Ok r /\ forall i, r = Some i -> (i < length l)%nat.
Proof.
  induction l as [|c l IH]; intros Hl; [by exists None|].
  inversion Hl as [|? ? Hc Hl']; subst. destruct c as [| | | | |fs]; try done.
  destruct (IH Hl') as (r & Hr & Hlt). cbn. destruct (js_seq _ x).
  - exists (Some 0%nat). split; [done|]. intros i [= <-]. lia.
  - rewrite Hr. exists (S <$> r). split; [done|]. intros i Hi.
    destruct r as [j|]; [|done]. injection Hi as <-. specialize (Hlt j eq_refl). cbn. lia.
Qed.

Lemma findIndex_objs x l :
  Forall (fun c => is_obj c = true) l ->
  exists i, js_findIndex (id_is x) l = Ok i /\ (i = -1 \/ 0 <= i < Z.of_nat (length l))%Z.
Proof.
  intros Hl. destruct (find_index_objs x l Hl) as (r & Hr & Hlt). unfold js_findIndex. rewrite Hr.
  destruct r as [j|]; cbn; eexists; split; [done| |done|by left].
  right. specialize (Hlt j eq_refl). lia.
Qed.

Lemma find_ref_objs x l :
  Forall (fun c => is_obj c = true) l ->
  exists r, find_ref (id_is x) l = Ok r /\ forall i c, r = Some (i, c) -> l !! i = Some c.
Proof.
  intros Hl. destruct (find_index_objs x l Hl) as (r & Hr & _). unfold find_ref. rewrite Hr.
  eexists. split; [done|]. intros i c Hic.
  destruct r as [j|]; [|done]. destruct (l !! j) eqn:E; cbn in Hic; [|done]. by injection Hic as <- <-.
Qed.

(** Writing a column array of the right shape gives a board-shaped
    document. *)
Lemma set_columns_shaped fs cols :
  Forall (fun c => column_shaped c = true) cols ->
  board_shaped (JObj (field_set "columns" (JArr cols) fs)) = true.
Proof. intros H. unfold board_shaped. rewrite array_field_set_eq. by apply forallb_iff. Qed.

Lemma set_cards_shaped cfs ks :
  Forall (fun k => is_obj k = true) ks -> column_shaped (JObj (field_set "cards" (JArr ks) cfs)) = true.
Proof. intros H. unfold column_shaped. rewrite array_field_set_eq. by apply forallb_iff. Qed.

Lemma set_title_shaped cfs t :
  column_shaped (JObj cfs) = true -> column_shaped (JObj (field_set "title" (JStr t) cfs)) = true.
Proof. unfold column_shaped. by rewrite array_field_set_ne. Qed.

(** The element [splice(i, 1)] removes from an array of shaped columns
    is a shaped column. *)
Lemma splice_one_shaped cols (i : Z) :
  Forall (fun c => column_shaped c = true) cols -> (0 <= i < Z.of_nat (length cols))%Z ->
  column_shaped (default JNull (head (js_splice cols i 1 []).2)) = true.
Proof.
  intros Hd Hi. destruct (lookup_lt_is_Some_2 cols (Z.to_nat i)) as [x Hx]; [lia|].
  replace i with (Z.of_nat (Z.to_nat i)) by lia. rewrite (js_splice_remove _ _ x Hx). cbn.
  exact (Forall_lookup_1 _ _ _ _ Hd Hx).
Qed.

(** The outcome leaves the document as it was, or writes a shaped one. *)
Ltac keep_shape := eexists; split; [reflexivity|assumption].

(** ** Theorem *)

(** C38. Type preservation for the host (spec §4.4: a message on a
    document the host did not write): on any board-shaped document, ids
    unique or not, every message but [update] is handled without an
    exception (no [TypeError] from [data.columns], [col.cards] or a
    callback) and leaves a board-shaped document. *)
Theorem receive_core_keeps_shape (data : json) (m : msg) (prompt : option string) (now : Z) :
  board_shaped data = true -> (forall d, m <> MsgUpdate d) ->
  exists o, receive_core data m prompt now = Ok o /\ board_shaped (out_data o) = true.
Proof.
  intros Hd0 Hm. pose proof Hd0 as Hd. unfold board_shaped in Hd.
  destruct (array_field "columns" data) as [cols|] eqn:Ec; [|done]. apply forallb_iff in Hd.
  pose proof (get_array_field _ _ _ Ec) as Hg.
  assert (Hobj : Forall (fun c => is_obj c = true) cols)
    by (eapply list.Forall_impl; [exact Hd|]; apply column_shaped_obj).
  destruct data as [| | | | |fs]; try done.
  destruct m as [d|cid|cid t| |cid|cid kid|f t|ty]; cbn [receive_core]; rewrite ?Hg.
  - by destruct (Hm d).
  - (* delete-column *)
    destruct (findIndex_objs cid cols Hobj) as (i & -> & _). case_bool_decide; [keep_shape|].
    eexists; split; [reflexivity|]. apply set_columns_shaped. by apply js_splice_Forall.
  - (* rename-column *)
    destruct (find_ref_objs cid cols Hobj) as ([[i [| | | | |cfs]]|] & -> & Hin); try keep_shape;
      pose proof (Forall_lookup_1 _ _ _ _ Hd (Hin _ _ eq_refl)) as Hc; try done.
    eexists; split; [reflexivity|]. apply set_columns_shaped, Forall_insert; [done|by apply set_title_shaped].
  - (* add-column *)
    destruct (prompt_truthy prompt); [|keep_shape]. eexists; split; [reflexivity|].
    apply set_columns_shaped, Forall_app. split; [done|]. by repeat constructor.
  - (* add-card *)
    destruct (prompt_truthy prompt); [|keep_shape].
    destruct (find_ref_objs cid cols Hobj) as ([[i [| | | | |cfs]]|] & -> & Hin); try keep_shape;
      pose proof (Forall_lookup_1 _ _ _ _ Hd (Hin _ _ eq_refl)) as Hc; try done.
    unfold column_shaped in Hc. destruct (array_field "cards" (JObj cfs)) as [ks|] eqn:Ek; [|done].
    apply forallb_iff in Hc. cbn [js_truthy]. rewrite (get_array_field _ _ _ Ek).
    eexists; split; [reflexivity|]. apply set_columns_shaped, Forall_insert; [done|].
    apply set_cards_shaped, Forall_app. split; [done|]. by repeat constructor.
  - (* delete-card *)
    destruct (find_ref_objs cid cols Hobj) as ([[i [| | | | |cfs]]|] & -> & Hin); try keep_shape;
      pose proof (Forall_lookup_1 _ _ _ _ Hd (Hin _ _ eq_refl)) as Hc; try done.
    unfold column_shaped in Hc. destruct (array_field "cards" (JObj cfs)) as [ks|] eqn:Ek; [|done].
    apply forallb_iff in Hc. cbn [js_truthy]. rewrite (get_array_field _ _ _ Ek).
    destruct (findIndex_objs kid ks Hc) as (j & -> & _). case_bool_decide; [keep_shape|].
    eexists; split; [reflexivity|]. apply set_columns_shaped, Forall_insert; [done|].
    apply set_cards_shaped. by apply js_splice_Forall.
  - (* move-column *)
    destruct (findIndex_objs f cols Hobj) as (fi & -> & Hfi).
    destruct (findIndex_objs t cols Hobj) as (ti & -> & _).
    case_bool_decide as Hg'; [|keep_shape].
    pose proof (splice_one_shaped cols fi Hd ltac:(lia)) as Hcol.
    pose proof (js_splice_Forall _ cols fi 1 [] Hd (Forall_nil_2 _)) as [H1 _].
    destruct (js_splice cols fi 1 []) as [cols1 removed]. cbn in Hcol, H1.
    eexists; split; [reflexivity|]. apply set_columns_shaped. apply js_splice_Forall; [done|by constructor].
  - keep_shape.
Qed.

(** ** Witness *)

(** A hand-edited document: a numeric column id, a repeated card id and
    an extra field.  Deleting the card [x] of the column [7] keeps its
    shape. *)
Definition hand_doc : json :=
  JObj [("columns", JArr [JObj [("id", JNum 7); ("title", JStr "A");
                                 ("cards", JArr [JObj [("id", JStr "x")]; JObj [("id", JStr "x"); ("done", JBool true)]])]])].

Lemma receive_core_keeps_shape_witness :
  (board_shaped hand_doc = true /\ forall d, MsgDeleteCard (Some (JNum 7)) (Some (JStr "x")) <> MsgUpdate d) /\
  exists o, receive_core hand_doc (MsgDeleteCard (Some (JNum 7)) (Some (JStr "x"))) None 0 = Ok o
            /\ board_shaped (out_data o) = true.
Proof.
  assert (H1 : board_shaped hand_doc = true) by reflexivity.
  assert (H2 : forall d, MsgDeleteCard (Some (JNum 7)) (Some (JStr "x")) <> MsgUpdate d) by discriminate.
  split; [split; [exact H1|exact H2]|]. exact (receive_core_keeps_shape _ _ None 0 H1 H2).
Defined.
