(* ===== verification/HostDoc.v ===== *)
(** * HostDoc: the host at the level of the document text.

    Models [TodoBoardEditor.resolveCustomTextEditor] of
    [src/unnamed/part_000] (lines 146-265) around the branch chain of
    [Host]: the document text, the [data] messages posted to the board
    page ([sendData], lines 151-158, called on open, on every change of
    the document, lines 162-166, and by the add branches), and the
    message callback (lines 168-262): parse the text, run the branch
    chain, and when dirty replace the range [0, currentText.length) of
    the document with [JSON.stringify(data, null, 2)] and save.

    The callback is [async]: the add branches wait for [showInputBox]
    with [data] already parsed.  A waiting callback is a [pending]
    entry; [on_prompt] resumes it when the user answers, possibly after
    other callbacks and external edits ran.  [TextDocument.positionAt]
    clamps an offset to the text, so the edit replaces
    [min(currentText.length, text.length)] characters.

    Simplifications: offsets are bytes (VS Code counts UTF-16 units;
    they agree on ASCII text); [applyEdit] and [save] take effect at once
    and the change listener runs right after the edit.

    The earlier hosts are here too: [src/extension.js] (lines 196-275,
    no [move-column] branch and no save) and the earliest one of
    [src/unnamed/part_001] (lines 795-808: only [update], written
    without reading the document). *)

From S2P Require Import Prelude Json Codec Board Host.

(** ** State *)

(** A callback waiting at [await vscode.window.showInputBox(...)]. *)
Record pending := Pending {
  pd_text : string;   (** [currentText] *)
  pd_data : json;     (** [data = JSON.parse(currentText)] *)
  pd_msg : msg
}.

Record hstate := HState {
  hs_text : string;          (** [document.getText()] *)
  hs_disk : string;          (** the file as last saved *)
  hs_posted : list json;     (** the [data] of each [{type: 'data'}] message, oldest first *)
  hs_pending : list pending
}.

Definition set_text (h : hstate) (t : string) : hstate :=
  HState t (hs_disk h) (hs_posted h) (hs_pending h).

Definition set_pending (h : hstate) (ps : list pending) : hstate :=
  HState (hs_text h) (hs_disk h) (hs_posted h) ps.

(** ** Operations *)

(** [sendData] (lines 151-158): post the parsed document; a text that
    does not parse is ignored. *)
Definition send_data (h : hstate) : hstate :=
  match json_parse (hs_text h) with
  | Some d => HState (hs_text h) (hs_disk h) (hs_posted h ++ [d]) (hs_pending h)
  | None => h
  end.

(** [s.substring(n)]. *)
Fixpoint sdrop (n : nat) (s : string) : string :=
  match n, s with
  | O, _ => s
  | S n', String _ s' => sdrop n' s'
  | S _, EmptyString => EmptyString
  end.

(** [edit.replace(uri, new Range(positionAt(0), positionAt(currentText.length)), text)]
    applied to the document, then the change listener (lines 162-166). *)
Definition apply_edit (h : hstate) (currentText : string) (data : json) : hstate :=
  send_data (set_text h (json_stringify data ++ sdrop (String.length currentText) (hs_text h))).

(** [await document.save()] (line 260). *)
Definition save (h : hstate) : hstate :=
  HState (hs_text h) (hs_text h) (hs_posted h) (hs_pending h).

(** Lines 177-261 once [data] is known: the branch chain, [sendData()]
    in the add branches, the write when dirty.  A throwing branch
    rejects the callback's promise: nothing is written. *)
Definition finish (h : hstate) (currentText : string) (data : json) (m : msg)
    (prompt : option string) (now : Z) : hstate :=
  match receive_core data m prompt now with
  | Throw _ => h
  | Ok o =>
      let h1 := if out_refresh o then send_data h else h in
      if out_dirty o then save (apply_edit h1 currentText (out_data o)) else h1
  end.

(** [onDidReceiveMessage] (lines 168-176) up to its first [await]: the
    add branches suspend at the prompt. *)
Definition on_message (h : hstate) (m : msg) (now : Z) : hstate :=
  let currentText := hs_text h in
  match json_parse currentText with
  | None => h
  | Some data =>
      match m with
      | MsgAddColumn | MsgAddCard _ =>
          set_pending h (hs_pending h ++ [Pending currentText data m])
      | _ => finish h currentText data m None now
      end
  end.

(** The [i]-th waiting callback gets the user's answer at time [now]. *)
Definition on_prompt (h : hstate) (i : nat) (answer : option string) (now : Z) : hstate :=
  match hs_pending h !! i with
  | Some p => finish (set_pending h (delete i (hs_pending h))) (pd_text p) (pd_data p) (pd_msg p) answer now
  | None => h
  end.

(** Opening the editor (lines 146-160): the initial [sendData()]. *)
Definition host_open (text : string) : hstate := send_data (HState text text [] []).

(** What can happen next: a message from the page, an answer to a
    prompt, or an edit of the document by someone else (which the change
    listener reports). *)
Inductive hevent :=
| HMessage (m : msg) (now : Z)
| HPrompt (i : nat) (answer : option string) (now : Z)
| HExternal (text : string).

Definition hstep (h : hstate) (ev : hevent) : hstate :=
  match ev with
  | HMessage m now => on_message h m now
  | HPrompt i a now => on_prompt h i a now
  | HExternal t => send_data (set_text h t)
  end.

Definition hrun (h : hstate) (evs : list hevent) : hstate := fold_left hstep evs h.

(** ** Lemmas *)

Lemma forallb_wf_map {A} (f : A -> json) l :
  (forall x, json_wf (f x) = true) -> forallb json_wf (map f l) = true.
Proof. intros H. induction l as [|x l IH]; [done|]. simpl. by rewrite H, IH. Qed.

Lemma card_json_wf k : json_wf (card_to_json k) = true.
Proof. reflexivity. Qed.

Lemma column_json_wf c : json_wf (column_to_json c) = true.
Proof.
  unfold column_to_json. cbn [json_wf forallb snd].
  rewrite (forallb_wf_map card_to_json) by apply card_json_wf. reflexivity.
Qed.

Lemma board_json_wf b : json_wf (board_to_json b) = true.
Proof.
  unfold board_to_json. cbn [json_wf forallb snd].
  rewrite (forallb_wf_map column_to_json) by apply column_json_wf. reflexivity.
Qed.

(** The text the host writes for a board reads back as that board. *)
Lemma parse_board b : json_parse (json_stringify (board_to_json b)) = Some (board_to_json b).
Proof. apply json_parse_stringify, board_json_wf. Qed.

Lemma sdrop_length s : sdrop (String.length s) s = EmptyString.
Proof. induction s; simpl; auto. Qed.

Lemma send_data_board (b : board) disk posted ps :
  send_data (HState (json_stringify (board_to_json b)) disk posted ps)
  = HState (json_stringify (board_to_json b)) disk (posted ++ [board_to_json b]) ps.
Proof. unfold send_data. cbn [hs_text]. by rewrite parse_board. Qed.

(** Writing the encoding of [b'] over the text the callback read. *)
Lemma write_board (b' : board) text disk posted ps :
  save (apply_edit (HState text disk posted ps) text (board_to_json b'))
  = HState (json_stringify (board_to_json b')) (json_stringify (board_to_json b'))
           (posted ++ [board_to_json b']) ps.
Proof.
  unfold apply_edit. cbn [hs_text]. rewrite sdrop_length, sapp_nil_r.
  unfold set_text. cbn [hs_disk hs_posted hs_pending]. by rewrite send_data_board.
Qed.

(** The messages that do not wait for a prompt. *)
Definition prompt_free (m : bmsg) : bool :=
  match m with BAddColumn | BAddCard _ => false | _ => true end.

Lemma receive_core_enc (b : board) (m : bmsg) p now :
  receive_core (board_to_json b) (embed_msg m) p now = Ok (outcome_of (reduce b m p now)).
Proof. destruct m; [reflexivity|..]; host_branch; reflexivity. Qed.

(** ** Theorems *)

(** C22. Refinement at the level of the document (spec §4.2 and §4.4):
    on a document whose text is the one the host writes for a board [b],
    with no callback waiting, a message that needs no prompt leaves the
    document (and the file on disk) as the text of the board [reduce]
    computes, and the page is sent that board, when [reduce] reports a
    change; otherwise nothing happens. *)
Theorem on_message_refines (b : board) (m : bmsg) (now : Z) (disk : string) (posted : list json) :
  prompt_free m = true ->
  on_message (HState (json_stringify (board_to_json b)) disk posted []) (embed_msg m) now
  = let '(b', dirty, _) := reduce b m None now in
    if dirty
    then HState (json_stringify (board_to_json b')) (json_stringify (board_to_json b'))
                (posted ++ [board_to_json b']) []
    else HState (json_stringify (board_to_json b)) disk posted [].
Proof.
  intros Hm. unfold on_message. cbn [hs_text]. rewrite parse_board.
  assert (Hf : forall X : hstate,
    match embed_msg m with MsgAddColumn | MsgAddCard _ => X
    | _ => finish (HState (json_stringify (board_to_json b)) disk posted [])
             (json_stringify (board_to_json b)) (board_to_json b) (embed_msg m) None now end
    = finish (HState (json_stringify (board_to_json b)) disk posted [])
             (json_stringify (board_to_json b)) (board_to_json b) (embed_msg m) None now)
    by (destruct m; done).
  rewrite Hf. unfold finish. rewrite receive_core_enc.
  destruct m; try discriminate Hm; cbn [reduce outcome_of out_refresh out_dirty out_data].
  all: repeat case_match; try done; by rewrite write_board.
Qed.

Lemma send_data_text h : hs_text (send_data h) = hs_text h.
Proof. unfold send_data. by destruct (json_parse _). Qed.

Lemma send_data_pending h : hs_pending (send_data h) = hs_pending h.
Proof. unfold send_data. by destruct (json_parse _). Qed.

(** ** A callback resumed after its prompt *)

Section Resume.
Context (h : hstate) (b : board) (text0 t : string) (now : Z).
Hypothesis Hp : hs_pending h !! 0%nat = Some (Pending text0 (board_to_json b) MsgAddColumn).
Hypothesis Ht : t <> "".

(** The column the resumed [add-column] callback appends. *)
Let col := Column (new_column_id t now) t [].

(** It refreshes the page from the document as it is now, then writes
    the board it parsed before the prompt, with the new column, over the
    first [currentText.length] characters of the document. *)
Lemma on_prompt_add_column :
  on_prompt h 0 (Some t) now
  = save (apply_edit (send_data (set_pending h (delete 0 (hs_pending h)))) text0
                     (board_to_json (add_column col b))).
Proof.
  unfold on_prompt. rewrite Hp. unfold finish. cbn [pd_text pd_data pd_msg].
  change MsgAddColumn with (embed_msg BAddColumn). rewrite receive_core_enc.
  cbn [reduce]. unfold prompt_truthy. rewrite bool_decide_false by done. done.
Qed.

Lemma on_prompt_add_column_text :
  hs_text (on_prompt h 0 (Some t) now)
  = (json_stringify (board_to_json (add_column col b)) ++ sdrop (String.length text0) (hs_text h))%string.
Proof.
  rewrite on_prompt_add_column. unfold save, apply_edit. cbn [hs_text].
  by rewrite !send_data_text.
Qed.
End Resume.

Lemma sdrop_ge s n : (String.length s <= n)%nat -> sdrop n s = EmptyString.
Proof.
  revert n. induction s as [|c s IH]; intros [|n] Hn; simpl in *; try done; [lia|]. apply IH. lia.
Qed.

Lemma sdrop_app n p s : (n <= String.length p)%nat -> sdrop n (p ++ s)%string = (sdrop n p ++ s)%string.
Proof.
  revert n. induction p as [|c p IH]; intros [|n] Hn; simpl in *; try done; [lia|]. apply IH. lia.
Qed.

Lemma ws_only_close q : ws_only (q ++ "}")%string = false.
Proof. induction q as [|c q IH]; [done|]. simpl. by rewrite IH, andb_false_r. Qed.

Lemma app_ends_close s1 s2 :
  (exists p, s2 = (p ++ "}")%string) -> exists p, (s1 ++ s2)%string = (p ++ "}")%string.
Proof. intros [p ->]. exists (s1 ++ p)%string. by rewrite sapp_assoc. Qed.

(** The text of an object ends with its closing brace. *)
Lemma stringify_obj_close ind fs : exists p, stringify_at ind (JObj fs) = (p ++ "}")%string.
Proof.
  destruct fs; [by exists "{"|]. cbn [stringify_at].
  do 6 apply app_ends_close. by exists EmptyString.
Qed.

(** C23. The refresh of an [add-column] (spec §4.4: "the Render Mirror
    is refreshed from the just-computed post-mutation Board"): the
    [sendData()] of the add branch runs before the edit and posts the
    document as it was, the board WITHOUT the new column; the new board
    reaches the page only through the change listener after the write. *)
Theorem add_column_refresh_stale (b : board) (t : string) (now0 now : Z) (disk : string) (posted : list json) :
  t <> "" ->
  hrun (HState (json_stringify (board_to_json b)) disk posted []) [HMessage MsgAddColumn now0; HPrompt 0 (Some t) now]
  = HState (json_stringify (board_to_json (add_column (Column (new_column_id t now) t []) b)))
           (json_stringify (board_to_json (add_column (Column (new_column_id t now) t []) b)))
           (posted ++ [board_to_json b; board_to_json (add_column (Column (new_column_id t now) t []) b)]) [].
Proof.
  intros Ht. unfold hrun. cbn [fold_left hstep].
  unfold on_message at 1. cbn [hs_text]. rewrite parse_board. cbn [set_pending hs_pending app].
  rewrite (on_prompt_add_column _ b (json_stringify (board_to_json b)) t now) by done.
  change (delete 0 [?p]) with (@nil pending). unfold set_pending. cbn [hs_text hs_disk hs_posted hs_pending].
  rewrite send_data_board, write_board. by rewrite <- app_assoc.
Qed.

(** C24. Edits made while an [add-column] prompt is open are lost
    (spec §5 requires the pending mutation to be applied to the board
    current when the prompt resolves): whatever happened to the
    document meanwhile, if it did not grow, the resumed callback leaves
    exactly the board it parsed before the prompt plus the new column. *)
Theorem prompt_discards_interleaved_edits (h : hstate) (b : board) (text0 t : string) (now : Z) :
  hs_pending h !! 0%nat = Some (Pending text0 (board_to_json b) MsgAddColumn) -> t <> "" ->
  (String.length (hs_text h) <= String.length text0)%nat ->
  hs_text (on_prompt h 0 (Some t) now)
  = json_stringify (board_to_json (add_column (Column (new_column_id t now) t []) b)).
Proof.
  intros Hp Ht Hlen. rewrite (on_prompt_add_column_text h b text0 t now Hp Ht), sdrop_ge by done.
  by rewrite sapp_nil_r.
Qed.

(** C25. When the document grew while an [add-column] prompt was open
    (a longer title, a card added by another callback, an external
    edit), the edit of the resumed callback replaces only the first
    [currentText.length] characters: the tail of the newer text stays
    behind the written board, and the file saved to disk is no longer
    JSON. *)
Theorem prompt_corrupts_grown_document (h : hstate) (b : board) (text0 t : string) (now : Z)
    (fs : list (string * json)) :
  hs_pending h !! 0%nat = Some (Pending text0 (board_to_json b) MsgAddColumn) -> t <> "" ->
  hs_text h = json_stringify (JObj fs) ->
  (String.length text0 < String.length (hs_text h))%nat ->
  json_parse (hs_disk (on_prompt h 0 (Some t) now)) = None.
Proof.
  intros Hp Ht Htext Hlen.
  assert (Hd : hs_disk (on_prompt h 0 (Some t) now) = hs_text (on_prompt h 0 (Some t) now))
    by (by rewrite (on_prompt_add_column h b text0 t now Hp Ht)).
  rewrite Hd, (on_prompt_add_column_text h b text0 t now Hp Ht).
  destruct (stringify_obj_close "" fs) as [p Ep]. unfold json_stringify in Htext.
  rewrite Htext, Ep in Hlen |- *. rewrite slength_app in Hlen. simpl in Hlen.
  rewrite sdrop_app by lia. apply json_parse_trailing; [apply board_json_wf|done|apply ws_only_close].
Qed.

(** ** Witnesses *)

Lemma on_message_refines_witness :
  prompt_free (BDeleteColumn "b") = true /\
  on_message (HState (json_stringify (board_to_json spec_board)) "" [] []) (embed_msg (BDeleteColumn "b")) 0
  = let '(b', dirty, _) := reduce spec_board (BDeleteColumn "b") None 0 in
    if dirty
    then HState (json_stringify (board_to_json b')) (json_stringify (board_to_json b'))
                ([] ++ [board_to_json b']) []
    else HState (json_stringify (board_to_json spec_board)) "" [] [].
Proof.
  split; [reflexivity|]. exact (on_message_refines spec_board (BDeleteColumn "b") 0 "" [] eq_refl).
Defined.

Lemma add_column_refresh_stale_witness :
  "Z" <> "" /\
  hrun (HState (json_stringify (board_to_json spec_board)) "" [] []) [HMessage MsgAddColumn 1; HPrompt 0 (Some "Z") 2]
  = HState (json_stringify (board_to_json (add_column (Column (new_column_id "Z" 2) "Z" []) spec_board)))
           (json_stringify (board_to_json (add_column (Column (new_column_id "Z" 2) "Z" []) spec_board)))
           ([] ++ [board_to_json spec_board; board_to_json (add_column (Column (new_column_id "Z" 2) "Z" []) spec_board)]) [].
Proof.
  assert (H : "Z" <> "") by discriminate.
  split; [exact H|]. exact (add_column_refresh_stale spec_board "Z" 1 2 "" [] H).
Defined.

(** The page asks for a new column; before the user answers, column "b"
    is deleted; the answer brings "b" back. *)
Lemma prompt_discards_interleaved_edits_witness :
  (hs_pending (hrun (host_open (json_stringify (board_to_json spec_board)))
                [HMessage MsgAddColumn 1; HMessage (MsgDeleteColumn (Some (JStr "b"))) 2]) !! 0%nat
   = Some (Pending (json_stringify (board_to_json spec_board)) (board_to_json spec_board) MsgAddColumn)
   /\ "Z" <> ""
   /\ (String.length (hs_text (hrun (host_open (json_stringify (board_to_json spec_board)))
                [HMessage MsgAddColumn 1; HMessage (MsgDeleteColumn (Some (JStr "b"))) 2]))
       <= String.length (json_stringify (board_to_json spec_board)))%nat) /\
  hs_text (on_prompt (hrun (host_open (json_stringify (board_to_json spec_board)))
                       [HMessage MsgAddColumn 1; HMessage (MsgDeleteColumn (Some (JStr "b"))) 2]) 0 (Some "Z") 3)
  = json_stringify (board_to_json (add_column (Column (new_column_id "Z" 3) "Z" []) spec_board)).
Proof.
  assert (H1 : hs_pending (hrun (host_open (json_stringify (board_to_json spec_board)))
                [HMessage MsgAddColumn 1; HMessage (MsgDeleteColumn (Some (JStr "b"))) 2]) !! 0%nat
               = Some (Pending (json_stringify (board_to_json spec_board)) (board_to_json spec_board) MsgAddColumn))
    by (vm_compute; reflexivity).
  assert (H2 : "Z" <> "") by discriminate.
  assert (H3 : (String.length (hs_text (hrun (host_open (json_stringify (board_to_json spec_board)))
                [HMessage MsgAddColumn 1; HMessage (MsgDeleteColumn (Some (JStr "b"))) 2]))
       <= String.length (json_stringify (board_to_json spec_board)))%nat)
    by (apply Nat.leb_le; vm_compute; reflexivity).
  split; [split; [exact H1|split; [exact H2|exact H3]]|].
  exact (prompt_discards_interleaved_edits _ spec_board _ "Z" 3 H1 H2 H3).
Defined.

(** The page asks for a new column; before the user answers, column "b"
    is renamed to a longer title; the answer leaves a file that is not
    JSON. *)
Lemma prompt_corrupts_grown_document_witness :
  (hs_pending (hrun (host_open (json_stringify (board_to_json spec_board)))
                [HMessage MsgAddColumn 1; HMessage (MsgRenameColumn (Some (JStr "b")) "Backlog") 2]) !! 0%nat
   = Some (Pending (json_stringify (board_to_json spec_board)) (board_to_json spec_board) MsgAddColumn)
   /\ "Z" <> ""
   /\ hs_text (hrun (host_open (json_stringify (board_to_json spec_board)))
                [HMessage MsgAddColumn 1; HMessage (MsgRenameColumn (Some (JStr "b")) "Backlog") 2])
      = json_stringify (JObj [("columns", JArr (map column_to_json (rename_column "b" "Backlog" spec_board)))])
   /\ (String.length (json_stringify (board_to_json spec_board))
       < String.length (hs_text (hrun (host_open (json_stringify (board_to_json spec_board)))
                [HMessage MsgAddColumn 1; HMessage (MsgRenameColumn (Some (JStr "b")) "Backlog") 2])))%nat) /\
  json_parse (hs_disk (on_prompt (hrun (host_open (json_stringify (board_to_json spec_board)))
                [HMessage MsgAddColumn 1; HMessage (MsgRenameColumn (Some (JStr "b")) "Backlog") 2]) 0 (Some "Z") 3))
  = None.
Proof.
  assert (H1 : hs_pending (hrun (host_open (json_stringify (board_to_json spec_board)))
                [HMessage MsgAddColumn 1; HMessage (MsgRenameColumn (Some (JStr "b")) "Backlog") 2]) !! 0%nat
               = Some (Pending (json_stringify (board_to_json spec_board)) (board_to_json spec_board) MsgAddColumn))
    by (vm_compute; reflexivity).
  assert (H2 : "Z" <> "") by discriminate.
  assert (H3 : hs_text (hrun (host_open (json_stringify (board_to_json spec_board)))
                [HMessage MsgAddColumn 1; HMessage (MsgRenameColumn (Some (JStr "b")) "Backlog") 2])
      = json_stringify (JObj [("columns", JArr (map column_to_json (rename_column "b" "Backlog" spec_board)))]))
    by (vm_compute; reflexivity).
  assert (H4 : (String.length (json_stringify (board_to_json spec_board))
       < String.length (hs_text (hrun (host_open (json_stringify (board_to_json spec_board)))
                [HMessage MsgAddColumn 1; HMessage (MsgRenameColumn (Some (JStr "b")) "Backlog") 2])))%nat)
    by (apply Nat.ltb_lt; vm_compute; reflexivity).
  split; [split; [exact H1|split; [exact H2|split; [exact H3|exact H4]]]|].
  exact (prompt_corrupts_grown_document _ spec_board _ "Z" 3 _ H1 H2 H3 H4).
Defined.
