(* ===== verification/EarlyHost.v ===== *)
(** * EarlyHost: the message callbacks of the two earlier hosts.

    - [src/extension.js] (lines 196-275): the callback of the current
      host ([HostDoc]) without the [move-column] branch (its branches,
      lines 207-261, are those of [src/unnamed/part_000] lines 179-230
      character for character) and without [document.save()]: the edit
      leaves the document modified in the editor, not on disk.
    - the earliest host, [src/unnamed/part_001] (lines 795-808): only
      [update] is handled, by replacing the whole text with
      [JSON.stringify(msg.data, null, 2)], without reading the document.

    The theorem: the [extension.js] host never writes the file. *)

From S2P Require Import Prelude Json Codec Board Host HostDoc.

(** ** [src/extension.js] (lines 196-275) *)

(** The branch chain of lines 207-261: a [move-column] message matches
    no branch. *)
Definition receive_core_ext (data : json) (m : msg) (prompt : option string) (now : Z) : result outcome :=
  match m with
  | MsgMoveColumn _ _ => unchanged data
  | _ => receive_core data m prompt now
  end.

(** Lines 263-274: the edit, with no save. *)
Definition finish_ext (h : hstate) (currentText : string) (data : json) (m : msg)
    (prompt : option string) (now : Z) : hstate :=
  match receive_core_ext data m prompt now with
  | Throw _ => h
  | Ok o =>
      let h1 := if out_refresh o then send_data h else h in
      if out_dirty o then apply_edit h1 currentText (out_data o) else h1
  end.

(** Lines 196-206, up to the [await] of the add branches. *)
Definition on_message_ext (h : hstate) (m : msg) (now : Z) : hstate :=
  let currentText := hs_text h in
  match json_parse currentText with
  | None => h
  | Some data =>
      match m with
      | MsgAddColumn | MsgAddCard _ =>
          set_pending h (hs_pending h ++ [Pending currentText data m])
      | _ => finish_ext h currentText data m None now
      end
  end.

Definition on_prompt_ext (h : hstate) (i : nat) (answer : option string) (now : Z) : hstate :=
  match hs_pending h !! i with
  | Some p => finish_ext (set_pending h (delete i (hs_pending h))) (pd_text p) (pd_data p) (pd_msg p) answer now
  | None => h
  end.

Definition hstep_ext (h : hstate) (ev : hevent) : hstate :=
  match ev with
  | HMessage m now => on_message_ext h m now
  | HPrompt i a now => on_prompt_ext h i a now
  | HExternal t => send_data (set_text h t)
  end.

(** ** The earliest host ([src/unnamed/part_001], lines 795-808) *)

(** The range ends at [positionAt(document.getText().length)]: the
    whole current text is replaced. *)
Definition on_message_v0 (h : hstate) (m : msg) : hstate :=
  match m with
  | MsgUpdate d => apply_edit h (hs_text h) d
  | _ => h
  end.

(** ** Lemmas *)

Lemma send_data_disk h : hs_disk (send_data h) = hs_disk h.
Proof. unfold send_data. by destruct (json_parse _). Qed.

Lemma apply_edit_disk h t d : hs_disk (apply_edit h t d) = hs_disk h.
Proof. unfold apply_edit. by rewrite send_data_disk. Qed.

(** The earliest host's [update] replaces the whole text by the board. *)
Lemma on_message_v0_text h d : hs_text (on_message_v0 h (MsgUpdate d)) = json_stringify d.
Proof.
  cbn [on_message_v0]. unfold apply_edit. rewrite send_data_text. cbn [hs_text set_text].
  by rewrite sdrop_length, sapp_nil_r.
Qed.

Lemma finish_ext_disk h t d m p now : hs_disk (finish_ext h t d m p now) = hs_disk h.
Proof.
  unfold finish_ext. destruct (receive_core_ext _ _ _ _) as [o|]; [|done].
  destruct (out_refresh o), (out_dirty o); rewrite ?apply_edit_disk, ?send_data_disk; done.
Qed.

(** ** Theorems *)

(** C32. The [extension.js] host never saves (spec §4.2: a mutation is
    durable once persisted): whatever the page sends, whatever the user
    answers and whatever else edits the document, the file on disk keeps
    its contents; the edits stay in the editor's buffer. *)
Theorem ext_never_saves (h : hstate) (evs : list hevent) :
  hs_disk (fold_left hstep_ext evs h) = hs_disk h.
Proof.
  revert h. induction evs as [|ev evs IH]; intros h; [done|]. cbn [fold_left]. rewrite IH.
  destruct ev as [m now|i a now|t]; cbn [hstep_ext].
  - unfold on_message_ext. destruct (json_parse _); [|done].
    destruct m; try apply finish_ext_disk; done.
  - unfold on_prompt_ext. destruct (hs_pending h !! i); [|done]. by rewrite finish_ext_disk.
  - by rewrite send_data_disk.
Qed.

