(* ===== verification/Webview.v ===== *)
(** * Webview: the board page's script (the Reorder Engine and Render Mirror).

    Models the [<script>] of [TodoBoardEditor.getHtml] in
    [src/unnamed/part_000] (lines 436-681).  The script keeps a global
    [state] (the last snapshot received) and drag globals; its handlers
    mutate [state] in place, so a handler that throws half-way leaves its
    mutations behind: the handlers here return the new state together
    with a [result].

    This file holds [moveCard] (lines 662-681), the splice that performs
    a card drop, on the JSON [state], and its refinement to the abstract
    [move_card] of spec §4.1 on typed boards, with the conservation and
    index theorems of spec §8. *)

From S2P Require Import Prelude Json Board.

(** ** [moveCard(fromId, toId, cardId, toIndex)] (lines 662-681) *)

(** Replace the column at [i] of [state.columns] by [col]: the in-place
    mutation of a column object reached through [state]. *)
Definition write_column (state : json) (cols : list json) (i : nat) (col : json) : result json :=
  js_set state "columns" (JArr (<[i := col]> cols)).

Definition moveCard (state : json) (fromId toId cardId : jsval) (toIndex : option Z)
    : json * result unit :=
  cols <-{state} get_array state "columns" ;;
  fromRef <-{state} find_ref (id_is fromId) cols ;;
  toRef <-{state} find_ref (id_is toId) cols ;;
  match fromRef with
  | None => (state, Throw TypeError)                       (* [fromCol.cards] on undefined *)
  | Some (fi, fromCol) =>
      fcards <-{state} get_array fromCol "cards" ;;
      fromIdx <-{state} js_findIndex (id_is cardId) fcards ;;
      if bool_decide (fromIdx = -1)%Z then (state, Ok tt)
      else
        (* [const [card] = fromCol.cards.splice(fromIdx, 1);] *)
        let '(fcards', removed) := js_splice fcards fromIdx 1 [] in
        let card := default JNull (head removed) in
        fromCol' <-{state} js_set fromCol "cards" (JArr fcards') ;;
        state1 <-{state} write_column state cols fi fromCol' ;;
        (* [finalIndex]: shifted left in a same-column move past the source *)
        let finalIndex :=
          match toIndex with
          | Some t => if js_seq fromId toId && bool_decide (fromIdx < t)%Z then Some (t - 1)%Z else Some t
          | None => None
          end in
        (* [toCol] is read through the mutated [state]: when it is
           [fromCol], it already lacks the card *)
        match toRef with
        | None => (state1, Throw TypeError)                  (* [toCol.cards] on undefined *)
        | Some (ti, _) =>
            let cols1 := <[fi := fromCol']> cols in
            match cols1 !! ti with
            | None => (state1, Throw TypeError)
            | Some toCol =>
                tcards <-{state1} get_array toCol "cards" ;;
                let fi' := default (Z.of_nat (length tcards)) finalIndex in
                toCol' <-{state1} js_set toCol "cards" (JArr (js_splice tcards fi' 0 [card]).1) ;;
                state2 <-{state1} write_column state1 cols1 ti toCol' ;;
                (state2, Ok tt)
            end
        end
  end.

(** ** Refinement of [moveCard] on encoded boards *)

Lemma write_column_enc (b : board) i c :
  write_column (board_to_json b) (map column_to_json b) i (column_to_json c)
  = Ok (board_to_json (<[i := c]> b)).
Proof. unfold write_column. by rewrite insert_map, set_columns. Qed.

Section MoveCardRefinement.
Context (b : board) (f t k : string) (i : nat) (c : column) (p : nat) (kd : card).
Hypothesis Hf : find_col f b = Some (i, c).
Hypothesis Hk : find_card k (col_cards c) = Some (p, kd).

(** The board after the removal of the card from its column. *)
Let b1 := <[i := set_cards (delete p (col_cards c)) c]> b.

Lemma moveCard_prefix (toIndex : option Z) :
  moveCard (board_to_json b) (Some (JStr f)) (Some (JStr t)) (Some (JStr k)) toIndex =
  match find_col t b with
  | None => (board_to_json b1, Throw TypeError)
  | Some (j, _) =>
      match map column_to_json b1 !! j with
      | None => (board_to_json b1, Throw TypeError)
      | Some toCol =>
          tcards <-{board_to_json b1} get_array toCol "cards" ;;
          let fi' := default (Z.of_nat (length tcards))
                       (match toIndex with
                        | Some ti => if bool_decide (f = t) && bool_decide (Z.of_nat p < ti)%Z
                                     then Some (ti - 1)%Z else Some ti
                        | None => None end) in
          toCol' <-{board_to_json b1} js_set toCol "cards" (JArr (js_splice tcards fi' 0 [card_to_json kd]).1) ;;
          state2 <-{board_to_json b1} write_column (board_to_json b1) (map column_to_json b1) j toCol' ;;
          (state2, Ok tt)
      end
  end.
Proof.
  pose proof (find_col_Some _ _ _ _ Hf) as [Hi _]. pose proof (find_card_Some _ _ _ _ Hk) as [Hp _].
  unfold moveCard. rewrite get_columns, !find_ref_columns, Hf. cbn [fmap option_fmap option_map fst snd].
  rewrite get_cards, findIndex_cards, Hk, bool_decide_false by lia.
  rewrite (splice_remove_map_pair _ _ _ kd) by done. cbn [head default].
  rewrite set_column_cards, write_column_enc.
  rewrite insert_map. fold b1.
  by destruct (find_col t b) as [[j d]|].
Qed.

(** The destination index, as JavaScript computes it and as spec §4.1
    states it. *)
Lemma final_index_eq (ti : nat) :
  (if bool_decide (f = t) && bool_decide (Z.of_nat p < Z.of_nat ti)%Z
   then Some (Z.of_nat ti - 1)%Z else Some (Z.of_nat ti))
  = Some (Z.of_nat (if bool_decide (f = t /\ p < ti)%nat then (ti - 1)%nat else ti)).
Proof.
  destruct (decide (f = t)) as [Heq|Hne], (decide (p < ti)%nat) as [Hlt|Hge].
  - rewrite !bool_decide_true by (done || lia). simpl. f_equal. lia.
  - rewrite (bool_decide_true (f = t)), (bool_decide_false (_ < _)%Z), (bool_decide_false (_ /\ _)) by (done || lia).
    done.
  - rewrite (bool_decide_false (f = t)), (bool_decide_false (_ /\ _)) by (done || naive_solver). done.
  - rewrite (bool_decide_false (f = t)), (bool_decide_false (_ /\ _)) by (done || naive_solver). done.
Qed.

(** [moveCard] on an encoded board whose source and destination
    columns both resolve is the abstract [move_card]. *)
Lemma moveCard_refines (j : nat) (d : column) (toIndex : option nat) :
  find_col t b = Some (j, d) ->
  moveCard (board_to_json b) (Some (JStr f)) (Some (JStr t)) (Some (JStr k)) (Z.of_nat <$> toIndex)
  = (board_to_json (move_card f t k toIndex b), Ok tt).
Proof.
  intros Ht. rewrite moveCard_prefix, Ht.
  pose proof (find_col_Some _ _ _ _ Ht) as [Hj _]. pose proof (lookup_lt_Some _ _ _ Hj).
  unfold move_card. rewrite Hf, Ht, Hk. fold b1.
  rewrite list_lookup_fmap.
  destruct (b1 !! j) as [d'|] eqn:Ed;
    [|exfalso; apply lookup_ge_None in Ed; unfold b1 in Ed; rewrite length_insert in Ed; lia].
  cbn [fmap option_fmap option_map]. rewrite get_cards.
  destruct toIndex as [ti|]; cbn [fmap option_fmap option_map].
  - rewrite final_index_eq. cbn [default id].
    rewrite js_splice_insert_any. cbn [fst].
    by rewrite insert_at_map, set_column_cards, write_column_enc.
  - cbn [default id]. rewrite length_map.
    rewrite js_splice_insert_any. cbn [fst].
    by rewrite insert_at_map, set_column_cards, write_column_enc.
Qed.

(** When the destination does not resolve, the card has already been
    spliced out of its column when [toCol.cards] throws. *)
Lemma moveCard_lost (toIndex : option Z) :
  find_col t b = None ->
  moveCard (board_to_json b) (Some (JStr f)) (Some (JStr t)) (Some (JStr k)) toIndex
  = (board_to_json b1, Throw TypeError).
Proof. intros Ht. by rewrite moveCard_prefix, Ht. Qed.
End MoveCardRefinement.

(** ** Properties of a card drop (spec §8) *)

(** C2. Move conservation: dropping a card of column [f] into column [t]
    (both present) never throws and yields a board with the same cards
    as a multiset (no card lost, duplicated or altered) and the same
    columns in the same order. *)
Theorem moveCard_conserves (b : board) (f t k : string) (toIndex : option nat) :
  is_Some (find_col f b) -> is_Some (find_col t b) ->
  exists b', moveCard (board_to_json b) (Some (JStr f)) (Some (JStr t)) (Some (JStr k)) (Z.of_nat <$> toIndex)
             = (board_to_json b', Ok tt)
             /\ all_cards b' ≡ₚ all_cards b /\ map col_id b' = map col_id b.
Proof.
  intros [[i c] Hf] [[j d] Ht].
  destruct (find_card k (col_cards c)) as [[p kd]|] eqn:Hk.
  - exists (move_card f t k toIndex b). split; [by eapply moveCard_refines|].
    by eapply move_card_conserves.
  - exists b. split; [|done].
    unfold moveCard. rewrite get_columns, !find_ref_columns, Hf, Ht.
    cbn [fmap option_fmap option_map fst snd]. by rewrite get_cards, findIndex_cards, Hk.
Qed.

(** C3. Same-column reorder (spec §4.1, §8): moving the card at index [p]
    of a column to the drop index [j > p] (counted in the column before
    the removal) leaves it at index [j - 1], and the other cards of the
    column in their previous order. *)
Theorem moveCard_same_column_shift (b : board) (f k : string) (i : nat) (c : column) (p : nat)
    (kd : card) (j : nat) :
  find_col f b = Some (i, c) -> find_card k (col_cards c) = Some (p, kd) ->
  (p < j <= length (col_cards c))%nat ->
  exists b' c', moveCard (board_to_json b) (Some (JStr f)) (Some (JStr f)) (Some (JStr k)) (Some (Z.of_nat j))
                = (board_to_json b', Ok tt)
                /\ b' !! i = Some c' /\ col_cards c' !! (j - 1)%nat = Some kd
                /\ delete (j - 1) (col_cards c') = delete p (col_cards c).
Proof.
  intros Hf Hk Hj.
  pose proof (find_col_Some _ _ _ _ Hf) as [Hi _]. pose proof (find_card_Some _ _ _ _ Hk) as [Hp _].
  pose proof (lookup_lt_Some _ _ _ Hi). pose proof (lookup_lt_Some _ _ _ Hp).
  destruct (move_card_unfold b f f k i c p kd Hf Hk (Some j) i c Hf) as (d' & Ed & Hmv).
  rewrite list_lookup_insert_eq in Ed by done. injection Ed as <-.
  rewrite bool_decide_true in Hmv by (split; [done|lia]). cbn [col_cards set_cards] in Hmv.
  assert (Hlen : (j - 1 <= length (delete p (col_cards c)))%nat) by (rewrite length_delete by eauto; lia).
  eexists _, _. split_and!.
  - apply (moveCard_refines _ _ _ _ _ _ _ _ Hf Hk i c (Some j) Hf).
  - rewrite Hmv. apply list_lookup_insert_eq. by rewrite length_insert.
  - by apply insert_at_lookup.
  - by apply delete_insert_at.
Qed.

(** C4. Cross-column move (spec §4.1): dropping the card at index [p] of
    column [f] into a different column [t] at index [q] removes it from
    [f] (the other cards keep their order) and inserts it before the
    card at [q] in [t] (at the end when [q] is past the last card). *)
Theorem moveCard_cross_column (b : board) (f t k : string) (i j p q : nat) (c d : column) (kd : card) :
  f <> t -> find_col f b = Some (i, c) -> find_col t b = Some (j, d) ->
  find_card k (col_cards c) = Some (p, kd) ->
  exists b', moveCard (board_to_json b) (Some (JStr f)) (Some (JStr t)) (Some (JStr k)) (Some (Z.of_nat q))
             = (board_to_json b', Ok tt)
             /\ b' !! i = Some (set_cards (delete p (col_cards c)) c)
             /\ b' !! j = Some (set_cards (insert_at q kd (col_cards d)) d).
Proof.
  intros Hne Hf Ht Hk.
  pose proof (find_col_Some _ _ _ _ Hf) as [Hi Hci]. pose proof (find_col_Some _ _ _ _ Ht) as [Hj Hdj].
  assert (Hij : i <> j) by (intros ->; congruence).
  pose proof (lookup_lt_Some _ _ _ Hi). pose proof (lookup_lt_Some _ _ _ Hj).
  destruct (move_card_unfold b f t k i c p kd Hf Hk (Some q) j d Ht) as (d' & Ed & Hmv).
  rewrite list_lookup_insert_ne in Ed by done. rewrite Hj in Ed. injection Ed as <-.
  rewrite bool_decide_false in Hmv by naive_solver.
  eexists. split_and!.
  - apply (moveCard_refines _ _ _ _ _ _ _ _ Hf Hk j d (Some q) Ht).
  - rewrite Hmv, list_lookup_insert_ne by done. by apply list_lookup_insert_eq.
  - rewrite Hmv. apply list_lookup_insert_eq. by rewrite length_insert.
Qed.

(** ** Witnesses on the board of spec §8 *)

Lemma moveCard_conserves_witness :
  (is_Some (find_col "a" spec_board) /\ is_Some (find_col "b" spec_board)) /\
  exists b', moveCard (board_to_json spec_board) (Some (JStr "a")) (Some (JStr "b")) (Some (JStr "c1"))
               (Z.of_nat <$> Some 0%nat) = (board_to_json b', Ok tt)
             /\ all_cards b' ≡ₚ all_cards spec_board /\ map col_id b' = map col_id spec_board.
Proof.
  assert (Hf : is_Some (find_col "a" spec_board)) by (eexists; reflexivity).
  assert (Ht : is_Some (find_col "b" spec_board)) by (eexists; reflexivity).
  split; [split; assumption|]. exact (moveCard_conserves spec_board "a" "b" "c1" (Some 0%nat) Hf Ht).
Defined.

Lemma moveCard_same_column_shift_witness :
  (find_col "a" spec_board = Some (0%nat, Column "a" "A" [Card "c1" "X"; Card "c2" "Y"]) /\
   find_card "c1" [Card "c1" "X"; Card "c2" "Y"] = Some (0%nat, Card "c1" "X") /\
   (0 < 2 <= length [Card "c1" "X"; Card "c2" "Y"])%nat) /\
  exists b' c', moveCard (board_to_json spec_board) (Some (JStr "a")) (Some (JStr "a")) (Some (JStr "c1"))
                  (Some (Z.of_nat 2)) = (board_to_json b', Ok tt)
                /\ b' !! 0%nat = Some c' /\ col_cards c' !! (2 - 1)%nat = Some (Card "c1" "X")
                /\ delete (2 - 1) (col_cards c') = delete 0 [Card "c1" "X"; Card "c2" "Y"].
Proof.
  assert (Hf : find_col "a" spec_board = Some (0%nat, Column "a" "A" [Card "c1" "X"; Card "c2" "Y"]))
    by reflexivity.
  assert (Hk : find_card "c1" [Card "c1" "X"; Card "c2" "Y"] = Some (0%nat, Card "c1" "X")) by reflexivity.
  assert (Hj : (0 < 2 <= length [Card "c1" "X"; Card "c2" "Y"])%nat) by (simpl; lia).
  split; [split; [exact Hf|split; [exact Hk|exact Hj]]|].
  exact (moveCard_same_column_shift spec_board "a" "c1" 0 _ 0 _ 2 Hf Hk Hj).
Defined.

Lemma moveCard_cross_column_witness :
  ("a" <> "b" /\
   find_col "a" spec_board = Some (0%nat, Column "a" "A" [Card "c1" "X"; Card "c2" "Y"]) /\
   find_col "b" spec_board = Some (1%nat, Column "b" "B" []) /\
   find_card "c1" [Card "c1" "X"; Card "c2" "Y"] = Some (0%nat, Card "c1" "X")) /\
  exists b', moveCard (board_to_json spec_board) (Some (JStr "a")) (Some (JStr "b")) (Some (JStr "c1"))
               (Some (Z.of_nat 0)) = (board_to_json b', Ok tt)
             /\ b' !! 0%nat = Some (Column "a" "A" [Card "c2" "Y"])
             /\ b' !! 1%nat = Some (Column "b" "B" [Card "c1" "X"]).
Proof.
  assert (Hne : "a" <> "b") by discriminate.
  assert (Hf : find_col "a" spec_board = Some (0%nat, Column "a" "A" [Card "c1" "X"; Card "c2" "Y"]))
    by reflexivity.
  assert (Ht : find_col "b" spec_board = Some (1%nat, Column "b" "B" [])) by reflexivity.
  assert (Hk : find_card "c1" [Card "c1" "X"; Card "c2" "Y"] = Some (0%nat, Card "c1" "X")) by reflexivity.
  split; [split; [exact Hne|split; [exact Hf|split; [exact Ht|exact Hk]]]|].
  exact (moveCard_cross_column spec_board "a" "b" "c1" 0 1 0 0 _ _ _ Hne Hf Ht Hk).
Defined.
