(* ===== verification/EarlyWebview.v ===== *)
(** * EarlyWebview: the card drop of the two earlier board pages.

    [src/extension.js] (lines 571-582) and the first version in
    [src/unnamed/part_001] (lines 662-673) move a dropped card to the
    end of the target column ([push]) and ignore a drop on the card's
    own column; the earliest version ([src/unnamed/part_001], lines
    914-923) lacks the [index === -1] guard, so a stale card id makes
    [splice(-1, 1)] remove the LAST card of the source column.

    Both are written on the JSON [state] in the style of [Webview]
    ([moveCard] of the current version), sharing the splice-and-push
    tail [splice_push].  The theorems relate them to [Webview.moveCard]
    and to the abstract [move_card] of spec §4.1. *)

From S2P Require Import Prelude Json Board Webview.

(** ** The two versions *)

(** [const [card] = fromCol.cards.splice(index, 1); toCol.cards.push(card);]
    (extension.js lines 580-581, part_001 lines 671-672 and 921-922):
    [toCol] was found before the splice and is read through the mutated
    [state]. *)
Definition splice_push (state : json) (cols : list json) (fi : nat) (fromCol : json)
    (fcards : list json) (index : Z) (toRef : option (nat * json)) : json * result unit :=
  let '(fcards', removed) := js_splice fcards index 1 [] in
  let card := default JNull (head removed) in
  fromCol' <-{state} js_set fromCol "cards" (JArr fcards') ;;
  state1 <-{state} write_column state cols fi fromCol' ;;
  match toRef with
  | None => (state1, Throw TypeError)                  (* [toCol.cards] on undefined *)
  | Some (ti, _) =>
      let cols1 := <[fi := fromCol']> cols in
      match cols1 !! ti with
      | None => (state1, Throw TypeError)
      | Some toCol =>
          tcards <-{state1} get_array toCol "cards" ;;
          toCol' <-{state1} js_set toCol "cards" (JArr (js_push tcards card)) ;;
          state2 <-{state1} write_column state1 cols1 ti toCol' ;;
          (state2, Ok tt)
      end
  end.

(** [moveCard(fromId, toId, cardId)] of [src/extension.js] (lines
    571-582). *)
Definition moveCard_append (state : json) (fromId toId cardId : jsval) : json * result unit :=
  if js_seq fromId toId then (state, Ok tt) else
  cols <-{state} get_array state "columns" ;;
  fromRef <-{state} find_ref (id_is fromId) cols ;;
  toRef <-{state} find_ref (id_is toId) cols ;;
  match fromRef with
  | None => (state, Throw TypeError)                   (* [fromCol.cards] on undefined *)
  | Some (fi, fromCol) =>
      fcards <-{state} get_array fromCol "cards" ;;
      index <-{state} js_findIndex (id_is cardId) fcards ;;
      if bool_decide (index = -1)%Z then (state, Ok tt)
      else splice_push state cols fi fromCol fcards index toRef
  end.

(** [moveCard(fromId, toId, cardId)] of the earliest version
    ([src/unnamed/part_001], lines 914-923): no [index === -1] guard. *)
Definition moveCard_v0 (state : json) (fromId toId cardId : jsval) : json * result unit :=
  if js_seq fromId toId then (state, Ok tt) else
  cols <-{state} get_array state "columns" ;;
  fromRef <-{state} find_ref (id_is fromId) cols ;;
  toRef <-{state} find_ref (id_is toId) cols ;;
  match fromRef with
  | None => (state, Throw TypeError)
  | Some (fi, fromCol) =>
      fcards <-{state} get_array fromCol "cards" ;;
      index <-{state} js_findIndex (id_is cardId) fcards ;;
      splice_push state cols fi fromCol fcards index toRef
  end.

(** ** Lemmas *)

Lemma js_splice_push {A} (l : list A) x :
  (js_splice l (Z.of_nat (length l)) 0 [x]).1 = js_push l x.
Proof.
  rewrite js_splice_insert by done. cbn [fst].
  by rewrite take_ge, drop_ge by done.
Qed.

(** Across columns, the appending [moveCard] is the current one with no
    drop index. *)
Lemma moveCard_append_eq state f t k :
  js_seq f t = false -> moveCard_append state f t k = moveCard state f t k None.
Proof.
  intros Hft. unfold moveCard_append, moveCard, splice_push. rewrite Hft.
  repeat case_match; simplify_eq; cbn [default id] in *; rewrite ?js_splice_push in *; congruence.
Qed.

(** [splice(-1, 1)] and [splice(n, 1)] remove the same card from a
    column of [n + 1] cards. *)
Lemma splice_push_neg1 state cols fi fromCol l x toRef :
  splice_push state cols fi fromCol (l ++ [x]) (-1) toRef
  = splice_push state cols fi fromCol (l ++ [x]) (Z.of_nat (length l)) toRef.
Proof.
  unfold splice_push. rewrite js_splice_remove_neg1.
  rewrite (js_splice_remove _ _ x) by (by rewrite lookup_app_r, Nat.sub_diag by done).
  rewrite take_app_length, drop_ge by (rewrite length_app; simpl; lia).
  by rewrite app_nil_r.
Qed.

(** The guard of [moveCard_v0] and the lookups, on an encoded board:
    what remains is the splice of the card at [index]. *)
Lemma moveCard_v0_enc b f t k i c :
  f <> t -> find_col f b = Some (i, c) ->
  moveCard_v0 (board_to_json b) (Some (JStr f)) (Some (JStr t)) (Some (JStr k))
  = splice_push (board_to_json b) (map column_to_json b) i (column_to_json c)
      (map card_to_json (col_cards c))
      (match find_card k (col_cards c) with Some (p, _) => Z.of_nat p | None => (-1)%Z end)
      ((fun ic => (ic.1, column_to_json ic.2)) <$> find_col t b).
Proof.
  intros Hft Hf. unfold moveCard_v0. rewrite js_seq_str, bool_decide_false by done.
  rewrite get_columns, !find_ref_columns, Hf. cbn [fmap option_fmap option_map fst snd].
  by rewrite get_cards, findIndex_cards.
Qed.

(** ** Theorems *)

(** C19. The card drop of [src/extension.js] on a board: when the
    dragged card is in its source column and both columns exist, a drop
    on another column is spec §4.1's [move_card] with no index (the card
    goes last), and a drop on its own column changes nothing. *)
Theorem moveCard_append_refines (b : board) (f t k : string) (i j : nat) (c d : column) (p : nat) (kd : card) :
  find_col f b = Some (i, c) -> find_card k (col_cards c) = Some (p, kd) -> find_col t b = Some (j, d) ->
  moveCard_append (board_to_json b) (Some (JStr f)) (Some (JStr t)) (Some (JStr k))
  = (board_to_json (if bool_decide (f = t) then b else move_card f t k None b), Ok tt).
Proof.
  intros Hf Hk Ht. case_bool_decide as Hft.
  - subst. unfold moveCard_append. by rewrite js_seq_str, bool_decide_true.
  - rewrite moveCard_append_eq by (by rewrite js_seq_str, bool_decide_false).
    exact (moveCard_refines b f t k i c p kd Hf Hk j d None Ht).
Qed.

(** C20. The earliest [moveCard] ([src/unnamed/part_001], lines
    914-923) with a card id that is not in the source column (a stale
    drag): [findIndex] answers [-1] and [splice(-1, 1)] takes the last
    card of the source column, which is moved to the target column. *)
Theorem moveCard_v0_stale_moves_last (b : board) (f t k : string) (i j : nat) (c d : column)
    (cs : list card) (kl : card) :
  wf b -> f <> t -> find_col f b = Some (i, c) -> col_cards c = cs ++ [kl] ->
  find_card k (col_cards c) = None -> find_col t b = Some (j, d) ->
  moveCard_v0 (board_to_json b) (Some (JStr f)) (Some (JStr t)) (Some (JStr k))
  = (board_to_json (move_card f t (card_id kl) None b), Ok tt).
Proof.
  intros Hwf Hft Hf Hcs Hk Ht.
  assert (Hkl : find_card (card_id kl) (col_cards c) = Some (length cs, kl)).
  { eapply wf_find_card; [done| apply (find_col_Some _ _ _ _ Hf)|].
    by rewrite Hcs, lookup_app_r, Nat.sub_diag by done. }
  rewrite (moveCard_v0_enc b f t k i c Hft Hf), Hk.
  assert (Hm : map card_to_json (col_cards c) = map card_to_json cs ++ [card_to_json kl])
    by (by rewrite Hcs, map_app).
  rewrite Hm, splice_push_neg1, length_map, <- Hm.
  rewrite <- (moveCard_refines b f t (card_id kl) i c (length cs) kl Hf Hkl j d None Ht).
  rewrite <- moveCard_append_eq by (by rewrite js_seq_str, bool_decide_false).
  unfold moveCard_append. rewrite js_seq_str, bool_decide_false by done.
  rewrite get_columns, !find_ref_columns, Hf. cbn [fmap option_fmap option_map fst snd].
  rewrite get_cards, findIndex_cards, Hkl, bool_decide_false by lia. done.
Qed.

(** ** Witnesses *)

Lemma moveCard_append_refines_witness :
  (find_col "a" spec_board = Some (0%nat, Column "a" "A" [Card "c1" "X"; Card "c2" "Y"])
   /\ find_card "c1" [Card "c1" "X"; Card "c2" "Y"] = Some (0%nat, Card "c1" "X")
   /\ find_col "b" spec_board = Some (1%nat, Column "b" "B" [])) /\
  moveCard_append (board_to_json spec_board) (Some (JStr "a")) (Some (JStr "b")) (Some (JStr "c1"))
  = (board_to_json (if bool_decide ("a" = "b") then spec_board else move_card "a" "b" "c1" None spec_board), Ok tt).
Proof.
  split; [split; [reflexivity|split; reflexivity]|].
  exact (moveCard_append_refines spec_board "a" "b" "c1" 0 1 _ _ 0 _ eq_refl eq_refl eq_refl).
Defined.

Lemma moveCard_v0_stale_moves_last_witness :
  (wf spec_board /\ "a" <> "b"
   /\ find_col "a" spec_board = Some (0%nat, Column "a" "A" [Card "c1" "X"; Card "c2" "Y"])
   /\ [Card "c1" "X"; Card "c2" "Y"] = [Card "c1" "X"] ++ [Card "c2" "Y"]
   /\ find_card "gone" [Card "c1" "X"; Card "c2" "Y"] = None
   /\ find_col "b" spec_board = Some (1%nat, Column "b" "B" [])) /\
  moveCard_v0 (board_to_json spec_board) (Some (JStr "a")) (Some (JStr "b")) (Some (JStr "gone"))
  = (board_to_json (move_card "a" "b" "c2" None spec_board), Ok tt).
Proof.
  assert (Hwf : wf spec_board) by (split; apply (bool_decide_unpack _); vm_compute; reflexivity).
  assert (Hab : "a" <> "b") by (apply (bool_decide_unpack _); vm_compute; reflexivity).
  split; [split; [exact Hwf|split; [exact Hab|repeat split]]|].
  exact (moveCard_v0_stale_moves_last spec_board "a" "b" "gone" 0 1 _ _ [Card "c1" "X"] (Card "c2" "Y")
           Hwf Hab eq_refl eq_refl eq_refl eq_refl).
Defined.
