(* ===== verification/DragDrop.v ===== *)
(** * DragDrop: where a dropped card goes (the drop geometry of the Reorder Engine).

    Models [getDragAfterElement] of [src/unnamed/part_000] (lines
    648-660): a [reduce] over the card elements of the drop target that
    are not being dragged, keeping the one whose vertical centre is the
    closest below the pointer.  Coordinates are exact rationals ([Q]):
    [getBoundingClientRect] and [clientY] are doubles, and the model
    does not round.

    The main theorem shows that, when the elements are laid out top to
    bottom (centres strictly increasing, which is how a column stacks its
    cards), the reduce returns the first element whose centre is below
    the pointer: the specification of spec §4.3. *)

From S2P Require Import Prelude.
From Stdlib Require Import QArith Lqa Sorted.

(** [child.getBoundingClientRect()]: only [top] and [height] are read. *)
Record box := Box { box_top : Q; box_height : Q }.

Definition center (bx : box) : Q := box_top bx + box_height bx / 2.

#[export] Instance Qlt_decision (x y : Q) : Decision (x < y)%Q :=
  match Qlt_le_dec x y with
  | left H => left H
  | right H => right (Qle_not_lt _ _ H)
  end.

(** The reducer callback of lines 651-658; [None] is the initial
    [{ offset: Number.NEGATIVE_INFINITY }], whose [element] is
    [undefined]. *)
Definition closer {A} (y : Q) (closest : option (Q * A)) (child : A * box) : option (Q * A) :=
  let '(el, bx) := child in
  let offset := (y - box_top bx - box_height bx / 2)%Q in
  if decide (offset < 0)%Q then
    match closest with
    | None => Some (offset, el)
    | Some (co, _) => if decide (co < offset)%Q then Some (offset, el) else closest
    end
  else closest.

(** [getDragAfterElement(container, y)] on the list of the container's
    [.card:not(.dragging)] elements with their boxes, in DOM order. *)
Definition getDragAfterElement {A} (els : list (A * box)) (y : Q) : option A :=
  snd <$> fold_left (closer y) els None.

(** The specification: the first element whose centre is below [y]. *)
Definition first_below {A} (els : list (A * box)) (y : Q) : option A :=
  (fun p => p.2.1) <$> list_find (fun e => (y < center e.2)%Q) els.

(** Centres strictly increase down the container. *)
Definition stacked {A} (els : list (A * box)) : Prop :=
  Sorted (fun e1 e2 => (center e1.2 < center e2.2)%Q) els.

(** ** Lemmas *)

Lemma offset_neg_iff y bx : (y - box_top bx - box_height bx / 2 < 0)%Q <-> (y < center bx)%Q.
Proof. unfold center. split; intros; lra. Qed.

(** Once the closest element [x] with offset [o] is chosen, the elements
    further down (larger centres) never replace it. *)
Lemma fold_closer_keep {A} y (els : list (A * box)) (o : Q) (x : A) bx :
  (o = y - box_top bx - box_height bx / 2)%Q ->
  Forall (fun e => (center bx < center e.2)%Q) els ->
  fold_left (closer y) els (Some (o, x)) = Some (o, x).
Proof.
  intros Ho. induction els as [|[el bx'] els IH]; intros Hall; [done|].
  pose proof (Forall_inv Hall) as Hlt. apply Forall_inv_tail in Hall. simpl in Hlt. simpl.
  unfold center in Hlt.
  destruct (decide (y - box_top bx' - box_height bx' / 2 < 0)%Q); [|by apply IH].
  rewrite decide_False by (rewrite Ho; lra). by apply IH.
Qed.

Lemma fold_closer_first {A} y (els : list (A * box)) :
  StronglySorted (fun e1 e2 => (center e1.2 < center e2.2)%Q) els ->
  fold_left (closer y) els None
  = (fun p => (y - box_top p.2.2 - box_height p.2.2 / 2, p.2.1)%Q)
      <$> list_find (fun e => (y < center e.2)%Q) els.
Proof.
  induction els as [|[el bx] els IH]; intros Hs; [done|].
  apply StronglySorted_inv in Hs as [Hs Hall]. simpl.
  destruct (decide (y - box_top bx - box_height bx / 2 < 0)%Q) as [Hn|Hn].
  - rewrite decide_True by (by apply offset_neg_iff). simpl.
    by apply (fold_closer_keep _ _ _ _ bx).
  - rewrite decide_False by (by rewrite <- offset_neg_iff).
    rewrite IH by done. by destruct (list_find _ els) as [[]|].
Qed.

(** ** The drop target *)

(** C13. Equivalence with the specification (spec §4.3): on a container
    whose cards are stacked top to bottom, [getDragAfterElement] returns
    the first card whose vertical centre lies below the drop point, and
    [undefined] when there is none (the drop then appends). *)
Theorem getDragAfterElement_first_below {A} (els : list (A * box)) (y : Q) :
  stacked els -> getDragAfterElement els y = first_below els y.
Proof.
  intros Hs. unfold getDragAfterElement, first_below.
  rewrite fold_closer_first.
  - by destruct (list_find _ els) as [[]|].
  - apply Sorted_StronglySorted; [|done]. intros [] [] []; simpl; apply Qlt_trans.
Qed.

(** Two 40px cards 8px apart; a drop at y = 30 lands before the second. *)
Lemma getDragAfterElement_first_below_witness :
  stacked [("c1", Box 0 40); ("c2", Box 48 40)] /\
  getDragAfterElement [("c1", Box 0 40); ("c2", Box 48 40)] 30 = first_below [("c1", Box 0 40); ("c2", Box 48 40)] 30.
Proof.
  assert (Hs : stacked [("c1", Box 0 40); ("c2", Box 48 40)]).
  { repeat constructor; vm_compute; reflexivity. }
  split; [exact Hs|]. exact (getDragAfterElement_first_below _ 30 Hs).
Defined.

(** The element chosen is one of the candidates. *)
Lemma fold_closer_in {A} y (els : list (A * box)) acc o a :
  fold_left (closer y) els acc = Some (o, a) -> (exists o', acc = Some (o', a)) \/ a ∈ map fst els.
Proof.
  revert acc. induction els as [|[el bx] els IH]; intros acc H; simpl in *; [by eauto|].
  destruct (IH _ H) as [[o' Ho]|Hin]; [|by right; apply elem_of_cons; right].
  unfold closer in Ho.
  repeat case_decide; destruct acc as [[]|]; simplify_eq; eauto;
    try (right; by apply elem_of_cons; left); try (case_decide; simplify_eq; eauto; right; by left).
Qed.

Lemma getDragAfterElement_in {A} (els : list (A * box)) y a :
  getDragAfterElement els y = Some a -> a ∈ map fst els.
Proof.
  unfold getDragAfterElement. destruct (fold_left _ els None) as [[o a']|] eqn:E; [|done].
  intros [= ->]. by destruct (fold_closer_in _ _ _ _ _ E) as [[? ?]|].
Qed.
