(* ===== verification/Page.v ===== *)
(** * Page: the webview page as an event-driven state machine (Render Mirror).

    Models the page script of [src/unnamed/part_000] (lines 436-612):
    - the page state [page]: the global [state] (the last snapshot),
      the DOM that the last [render()] built (the column and card objects
      its handlers close over), the drag globals [dragged],
      [draggedType] and [fromColumn], the card element carrying the
      class [dragging], and the messages posted to the host;
    - [dragged] and [fromColumn] are never declared in this version
      (only [state] and [draggedType] are, lines 438-439): they are
      globals created by their first assignment, and reading them before
      throws [ReferenceError] ([gvar]);
    - [render] (lines 448-612) and one handler per DOM event, composed
      as [handle : page -> event -> page * result unit]: a handler that
      throws keeps the mutations made before the throw;
    - [run] over event sequences and [step], the relation the
      reachable pages are defined by; the drag context after any
      sequence is traced back to the drag start that set it
      ([drag_origin]). *)

From S2P Require Import Prelude Json Board Host Webview DragDrop.
From Stdlib Require Import QArith Ascii.
From stdpp Require Import relations.

(** ** State *)

(** A global created by its first assignment. *)
Inductive gvar := Undeclared | Assigned (v : jsval).

(** [draggedType]: [null], ['column'] or ['card']. *)
Inductive dragType := DTNull | DTColumn | DTCard.

(** One column as [render()] drew it: the column object its handlers
    close over, and the card objects of its card elements. *)
Record colView := ColView { cv_col : json; cv_cards : list json }.

Record page := Page {
  pg_state : json;
  pg_view : list colView;
  pg_add_column : bool;               (** the "+ Add New Column" button exists *)
  pg_dragged : gvar;
  pg_draggedType : dragType;
  pg_fromColumn : gvar;
  pg_dragging : option (nat * nat);   (** the card element with class [dragging] *)
  pg_outbox : list msg                (** [vscode.postMessage] calls, oldest first *)
}.

(** Lines 437-439: [let state = null; let draggedType = null;]. *)
Definition page_init : page := Page JNull [] false Undeclared DTNull Undeclared None [].

(** ** Rendering (lines 448-612) *)

(** The reads [render] makes on one card: [el.dataset.id = card.id],
    [span.textContent = card.title]. *)
Definition render_card (card : json) : result unit :=
  _ <- js_get (Some card) "id" ;; _ <- js_get (Some card) "title" ;; Ok tt.

Fixpoint render_cards (cards : list json) : result unit :=
  match cards with
  | [] => Ok tt
  | k :: ks => _ <- render_card k ;; render_cards ks
  end.

(** One column: [title.textContent = col.title], then
    [col.cards.forEach(...)]. *)
Definition render_column (col : json) : result colView :=
  _ <- js_get (Some col) "title" ;;
  cards <- get_array col "cards" ;;
  _ <- render_cards cards ;;
  Ok (ColView col cards).

(** [state.columns.forEach(...)]: the columns drawn before a throw stay
    on the board. *)
Fixpoint render_columns (cols : list json) : list colView * result unit :=
  match cols with
  | [] => ([], Ok tt)
  | c :: cs =>
      match render_column c with
      | Ok v => let '(vs, r) := render_columns cs in (v :: vs, r)
      | Throw e => ([], Throw e)
      end
  end.

(** [render()]: [board.innerHTML = ""], the columns, then the add-column
    button when every column was drawn.  The rebuilt elements carry no
    [dragging] class. *)
Definition render_board (state : json) : list colView * result unit :=
  match get_array state "columns" with
  | Ok cols => render_columns cols
  | Throw e => ([], Throw e)
  end.

Definition render (pg : page) : page * result unit :=
  let '(view, r) := render_board (pg_state pg) in
  (Page (pg_state pg) view (is_ok r) (pg_dragged pg) (pg_draggedType pg)
        (pg_fromColumn pg) None (pg_outbox pg), r).

(** ** Helpers of the handlers *)

Definition post (pg : page) (m : msg) : page :=
  Page (pg_state pg) (pg_view pg) (pg_add_column pg) (pg_dragged pg) (pg_draggedType pg)
       (pg_fromColumn pg) (pg_dragging pg) (pg_outbox pg ++ [m]).

Definition set_drag (pg : page) (d : gvar) (t : dragType) (f : gvar) : page :=
  Page (pg_state pg) (pg_view pg) (pg_add_column pg) d t f (pg_dragging pg) (pg_outbox pg).

Definition set_dragging (pg : page) (x : option (nat * nat)) : page :=
  Page (pg_state pg) (pg_view pg) (pg_add_column pg) (pg_dragged pg) (pg_draggedType pg)
       (pg_fromColumn pg) x (pg_outbox pg).

Definition set_state (pg : page) (s : json) : page :=
  Page s (pg_view pg) (pg_add_column pg) (pg_dragged pg) (pg_draggedType pg)
       (pg_fromColumn pg) (pg_dragging pg) (pg_outbox pg).

(** Reading a global. *)
Definition read_gvar (g : gvar) : result jsval :=
  match g with Undeclared => Throw ReferenceError | Assigned v => Ok v end.

(** [String(v)], as [el.dataset.id = card.id] stores it. *)
Fixpoint json_to_string (j : json) : string :=
  match j with
  | JNull => "null"
  | JBool true => "true"
  | JBool false => "false"
  | JNum n => js_string_of_int n
  | JStr s => s
  | JArr l =>
      (* [Array.prototype.join(",")]: [null] elements print as "" *)
      (fix go (l : list json) : string :=
         match l with
         | [] => ""
         | [x] => match x with JNull => "" | _ => json_to_string x end
         | x :: l' => ((match x with JNull => "" | _ => json_to_string x end) ++ "," ++ go l')%string
         end) l
  | JObj _ => "[object Object]"
  end.

Definition js_to_string (v : jsval) : string :=
  match v with None => "undefined" | Some j => json_to_string j end.

(** [String.prototype.trim] on the ASCII white space. *)
Definition is_space (c : ascii) : bool :=
  let n := nat_of_ascii c in bool_decide (n = 32 \/ (9 <= n <= 13))%nat.

Fixpoint trim_left (s : string) : string :=
  match s with
  | String c s' => if is_space c then trim_left s' else s
  | EmptyString => EmptyString
  end.

Fixpoint srev_app (s acc : string) : string :=
  match s with
  | String c s' => srev_app s' (String c acc)
  | EmptyString => acc
  end.

Definition trim (s : string) : string :=
  srev_app (trim_left (srev_app (trim_left s) EmptyString)) EmptyString.

(** [el.dataset.id]: the card's id as a string. *)
Definition dataset_id (card : json) : string :=
  js_to_string (match js_get (Some card) "id" with Ok v => v | Throw _ => None end).

(** [container.querySelectorAll('.card:not(.dragging)')] on the cards
    container of column [ci], from the card at position [ki] on: the
    [dataset.id] and bounding box of each card element ([boxes] holds
    one box per card element, in order). *)
Fixpoint container_from (dragging : option (nat * nat)) (ci ki : nat) (cards : list json)
    (boxes : list box) : list (string * box) :=
  match cards, boxes with
  | card :: cs, bx :: bs =>
      let rest := container_from dragging ci (S ki) cs bs in
      if bool_decide (dragging = Some (ci, ki)) then rest else (dataset_id card, bx) :: rest
  | _, _ => []
  end.

Definition container_elements (pg : page) (ci : nat) (cards : list json) (boxes : list box)
    : list (string * box) :=
  container_from (pg_dragging pg) ci 0 cards boxes.

(** ** Events and handlers *)

(** The DOM events the page reacts to; an event names the element it
    targets by its position in the rendered board. *)
Inductive event :=
| EvData (data : json)                    (** window [message] of type ["data"] (441-446) *)
| EvColumnDragStart (ci : nat)            (** column [ondragstart] from its header (456-464) *)
| EvColumnDragEnd (ci : nat)              (** column [ondragend] (466-471) *)
| EvCardDragStart (ci ki : nat)           (** card [ondragstart] (573-579) *)
| EvCardDragEnd (ci ki : nat)             (** card [ondragend], bubbling to its column (581-583) *)
| EvDrop (ci : nat) (y : Q) (boxes : list box)  (** column [ondrop] (526-550) *)
| EvRenameBlur (ci : nat) (text : string) (** title [onblur]: [saveRename] (481-490) *)
| EvDeleteColumn (ci : nat)               (** column delete button (502-504) *)
| EvDeleteCard (ci ki : nat)              (** card delete button (565-568) *)
| EvAddCard                               (** "+ Add Todo" of the first column (594-596) *)
| EvAddColumn.                            (** "+ Add New Column" (608-610) *)

(** Lines 547-549. *)
Definition drop_reset (pg : page) : page :=
  set_drag pg (Assigned (Some JNull)) DTNull (Assigned (Some JNull)).

(** Lines 537-540: the drop index. *)
Definition drop_index (state : json) (col : json) (after : option string) : result Z :=
  colId <- js_get (Some col) "id" ;;
  cols <- get_array state "columns" ;;
  r <- js_find (id_is colId) cols ;;
  match r with
  | None => Throw TypeError
  | Some c =>
      cards <- get_array c "cards" ;;
      match after with
      | Some did => js_findIndex (id_is (Some (JStr did))) cards
      | None => Ok (Z.of_nat (length cards))
      end
  end.

(** Lines 537-544: the card branch of the drop handler. *)
Definition drop_card (pg : page) (ci : nat) (cv : colView) (y : Q) (boxes : list box)
    : page * result unit :=
  let after := getDragAfterElement (container_elements pg ci (cv_cards cv) boxes) y in
  idx <-{pg} drop_index (pg_state pg) (cv_col cv) after ;;
  fromId <-{pg} read_gvar (pg_fromColumn pg) ;;
  colId <-{pg} js_get (Some (cv_col cv)) "id" ;;
  dragged <-{pg} read_gvar (pg_dragged pg) ;;
  cardId <-{pg} js_get dragged "id" ;;
  let '(st', r) := moveCard (pg_state pg) fromId colId cardId (Some idx) in
  let pg1 := set_state pg st' in
  _ <-{pg1} r ;;
  let '(pg2, r2) := render pg1 in
  _ <-{pg2} r2 ;;
  (post pg2 (MsgUpdate (pg_state pg2)), Ok tt).

(** Lines 532-545: the branch on [draggedType] of the drop handler. *)
Definition drop_branch (pg : page) (ci : nat) (cv : colView) (d : jsval) (y : Q) (boxes : list box)
    : page * result unit :=
  match pg_draggedType pg with
  | DTColumn =>
      did <-{pg} js_get d "id" ;;
      cid <-{pg} js_get (Some (cv_col cv)) "id" ;;
      if js_seq did cid then (pg, Ok tt) else (post pg (MsgMoveColumn did cid), Ok tt)
  | DTCard => drop_card pg ci cv y boxes
  | DTNull => (pg, Ok tt)
  end.

(** Lines 526-550: [column.ondrop]. *)
Definition on_drop (pg : page) (ci : nat) (y : Q) (boxes : list box) : page * result unit :=
  match pg_view pg !! ci with
  | None => (pg, Ok tt)
  | Some cv =>
      d <-{pg} read_gvar (pg_dragged pg) ;;
      if negb (js_truthy d) then (pg, Ok tt)
      else
        let '(pg', r) := drop_branch pg ci cv d y boxes in
        _ <-{pg'} r ;;
        (drop_reset pg', Ok tt)
  end.

(** Lines 481-488: [saveRename]. *)
Definition save_rename (pg : page) (cv : colView) (text : string) : page * result unit :=
  let newTitle := trim text in
  t <-{pg} js_get (Some (cv_col cv)) "title" ;;
  if bool_decide (newTitle <> "") && negb (js_seq (Some (JStr newTitle)) t) then
    cid <-{pg} js_get (Some (cv_col cv)) "id" ;;
    (post pg (MsgRenameColumn cid newTitle), Ok tt)
  else (pg, Ok tt).

Definition handle (pg : page) (ev : event) : page * result unit :=
  match ev with
  | EvData d => render (set_state pg d)
  | EvColumnDragStart ci =>
      match pg_view pg !! ci with
      | Some cv => (set_drag pg (Assigned (Some (cv_col cv))) DTColumn (pg_fromColumn pg), Ok tt)
      | None => (pg, Ok tt)
      end
  | EvColumnDragEnd ci =>
      match pg_view pg !! ci with
      | Some _ => (set_drag pg (Assigned (Some JNull)) DTNull (pg_fromColumn pg), Ok tt)
      | None => (pg, Ok tt)
      end
  | EvCardDragStart ci ki =>
      match pg_view pg !! ci with
      | Some cv =>
          match cv_cards cv !! ki with
          | Some card =>
              fid <-{pg} js_get (Some (cv_col cv)) "id" ;;
              (set_dragging (set_drag pg (Assigned (Some card)) DTCard (Assigned fid)) (Some (ci, ki)), Ok tt)
          | None => (pg, Ok tt)
          end
      | None => (pg, Ok tt)
      end
  | EvCardDragEnd ci ki =>
      match pg_view pg !! ci with
      | Some cv =>
          match cv_cards cv !! ki with
          | Some _ => (set_drag (set_dragging pg None) (Assigned (Some JNull)) DTNull (pg_fromColumn pg), Ok tt)
          | None => (pg, Ok tt)
          end
      | None => (pg, Ok tt)
      end
  | EvDrop ci y boxes => on_drop pg ci y boxes
  | EvRenameBlur ci text =>
      match pg_view pg !! ci with Some cv => save_rename pg cv text | None => (pg, Ok tt) end
  | EvDeleteColumn ci =>
      match pg_view pg !! ci with
      | Some cv => cid <-{pg} js_get (Some (cv_col cv)) "id" ;; (post pg (MsgDeleteColumn cid), Ok tt)
      | None => (pg, Ok tt)
      end
  | EvDeleteCard ci ki =>
      match pg_view pg !! ci with
      | Some cv =>
          match cv_cards cv !! ki with
          | Some card =>
              cid <-{pg} js_get (Some (cv_col cv)) "id" ;;
              kid <-{pg} js_get (Some card) "id" ;;
              (post pg (MsgDeleteCard cid kid), Ok tt)
          | None => (pg, Ok tt)
          end
      | None => (pg, Ok tt)
      end
  | EvAddCard =>
      match pg_view pg !! 0%nat with
      | Some cv => cid <-{pg} js_get (Some (cv_col cv)) "id" ;; (post pg (MsgAddCard cid), Ok tt)
      | None => (pg, Ok tt)
      end
  | EvAddColumn => if pg_add_column pg then (post pg MsgAddColumn, Ok tt) else (pg, Ok tt)
  end.

(** Running a sequence of events (each handler runs to completion). *)
Fixpoint run (pg : page) (evs : list event) : page :=
  match evs with
  | [] => pg
  | ev :: evs' => run (handle pg ev).1 evs'
  end.

Definition step (pg pg' : page) : Prop := exists ev, (handle pg ev).1 = pg'.

(** ** The page on an encoded board *)

(** The column view [render] draws for a typed column. *)
Definition cv_of (c : column) : colView := ColView (column_to_json c) (map card_to_json (col_cards c)).

Lemma column_id_enc c : js_get (Some (column_to_json c)) "id" = Ok (Some (JStr (col_id c))).
Proof. reflexivity. Qed.

Lemma card_id_enc k : js_get (Some (card_to_json k)) "id" = Ok (Some (JStr (card_id k))).
Proof. reflexivity. Qed.

Lemma js_truthy_card k : js_truthy (Some (card_to_json k)) = true.
Proof. reflexivity. Qed.

Lemma render_cards_enc ks : render_cards (map card_to_json ks) = Ok tt.
Proof. by induction ks. Qed.

Lemma render_columns_enc (b : board) : render_columns (map column_to_json b) = (map cv_of b, Ok tt).
Proof.
  induction b as [|c b IH]; [done|]. cbn [map render_columns].
  unfold render_column. rewrite get_cards, render_cards_enc. cbn. by rewrite IH.
Qed.

Lemma render_enc (pg : page) (b : board) :
  pg_state pg = board_to_json b ->
  render pg = (Page (board_to_json b) (map cv_of b) true (pg_dragged pg) (pg_draggedType pg)
                    (pg_fromColumn pg) None (pg_outbox pg), Ok tt).
Proof. intros Hs. unfold render, render_board. rewrite Hs, get_columns, render_columns_enc. by rewrite <- Hs. Qed.

Lemma container_from_ids dr ci ki ks boxes e :
  e ∈ container_from dr ci ki (map card_to_json ks) boxes -> e.1 ∈ map card_id ks.
Proof.
  revert ki boxes. induction ks as [|k ks IH]; intros ki [|bx boxes] He; simpl in *;
    try by apply elem_of_nil in He.
  case_bool_decide.
  - apply elem_of_cons; right. by eapply IH.
  - apply elem_of_cons in He as [->|He]; [by apply elem_of_cons; left|].
    apply elem_of_cons; right. by eapply IH.
Qed.

(** The drop index on an encoded board: the position of the card the
    pointer is above, or the length of the column. *)
Definition drop_target (d : column) (after : option string) : nat :=
  match after with
  | Some did => match find_card did (col_cards d) with Some (q, _) => q | None => length (col_cards d) end
  | None => length (col_cards d)
  end.

Lemma drop_index_enc (b : board) (j : nat) (d : column) (after : option string) :
  wf b -> b !! j = Some d -> (forall did, after = Some did -> did ∈ map card_id (col_cards d)) ->
  drop_index (board_to_json b) (column_to_json d) after = Ok (Z.of_nat (drop_target d after)).
Proof.
  intros Hwf Hj Hafter. unfold drop_index. rewrite column_id_enc.
  rewrite get_columns, <- find_ref_find, find_ref_columns, (wf_find_col _ _ _ Hwf Hj).
  cbn [fmap option_fmap option_map fst snd].
  rewrite get_cards. destruct after as [did|].
  - destruct (find_card_elem_of did (col_cards d)) as (q & k & Hq); [by apply Hafter|].
    unfold drop_target. by rewrite findIndex_cards, Hq.
  - by rewrite length_map.
Qed.

Lemma page_after_card_drag_start (b : board) ci ki c k :
  b !! ci = Some c -> col_cards c !! ki = Some k ->
  run page_init [EvData (board_to_json b); EvCardDragStart ci ki]
  = Page (board_to_json b) (map cv_of b) true (Assigned (Some (card_to_json k))) DTCard
         (Assigned (Some (JStr (col_id c)))) (Some (ci, ki)) [].
Proof.
  intros Hc Hk. cbn [run]. unfold handle at 2. rewrite (render_enc _ b) by done. cbn [fst].
  unfold handle. cbn [pg_view]. rewrite list_lookup_fmap, Hc. cbn [fmap option_fmap option_map cv_cards cv_of].
  rewrite list_lookup_fmap, Hk. cbn [fmap option_fmap option_map cv_col cv_of]. rewrite column_id_enc.
  reflexivity.
Qed.

(** The page after a card drop on a page showing [b]: the board the
    abstract [move_card] gives, re-rendered, posted, and the drag reset. *)
Lemma card_drop_page (b : board) (ci ki cj : nat) (c d : column) (k : card) (y : Q) (boxes : list box) :
  wf b -> b !! ci = Some c -> col_cards c !! ki = Some k -> b !! cj = Some d ->
  let b' := move_card (col_id c) (col_id d) (card_id k)
              (Some (drop_target d (getDragAfterElement
                       (container_from (Some (ci, ki)) cj 0 (map card_to_json (col_cards d)) boxes) y))) b in
  handle (run page_init [EvData (board_to_json b); EvCardDragStart ci ki]) (EvDrop cj y boxes)
  = (drop_reset (post (Page (board_to_json b') (map cv_of b') true (Assigned (Some (card_to_json k))) DTCard
                            (Assigned (Some (JStr (col_id c)))) None [])
                      (MsgUpdate (board_to_json b'))), Ok tt).
Proof.
  intros Hwf Hc Hk Hd b'. rewrite (page_after_card_drag_start b ci ki c k Hc Hk).
  set (after := getDragAfterElement _ y) in b' |- *.
  unfold handle, on_drop. cbn [pg_view]. rewrite list_lookup_fmap, Hd. unfold drop_branch.
  cbn [fmap option_fmap option_map read_gvar pg_dragged pg_draggedType].
  rewrite js_truthy_card. cbn [negb].
  unfold drop_card, container_elements. cbn [cv_col cv_cards cv_of pg_state pg_fromColumn pg_dragged pg_dragging].
  fold after.
  rewrite (drop_index_enc b cj d after Hwf Hd).
  2: { intros did Hdid. apply getDragAfterElement_in in Hdid. apply list_elem_of_fmap in Hdid as [e [-> He]].
       by apply container_from_ids in He. }
  cbn [read_gvar]. rewrite column_id_enc. cbn [read_gvar]. rewrite card_id_enc. cbn [read_gvar].
  change (Some (Z.of_nat (drop_target d after))) with (Z.of_nat <$> Some (drop_target d after)).
  rewrite (moveCard_refines b (col_id c) (col_id d) (card_id k) ci c ki k
             (wf_find_col _ _ _ Hwf Hc) (wf_find_card _ _ _ _ _ Hwf Hc Hk) cj d _ (wf_find_col _ _ _ Hwf Hd)).
  fold b'. by rewrite (render_enc _ b') by done.
Qed.

(** C14. Drag and drop of a card, end to end (spec §4.3 and §4.1): on a
    page showing a board with unique ids, dragging the card at [ki] of
    column [ci] and dropping it on column [cj] posts exactly one
    [update] message, carrying the board in which the card was moved by
    the abstract [move_card] to the index of the card the pointer is
    above ([getDragAfterElement] over the other cards of the target), or
    to the end; the page shows that board and the drag context is reset. *)
Theorem card_drop_posts_move (b : board) (ci ki cj : nat) (c d : column) (k : card)
    (y : Q) (boxes : list box) :
  wf b -> b !! ci = Some c -> col_cards c !! ki = Some k -> b !! cj = Some d ->
  exists pg',
    handle (run page_init [EvData (board_to_json b); EvCardDragStart ci ki]) (EvDrop cj y boxes) = (pg', Ok tt)
    /\ pg_outbox pg' =
       [MsgUpdate (board_to_json
          (move_card (col_id c) (col_id d) (card_id k)
             (Some (drop_target d (getDragAfterElement
                      (container_from (Some (ci, ki)) cj 0 (map card_to_json (col_cards d)) boxes) y)))
             b))]
    /\ pg_dragged pg' = Assigned (Some JNull) /\ pg_draggedType pg' = DTNull.
Proof.
  intros Hwf Hc Hk Hd. rewrite (card_drop_page b ci ki cj c d k y boxes Hwf Hc Hk Hd).
  by eexists.
Qed.

Lemma page_after_data (b : board) :
  run page_init [EvData (board_to_json b)]
  = Page (board_to_json b) (map cv_of b) true Undeclared DTNull Undeclared None [].
Proof. cbn [run]. unfold handle. by rewrite (render_enc _ b). Qed.

(** C15. [dragged] is never declared in this version: a drop on a column
    before any drag has started (a file or text dragged in from outside
    the page, which [ondragover] accepts) throws [ReferenceError] in the
    drop handler. *)
Theorem drop_before_drag_reference_error (b : board) (ci : nat) (y : Q) (boxes : list box) :
  (ci < length b)%nat ->
  snd (handle (run page_init [EvData (board_to_json b)]) (EvDrop ci y boxes)) = Throw ReferenceError.
Proof.
  intros Hci. rewrite page_after_data. destruct (lookup_lt_is_Some_2 b ci Hci) as [c Hc].
  unfold handle, on_drop. cbn [pg_view]. by rewrite list_lookup_fmap, Hc.
Qed.

(** ** The drag context *)

(** While a drag is in progress, [dragged] holds the dragged object and,
    for a card, [fromColumn] has been assigned. *)
Definition drag_ok (pg : page) : Prop :=
  match pg_draggedType pg with
  | DTNull => True
  | DTColumn => exists v, pg_dragged pg = Assigned (Some v) /\ v <> JNull
  | DTCard => (exists v, pg_dragged pg = Assigned (Some v) /\ v <> JNull) /\ exists f, pg_fromColumn pg = Assigned f
  end.

(** The objects the rendered handlers close over are not [null]. *)
Definition view_ok (pg : page) : Prop :=
  Forall (fun cv => cv_col cv <> JNull /\ Forall (fun k => k <> JNull) (cv_cards cv)) (pg_view pg).

Definition page_inv (pg : page) : Prop := drag_ok pg /\ view_ok pg.

(** [pg'] keeps the drag globals of [pg]. *)
Definition same_drag (pg pg' : page) : Prop :=
  pg_dragged pg' = pg_dragged pg /\ pg_draggedType pg' = pg_draggedType pg /\
  pg_fromColumn pg' = pg_fromColumn pg.

Lemma drag_ok_same pg pg' : same_drag pg pg' -> drag_ok pg -> drag_ok pg'.
Proof. intros (Hd & Ht & Hf). unfold drag_ok. by rewrite Hd, Ht, Hf. Qed.

Lemma render_cards_ok ks : render_cards ks = Ok tt -> Forall (fun k => k <> JNull) ks.
Proof.
  induction ks as [|k ks IH]; intros H; [constructor|]. simpl in H.
  destruct k; try (by constructor; [done|apply IH; destruct (render_cards ks)]); done.
Qed.

Lemma render_columns_ok cols vs r :
  render_columns cols = (vs, r) ->
  Forall (fun cv => cv_col cv <> JNull /\ Forall (fun k => k <> JNull) (cv_cards cv)) vs.
Proof.
  revert vs r. induction cols as [|c cols IH]; intros vs r H; simpl in H; [by injection H as <-|].
  destruct (render_column c) as [v|e] eqn:Hc; [|by injection H as <-].
  destruct (render_columns cols) as [vs' r'] eqn:Hr. injection H as <- <-.
  constructor; [|by eapply IH]. unfold render_column in Hc.
  destruct c; try discriminate; cbn in Hc;
    destruct (js_array _) as [ks|]; try discriminate;
    destruct (render_cards ks) as [[]|] eqn:Hk; try discriminate;
    injection Hc as <-; split; [done|by apply render_cards_ok].
Qed.

Lemma render_board_ok s vs r :
  render_board s = (vs, r) ->
  Forall (fun cv => cv_col cv <> JNull /\ Forall (fun k => k <> JNull) (cv_cards cv)) vs.
Proof.
  unfold render_board. destruct (get_array s "columns"); [apply render_columns_ok|].
  by intros [= <- _].
Qed.

Lemma render_inv pg : view_ok (render pg).1 /\ same_drag pg (render pg).1.
Proof.
  unfold render. destruct (render_board (pg_state pg)) as [vs r] eqn:E.
  split; [apply (render_board_ok _ _ _ E)|done].
Qed.

Lemma same_drag_refl pg : same_drag pg pg.
Proof. done. Qed.

Lemma same_drag_trans pg1 pg2 pg3 : same_drag pg1 pg2 -> same_drag pg2 pg3 -> same_drag pg1 pg3.
Proof. intros (? & ? & ?) (? & ? & ?). unfold same_drag. split_and!; congruence. Qed.

(** The result of a render, named by its equation. *)
Lemma render_inv_eq pg pg' r : render pg = (pg', r) -> view_ok pg' /\ same_drag pg pg'.
Proof. intros H. pose proof (render_inv pg) as Hr. by rewrite H in Hr. Qed.

Lemma drop_card_inv pg ci cv y boxes :
  view_ok pg -> view_ok (drop_card pg ci cv y boxes).1 /\ same_drag pg (drop_card pg ci cv y boxes).1.
Proof.
  intros Hv. unfold drop_card. repeat case_match; simplify_eq/=; try done.
  all: match goal with
       | H : render ?p = (?p', _) |- _ =>
           destruct (render_inv_eq _ _ _ H) as [Hv' Hs']; split; [done|]
       end.
  all: (eapply same_drag_trans; [|exact Hs']); done.
Qed.

Lemma handle_inv pg ev : page_inv pg -> page_inv (handle pg ev).1.
Proof.
  intros [Hd Hv]. destruct ev; cbn [handle].
  - destruct (render_inv (set_state pg data)) as [Hv' Hs']. split; [|done].
    by eapply drag_ok_same.
  - destruct (pg_view pg !! ci) as [cv|] eqn:E; [|done]. split; [|done].
    unfold drag_ok. simpl. eexists. split; [done|].
    by destruct (Forall_lookup_1 _ _ _ _ Hv E).
  - destruct (pg_view pg !! ci); [|done]. done.
  - destruct (pg_view pg !! ci) as [cv|] eqn:E; [|done].
    destruct (cv_cards cv !! ki) as [card|] eqn:Ek; [|done].
    destruct (js_get _ "id"); [|done]. split; [|done]. simpl.
    destruct (Forall_lookup_1 _ _ _ _ Hv E) as [_ Hk].
    pose proof (Forall_lookup_1 _ _ _ _ Hk Ek).
    split; [by eexists|by eexists].
  - destruct (pg_view pg !! ci); [|done]. destruct (cv_cards _ !! ki); done.
  - unfold on_drop. destruct (pg_view pg !! ci) as [cv|]; [|done].
    destruct (read_gvar _); [|done]. destruct (negb _); [done|].
    destruct (drop_branch pg ci cv a y boxes) as [p r] eqn:E.
    assert (Hpg' : view_ok p /\ same_drag pg p).
    { unfold drop_branch in E. destruct (pg_draggedType pg).
      - by injection E as <- _.
      - repeat case_match; simplify_eq; done.
      - pose proof (drop_card_inv pg ci cv y boxes Hv) as Hc. by rewrite E in Hc. }
    destruct Hpg' as [Hv' Hs']. destruct r as [[]|]; simpl.
    + split; [done|done].
    + split; [by eapply drag_ok_same|done].
  - destruct (pg_view pg !! ci) as [cv|]; [|done]. unfold save_rename.
    repeat case_match; done.
  - destruct (pg_view pg !! ci); [|done]. repeat case_match; done.
  - destruct (pg_view pg !! ci); [|done]. repeat case_match; done.
  - destruct (pg_view pg !! 0%nat); [|done]. repeat case_match; done.
  - by destruct (pg_add_column pg).
Qed.

Lemma run_snoc pg evs ev : run pg (evs ++ [ev]) = (handle (run pg evs) ev).1.
Proof. revert pg. induction evs as [|ev' evs IH]; intros pg; [done|]. apply IH. Qed.

Lemma run_inv pg evs : page_inv pg -> page_inv (run pg evs).
Proof. revert pg. induction evs as [|ev evs IH]; intros pg Hpg; [done|]. by apply IH, handle_inv. Qed.

(** ** Where the drag context comes from *)

(** The drag globals are those a drag start of the run set: during a
    column drag, [dragged] is the column object the handler of column
    [ci] closed over; during a card drag, [dragged] is the card object
    of the card element [ki] of column [ci] and [fromColumn] the [id] of
    that column, both as rendered when the drag started. *)
Definition drag_origin (evs : list event) (pg : page) : Prop :=
  match pg_draggedType pg with
  | DTNull => True
  | DTColumn =>
      exists evs1 evs2 ci cv, evs = evs1 ++ EvColumnDragStart ci :: evs2
        /\ pg_view (run page_init evs1) !! ci = Some cv /\ pg_dragged pg = Assigned (Some (cv_col cv))
  | DTCard =>
      exists evs1 evs2 ci ki cv card fid, evs = evs1 ++ EvCardDragStart ci ki :: evs2
        /\ pg_view (run page_init evs1) !! ci = Some cv /\ cv_cards cv !! ki = Some card
        /\ js_get (Some (cv_col cv)) "id" = Ok fid
        /\ pg_dragged pg = Assigned (Some card) /\ pg_fromColumn pg = Assigned fid
  end.

Lemma drop_branch_same pg ci cv d y boxes : same_drag pg (drop_branch pg ci cv d y boxes).1.
Proof.
  unfold drop_branch. destruct (pg_draggedType pg); [done| |].
  - repeat case_match; simplify_eq; done.
  - unfold drop_card. repeat case_match; simplify_eq/=; try done.
    all: match goal with H : render ?p = (?p', _) |- _ => destruct (render_inv_eq _ _ _ H) as [_ Hs'] end.
    all: (eapply same_drag_trans; [|exact Hs']); done.
Qed.

(** One event keeps the drag globals, ends the drag, or is the drag
    start that sets them. *)
Lemma handle_drag pg ev (pg' := (handle pg ev).1) :
  same_drag pg pg' \/ pg_draggedType pg' = DTNull
  \/ (exists ci cv, ev = EvColumnDragStart ci /\ pg_view pg !! ci = Some cv
        /\ pg_draggedType pg' = DTColumn /\ pg_dragged pg' = Assigned (Some (cv_col cv)))
  \/ (exists ci ki cv card fid, ev = EvCardDragStart ci ki /\ pg_view pg !! ci = Some cv
        /\ cv_cards cv !! ki = Some card /\ js_get (Some (cv_col cv)) "id" = Ok fid
        /\ pg_draggedType pg' = DTCard /\ pg_dragged pg' = Assigned (Some card)
        /\ pg_fromColumn pg' = Assigned fid).
Proof.
  subst pg'. destruct ev; cbn [handle].
  - left. apply (render_inv (set_state pg data)).
  - destruct (pg_view pg !! ci) as [cv|] eqn:E; [|by left]. right; right; left. by exists ci, cv.
  - destruct (pg_view pg !! ci); [|by left]. by right; left.
  - destruct (pg_view pg !! ci) as [cv|] eqn:E; [|by left].
    destruct (cv_cards cv !! ki) as [card|] eqn:Ek; [|by left].
    destruct (js_get _ "id") as [fid|] eqn:Ef; [|by left]. right; right; right. by exists ci, ki, cv, card, fid.
  - destruct (pg_view pg !! ci); [|by left]. destruct (cv_cards _ !! ki); [|by left]. by right; left.
  - unfold on_drop. destruct (pg_view pg !! ci) as [cv|]; [|by left].
    destruct (read_gvar _) as [d|]; [|by left]. destruct (negb _); [by left|].
    pose proof (drop_branch_same pg ci cv d y boxes) as Hs.
    destruct (drop_branch pg ci cv d y boxes) as [p [[]|e]]; cbn in *; [by right; left|by left].
  - destruct (pg_view pg !! ci) as [cv|]; [|by left]. left. unfold save_rename. by repeat case_match.
  - left. destruct (pg_view pg !! ci); [|done]. by repeat case_match.
  - left. destruct (pg_view pg !! ci); [|done]. by repeat case_match.
  - left. destruct (pg_view pg !! 0%nat); [|done]. by repeat case_match.
  - left. by destruct (pg_add_column pg).
Qed.

Lemma drag_origin_snoc evs ev pg pg' :
  same_drag pg pg' -> drag_origin evs pg -> drag_origin (evs ++ [ev]) pg'.
Proof.
  intros (Hd & Ht & Hf). unfold drag_origin. rewrite Ht, Hd, Hf. destruct (pg_draggedType pg); [done|..].
  - intros (evs1 & evs2 & ci & cv & -> & H). exists evs1, (evs2 ++ [ev]), ci, cv. by rewrite <- app_assoc.
  - intros (evs1 & evs2 & ci & ki & cv & card & fid & -> & H).
    exists evs1, (evs2 ++ [ev]), ci, ki, cv, card, fid. by rewrite <- app_assoc.
Qed.

(** C16. The drag context (spec §9), by induction over the page's event
    sequences: after any sequence of events, while a drag is in
    progress [dragged] holds a non-null object and, for a card drag,
    [fromColumn] has been assigned, so the drop handler's reads do not
    throw; and these are the objects a drag start of the sequence set:
    the column object of a column drag, and for a card drag the card
    object together with the [id] of the column it was rendered in (the
    [fromColumn] that [moveCard] looks the card up in). *)
Theorem drag_context_origin (evs : list event) :
  drag_ok (run page_init evs) /\ drag_origin evs (run page_init evs).
Proof.
  split; [by destruct (run_inv page_init evs (conj I (Forall_nil_2 _)))|].
  induction evs as [|ev evs IH] using rev_ind; [done|]. rewrite run_snoc.
  destruct (handle_drag (run page_init evs) ev)
    as [Hs|[Hn|[(ci & cv & -> & Hv & Ht & Hd)|(ci & ki & cv & card & fid & -> & Hv & Hk & Hf & Ht & Hd & Hf')]]].
  - by apply (drag_origin_snoc _ _ (run page_init evs)).
  - unfold drag_origin. by rewrite Hn.
  - unfold drag_origin. rewrite Ht. by exists evs, [], ci, cv.
  - unfold drag_origin. rewrite Ht. by exists evs, [], ci, ki, cv, card, fid.
Qed.

Lemma column_title_enc c : js_get (Some (column_to_json c)) "title" = Ok (Some (JStr (col_title c))).
Proof. reflexivity. Qed.

(** C17. Renaming from the page ([saveRename], spec §8): leaving the
    title of column [ci] posts [rename-column] with the trimmed text
    exactly when that text is not blank and differs from the current
    title; otherwise nothing is posted.  The blank-title rule of the
    spec is enforced here, not by the host. *)
Theorem rename_blur_filters_blank (b : board) (ci : nat) (c : column) (text : string) :
  b !! ci = Some c ->
  handle (run page_init [EvData (board_to_json b)]) (EvRenameBlur ci text)
  = (if bool_decide (trim text <> "" /\ trim text <> col_title c)
     then post (run page_init [EvData (board_to_json b)]) (MsgRenameColumn (Some (JStr (col_id c))) (trim text))
     else run page_init [EvData (board_to_json b)], Ok tt).
Proof.
  intros Hc. rewrite page_after_data. unfold handle. cbn [pg_view].
  rewrite list_lookup_fmap, Hc. cbn [fmap option_fmap option_map]. unfold save_rename.
  cbn [cv_col cv_of]. rewrite column_title_enc. cbn [js_seq]. rewrite column_id_enc.
  destruct (decide (trim text = "")) as [He|He], (decide (trim text = col_title c)) as [Ht|Ht].
  all: rewrite ?(bool_decide_false (_ <> _)), ?(bool_decide_true (_ <> _)),
         ?(bool_decide_true (_ = _)), ?(bool_decide_false (_ = _)) by done; cbn [andb negb].
  all: rewrite ?bool_decide_false, ?bool_decide_true by tauto; done.
Qed.

(** C18. Dragging a column onto another one ([ondrop], column branch,
    spec §4.3) posts one [move-column] message from the dragged column's
    id to the target's id, and nothing when they are the same column;
    the drag context is reset. *)
Theorem column_drop_posts_move (b : board) (ci cj : nat) (c d : column) (y : Q) (boxes : list box) :
  b !! ci = Some c -> b !! cj = Some d ->
  exists pg',
    handle (run page_init [EvData (board_to_json b); EvColumnDragStart ci]) (EvDrop cj y boxes) = (pg', Ok tt)
    /\ pg_outbox pg' = (if bool_decide (col_id c = col_id d) then []
                        else [MsgMoveColumn (Some (JStr (col_id c))) (Some (JStr (col_id d)))])
    /\ pg_dragged pg' = Assigned (Some JNull) /\ pg_draggedType pg' = DTNull.
Proof.
  intros Hc Hd. cbn [run]. unfold handle at 3. rewrite (render_enc _ b) by done. cbn [fst].
  unfold handle at 2. cbn [pg_view]. rewrite list_lookup_fmap, Hc. cbn [fmap option_fmap option_map fst cv_col cv_of].
  unfold handle, on_drop, set_drag, set_state. cbn [pg_view pg_dragged pg_draggedType pg_fromColumn page_init].
  rewrite list_lookup_fmap, Hd. cbn [fmap option_fmap option_map read_gvar js_truthy negb column_to_json].
  unfold drop_branch. cbn [pg_draggedType cv_col cv_of]. rewrite !column_id_enc. cbn [js_seq].
  case_bool_decide; cbn; eexists; (split; [reflexivity|]); done.
Qed.

(** ** Witnesses *)

Lemma card_drop_posts_move_witness :
  (wf spec_board /\ spec_board !! 0%nat = Some (Column "a" "A" [Card "c1" "X"; Card "c2" "Y"])
   /\ [Card "c1" "X"; Card "c2" "Y"] !! 0%nat = Some (Card "c1" "X")
   /\ spec_board !! 1%nat = Some (Column "b" "B" [])) /\
  exists pg',
    handle (run page_init [EvData (board_to_json spec_board); EvCardDragStart 0 0]) (EvDrop 1 0 []) = (pg', Ok tt)
    /\ pg_outbox pg' =
       [MsgUpdate (board_to_json
          (move_card "a" "b" "c1"
             (Some (drop_target (Column "b" "B" []) (getDragAfterElement
                      (container_from (Some (0%nat, 0%nat)) 1 0 [] []) 0)))
             spec_board))]
    /\ pg_dragged pg' = Assigned (Some JNull) /\ pg_draggedType pg' = DTNull.
Proof.
  assert (Hwf : wf spec_board) by (split; apply (bool_decide_unpack _); vm_compute; reflexivity).
  split; [split; [exact Hwf|split; [reflexivity|split; reflexivity]]|].
  exact (card_drop_posts_move spec_board 0 0 1 _ _ _ 0 [] Hwf eq_refl eq_refl eq_refl).
Defined.

Lemma drop_before_drag_reference_error_witness :
  (0 < length spec_board)%nat /\
  snd (handle (run page_init [EvData (board_to_json spec_board)]) (EvDrop 0 0 [])) = Throw ReferenceError.
Proof.
  assert (H : (0 < length spec_board)%nat) by (cbn; lia).
  split; [exact H|]. exact (drop_before_drag_reference_error spec_board 0 0 [] H).
Defined.

Lemma rename_blur_filters_blank_witness :
  spec_board !! 0%nat = Some (Column "a" "A" [Card "c1" "X"; Card "c2" "Y"]) /\
  handle (run page_init [EvData (board_to_json spec_board)]) (EvRenameBlur 0 " ")
  = (if bool_decide (trim " " <> "" /\ trim " " <> "A")
     then post (run page_init [EvData (board_to_json spec_board)]) (MsgRenameColumn (Some (JStr "a")) (trim " "))
     else run page_init [EvData (board_to_json spec_board)], Ok tt).
Proof.
  split; [reflexivity|]. exact (rename_blur_filters_blank spec_board 0 _ " " eq_refl).
Defined.

Lemma column_drop_posts_move_witness :
  (spec_board !! 0%nat = Some (Column "a" "A" [Card "c1" "X"; Card "c2" "Y"])
   /\ spec_board !! 1%nat = Some (Column "b" "B" [])) /\
  exists pg',
    handle (run page_init [EvData (board_to_json spec_board); EvColumnDragStart 0]) (EvDrop 1 0 []) = (pg', Ok tt)
    /\ pg_outbox pg' = (if bool_decide ("a" = "b") then []
                        else [MsgMoveColumn (Some (JStr "a")) (Some (JStr "b"))])
    /\ pg_dragged pg' = Assigned (Some JNull) /\ pg_draggedType pg' = DTNull.
Proof.
  split; [by split|]. exact (column_drop_posts_move spec_board 0 1 _ _ 0 [] eq_refl eq_refl).
Defined.
