(* ===== verification/PageEarly.v ===== *)
(** * PageEarly: the board pages of the two earlier versions.

    Three page scripts precede the current one ([Page]); all three are
    modelled on [Page]'s state ([page]) and events ([event]), so that a
    run of one version can be compared with a run of another:
    - [Ext]: the page of [src/extension.js] (lines 429-583).  [dragged]
      and [fromColumn] are declared [null]; there is no [draggedType],
      no column drag, no [ondragend] handler, no drop index and no
      re-render after a drop ([moveCard] appends, [EarlyWebview]);
    - [V1]: the first version of [src/unnamed/part_001] (lines 459-626):
      the handlers of the current page except the card drop, which
      appends with the [moveCard] of [extension.js] and does not
      re-render; [dragged] and [fromColumn] are undeclared as in the
      current page;
    - [V0]: the earliest version ([src/unnamed/part_001], lines
      855-924): no buttons, only card drag and drop with
      [EarlyWebview.moveCard_v0].
    The three [render] functions read [col.title], [col.cards] and each
    [card.title] ([render_title]); they throw exactly where the current
    [render] does ([render_title_true]).  Each version is a [script]
    (its initial globals and its [handle]); runs, steps and the rule
    induction over reachable pages ([sc_reachable]) are defined once
    for any script.

    The theorems: the drop of the [extension.js] page posts the
    appending move of spec §4.1 and leaves the old board on screen; its
    drag context survives a cancelled drag, so a later drop moves the
    card again; it never posts [move-column], which its host ignores;
    the earliest page posts only [update], the one message its host
    handles; and the drag-context invariant of the current page holds
    for the first version of [part_001]. *)

From S2P Require Import Prelude Json Codec Board Host HostDoc EarlyHost Webview DragDrop Page EarlyWebview.
From Stdlib Require Import QArith.
From stdpp Require Import relations.

(** ** What the earlier [render]s read *)

(** [span.textContent = card.title] (extension.js 519; part_001 576 and
    899): the card's id is not read. *)
Definition render_card_title (card : json) : result unit :=
  _ <- js_get (Some card) "title" ;; Ok tt.

Fixpoint render_cards_title (cards : list json) : result unit :=
  match cards with
  | [] => Ok tt
  | k :: ks => _ <- render_card_title k ;; render_cards_title ks
  end.

(** [title.textContent = col.title] (or [column.innerHTML = "<h3>" +
    col.title + "</h3>"]), then [col.cards.forEach(...)]. *)
Definition render_column_title (col : json) : result colView :=
  _ <- js_get (Some col) "title" ;;
  cards <- get_array col "cards" ;;
  _ <- render_cards_title cards ;;
  Ok (ColView col cards).

Fixpoint render_columns_title (cols : list json) : list colView * result unit :=
  match cols with
  | [] => ([], Ok tt)
  | c :: cs =>
      match render_column_title c with
      | Ok v => let '(vs, r) := render_columns_title cs in (v :: vs, r)
      | Throw e => ([], Throw e)
      end
  end.

(** [render()]: [add_button] tells whether the version appends the
    "+ Add New Column" button after the columns. *)
Definition render_title (add_button : bool) (pg : page) : page * result unit :=
  let '(view, r) :=
    match get_array (pg_state pg) "columns" with
    | Ok cols => render_columns_title cols
    | Throw e => ([], Throw e)
    end in
  (Page (pg_state pg) view (add_button && is_ok r) (pg_dragged pg) (pg_draggedType pg)
        (pg_fromColumn pg) None (pg_outbox pg), r).

(** ** The appending drop *)

(** [moveCard(fromColumn, col.id, dragged.id);
    vscode.postMessage({ type: "update", data: state });] for the
    [moveCard] [mc] of the version: the arguments are read left to
    right, [moveCard] mutates [state] (also when it throws), and the
    page is not redrawn. *)
Definition drop_card_push (mc : json -> jsval -> jsval -> jsval -> json * result unit)
    (pg : page) (cv : colView) (d : jsval) : page * result unit :=
  fromId <-{pg} read_gvar (pg_fromColumn pg) ;;
  colId <-{pg} js_get (Some (cv_col cv)) "id" ;;
  cardId <-{pg} js_get d "id" ;;
  let '(st', r) := mc (pg_state pg) fromId colId cardId in
  let pg1 := set_state pg st' in
  _ <-{pg1} r ;;
  (post pg1 (MsgUpdate (pg_state pg1)), Ok tt).

(** ** Page scripts *)

(** What a version of the page script provides: its globals when the
    page loads and its event handlers.  Runs, steps and invariants are
    defined once for any script. *)
Record script := Script { sc_init : page; sc_handle : page -> event -> page * result unit }.

Section Runs.
Variable s : script.

(** Each handler runs to completion before the next event. *)
Fixpoint sc_run (pg : page) (evs : list event) : page :=
  match evs with
  | [] => pg
  | ev :: evs' => sc_run (sc_handle s pg ev).1 evs'
  end.

Definition sc_step (pg pg' : page) : Prop := exists ev, (sc_handle s pg ev).1 = pg'.

Lemma sc_run_reachable pg evs : rtc sc_step pg (sc_run pg evs).
Proof.
  revert pg. induction evs as [|ev evs IH]; intros pg; [apply rtc_refl|].
  eapply rtc_l; [by exists ev|apply IH].
Qed.

(** A property of the initial page kept by every handler holds in every
    reachable page (rule induction on [rtc sc_step]). *)
Lemma sc_reachable (I : page -> Prop) pg :
  I (sc_init s) -> (forall pg ev, I pg -> I (sc_handle s pg ev).1) -> rtc sc_step (sc_init s) pg -> I pg.
Proof.
  intros Hinit Hh Hr. revert Hinit. induction Hr as [x|x y z [ev <-] Hyz IH]; intros Hx; [done|].
  by apply IH, Hh.
Qed.
End Runs.

Module Ext.

(** Lines 431-433: [let state = null; let dragged = null;
    let fromColumn = null;]. *)
Definition page_init : page :=
  Page JNull [] false (Assigned (Some JNull)) DTNull (Assigned (Some JNull)) None [].

(** Lines 534-538 ([el.ondragstart]): [dragged = card;
    fromColumn = col.id;]. *)
Definition card_drag_start (pg : page) (ci ki : nat) : page * result unit :=
  match pg_view pg !! ci with
  | Some cv =>
      match cv_cards cv !! ki with
      | Some card =>
          let pg1 := set_drag pg (Assigned (Some card)) (pg_draggedType pg) (pg_fromColumn pg) in
          fid <-{pg1} js_get (Some (cv_col cv)) "id" ;;
          (set_drag pg1 (Assigned (Some card)) (pg_draggedType pg) (Assigned fid), Ok tt)
      | None => (pg, Ok tt)
      end
  | None => (pg, Ok tt)
  end.

(** Lines 503-512 ([column.ondrop]) with the [moveCard] [mc]. *)
Definition on_drop_push (mc : json -> jsval -> jsval -> jsval -> json * result unit)
    (pg : page) (ci : nat) : page * result unit :=
  match pg_view pg !! ci with
  | None => (pg, Ok tt)
  | Some cv =>
      d <-{pg} read_gvar (pg_dragged pg) ;;
      if negb (js_truthy d) then (pg, Ok tt)
      else
        let '(pg', r) := drop_card_push mc pg cv d in
        _ <-{pg'} r ;;
        (set_drag pg' (Assigned (Some JNull)) (pg_draggedType pg') (Assigned (Some JNull)), Ok tt)
  end.

(** The handlers of lines 435-568.  The column is not draggable and no
    element has an [ondragend] handler; the buttons' handlers are those
    of the current page (same code). *)
Definition handle (pg : page) (ev : event) : page * result unit :=
  match ev with
  | EvData d => render_title true (set_state pg d)
  | EvColumnDragStart _ | EvColumnDragEnd _ | EvCardDragEnd _ _ => (pg, Ok tt)
  | EvCardDragStart ci ki => card_drag_start pg ci ki
  | EvDrop ci _ _ => on_drop_push moveCard_append pg ci
  | EvRenameBlur _ _ | EvDeleteColumn _ | EvDeleteCard _ _ | EvAddCard | EvAddColumn => Page.handle pg ev
  end.

End Ext.

Module V1.

(** Lines 591-596 ([el.ondragstart]): [dragged = card;
    draggedType = 'card'; fromColumn = col.id;]. *)
Definition card_drag_start (pg : page) (ci ki : nat) : page * result unit :=
  match pg_view pg !! ci with
  | Some cv =>
      match cv_cards cv !! ki with
      | Some card =>
          let pg1 := set_drag pg (Assigned (Some card)) DTCard (pg_fromColumn pg) in
          fid <-{pg1} js_get (Some (cv_col cv)) "id" ;;
          (set_drag pg1 (Assigned (Some card)) DTCard (Assigned fid), Ok tt)
      | None => (pg, Ok tt)
      end
  | None => (pg, Ok tt)
  end.

(** Lines 553-569 ([column.ondrop]). *)
Definition on_drop (pg : page) (ci : nat) : page * result unit :=
  match pg_view pg !! ci with
  | None => (pg, Ok tt)
  | Some cv =>
      d <-{pg} read_gvar (pg_dragged pg) ;;
      if negb (js_truthy d) then (pg, Ok tt)
      else
        let '(pg', r) :=
          match pg_draggedType pg with
          | DTColumn =>
              did <-{pg} js_get d "id" ;;
              cid <-{pg} js_get (Some (cv_col cv)) "id" ;;
              if js_seq did cid then (pg, Ok tt) else (post pg (MsgMoveColumn did cid), Ok tt)
          | DTCard => drop_card_push moveCard_append pg cv d
          | DTNull => (pg, Ok tt)
          end in
        _ <-{pg'} r ;;
        (drop_reset pg', Ok tt)
  end.

(** The handlers of lines 464-625.  A card has no [ondragend]: the
    event bubbles to the column's (lines 492-497).  The column drag and
    the buttons are those of the current page (same code). *)
Definition handle (pg : page) (ev : event) : page * result unit :=
  match ev with
  | EvData d => render_title true (set_state pg d)
  | EvCardDragStart ci ki => card_drag_start pg ci ki
  | EvCardDragEnd ci ki =>
      match pg_view pg !! ci with
      | Some cv =>
          match cv_cards cv !! ki with
          | Some _ => (set_drag pg (Assigned (Some JNull)) DTNull (pg_fromColumn pg), Ok tt)
          | None => (pg, Ok tt)
          end
      | None => (pg, Ok tt)
      end
  | EvDrop ci _ _ => on_drop pg ci
  | EvColumnDragStart _ | EvColumnDragEnd _ | EvRenameBlur _ _ | EvDeleteColumn _
  | EvDeleteCard _ _ | EvAddCard | EvAddColumn => Page.handle pg ev
  end.

End V1.

Module V0.

(** The handlers of lines 861-905: the [data] message, a card's
    [ondragstart] (same code as [Ext]) and the column's [ondrop] with
    the earliest [moveCard]; the page has no button. *)
Definition handle (pg : page) (ev : event) : page * result unit :=
  match ev with
  | EvData d => render_title false (set_state pg d)
  | EvCardDragStart ci ki => Ext.card_drag_start pg ci ki
  | EvDrop ci _ _ => Ext.on_drop_push moveCard_v0 pg ci
  | _ => (pg, Ok tt)
  end.

End V0.

(** The three versions as scripts; [V0] declares its globals as [Ext]
    does (part_001 lines 857-859), [V1] as the current page (lines
    461-462). *)
Definition ext_page : script := Script Ext.page_init Ext.handle.
Definition v1_page : script := Script page_init V1.handle.
Definition v0_page : script := Script Ext.page_init V0.handle.

(** ** The earlier [render]s and the current one *)

Lemma render_cards_title_eq ks : render_cards_title ks = render_cards ks.
Proof. induction ks as [|k ks IH]; [done|]. cbn. rewrite IH. by destruct k. Qed.

Lemma render_column_title_eq c : render_column_title c = render_column c.
Proof.
  unfold render_column_title, render_column. destruct (js_get _ _); [|done]. cbn.
  destruct (get_array c "cards"); [|done]. cbn. by rewrite render_cards_title_eq.
Qed.

Lemma render_columns_title_eq cols : render_columns_title cols = render_columns cols.
Proof.
  induction cols as [|c cs IH]; [done|]. cbn [render_columns_title render_columns].
  by rewrite render_column_title_eq, IH.
Qed.

(** Reading [card.id] in the current [render] changes neither what is
    drawn nor where it throws. *)
Lemma render_title_true pg : render_title true pg = render pg.
Proof.
  unfold render_title, render, render_board.
  destruct (get_array _ _); [by rewrite render_columns_title_eq|done].
Qed.

Lemma render_title_enc (add : bool) (pg : page) (b : board) :
  pg_state pg = board_to_json b ->
  render_title add pg = (Page (board_to_json b) (map cv_of b) add (pg_dragged pg) (pg_draggedType pg)
                              (pg_fromColumn pg) None (pg_outbox pg), Ok tt).
Proof.
  intros Hs. unfold render_title. rewrite Hs, get_columns, render_columns_title_eq, render_columns_enc.
  cbn. by rewrite andb_true_r.
Qed.

(** ** The appending drop on a board *)

(** The page of [Ext] or [V0] while the card [k] of column [c] is
    dragged, showing the board [b]. *)
Definition dragging_page (b : board) (add : bool) (c : column) (k : card) (t : dragType) : page :=
  Page (board_to_json b) (map cv_of b) add (Assigned (Some (card_to_json k))) t
       (Assigned (Some (JStr (col_id c)))) None [].

(** The appending move of a well-formed board, as the drop sees it. *)
Definition append_move (b : board) (c d : column) (k : card) : board :=
  if bool_decide (col_id c = col_id d) then b else move_card (col_id c) (col_id d) (card_id k) None b.

Lemma moveCard_append_board (b : board) ci ki cj c d k :
  wf b -> b !! ci = Some c -> col_cards c !! ki = Some k -> b !! cj = Some d ->
  moveCard_append (board_to_json b) (Some (JStr (col_id c))) (Some (JStr (col_id d))) (Some (JStr (card_id k)))
  = (board_to_json (append_move b c d k), Ok tt).
Proof.
  intros Hwf Hc Hk Hd. unfold append_move. case_bool_decide as Hcd.
  - unfold moveCard_append. by rewrite Hcd, js_seq_str, bool_decide_true.
  - rewrite moveCard_append_eq by (by rewrite js_seq_str, bool_decide_false).
    exact (moveCard_refines b _ _ _ ci c ki k (wf_find_col _ _ _ Hwf Hc) (wf_find_card _ _ _ _ _ Hwf Hc Hk)
             cj d None (wf_find_col _ _ _ Hwf Hd)).
Qed.

Lemma ext_drop_on_board (b : board) add ci ki cj c d k t :
  wf b -> b !! ci = Some c -> col_cards c !! ki = Some k -> b !! cj = Some d ->
  Ext.on_drop_push moveCard_append (dragging_page b add c k t) cj
  = (Page (board_to_json (append_move b c d k)) (map cv_of b) add (Assigned (Some JNull)) t
          (Assigned (Some JNull)) None [MsgUpdate (board_to_json (append_move b c d k))], Ok tt).
Proof.
  intros Hwf Hc Hk Hd. unfold Ext.on_drop_push, drop_card_push, dragging_page. cbn [pg_view].
  rewrite list_lookup_fmap, Hd. cbn [fmap option_fmap option_map read_gvar pg_dragged pg_fromColumn].
  rewrite js_truthy_card. cbn [negb cv_col cv_of]. rewrite column_id_enc, card_id_enc.
  cbn [pg_state]. by rewrite (moveCard_append_board b ci ki cj c d k).
Qed.

Lemma ext_after_drag_start (b : board) ci ki c k :
  b !! ci = Some c -> col_cards c !! ki = Some k ->
  sc_run ext_page Ext.page_init [EvData (board_to_json b); EvCardDragStart ci ki] = dragging_page b true c k DTNull.
Proof.
  intros Hc Hk. cbn [sc_run sc_handle ext_page]. unfold Ext.handle at 2. rewrite (render_title_enc _ _ b) by done.
  cbn [fst Ext.handle]. unfold Ext.card_drag_start. cbn [pg_view].
  rewrite list_lookup_fmap, Hc. cbn [fmap option_fmap option_map cv_cards cv_of].
  rewrite list_lookup_fmap, Hk. cbn [fmap option_fmap option_map cv_col cv_of]. by rewrite column_id_enc.
Qed.

(** ** What a page posts *)

Section Outbox.
Variable P : msg -> Prop.

(** [pg'] is [pg] with messages satisfying [P] posted. *)
Definition posts_only (pg pg' : page) : Prop :=
  exists ms, pg_outbox pg' = pg_outbox pg ++ ms /\ Forall P ms.

Lemma posts_only_same pg pg' : pg_outbox pg' = pg_outbox pg -> posts_only pg pg'.
Proof. intros H. exists []. by rewrite H, List.app_nil_r. Qed.

Lemma posts_only_one pg pg' m : pg_outbox pg' = pg_outbox pg ++ [m] -> P m -> posts_only pg pg'.
Proof. intros H Hm. exists [m]. split; [done|by constructor]. Qed.

End Outbox.

Lemma posts_only_impl (P Q : msg -> Prop) pg pg' :
  posts_only P pg pg' -> (forall m, P m -> Q m) -> posts_only Q pg pg'.
Proof. intros (ms & Hms & HP) HPQ. exists ms. split; [done|]. by eapply list.Forall_impl. Qed.

Lemma reachable_posts_only (P : msg -> Prop) (sc : script) (pg : page) :
  (forall pg ev, posts_only P pg (sc_handle sc pg ev).1) -> Forall P (pg_outbox (sc_init sc)) ->
  rtc (sc_step sc) (sc_init sc) pg -> Forall P (pg_outbox pg).
Proof.
  intros Hh Hinit. apply (sc_reachable sc (fun pg => Forall P (pg_outbox pg))); [done|]. intros pg' ev Hpg.
  destruct (Hh pg' ev) as (ms & -> & Hms). by apply Forall_app.
Qed.

(** The outbox of a page built by the page's own functions. *)
Ltac posts_tac :=
  cbn [pg_outbox post set_drag set_state set_dragging drop_reset];
  first [ apply posts_only_same; reflexivity
        | eapply posts_only_one; [reflexivity|done] ].

Lemma render_title_outbox add pg : pg_outbox (render_title add pg).1 = pg_outbox pg.
Proof. unfold render_title. by repeat case_match. Qed.

Lemma card_drag_start_outbox pg ci ki : pg_outbox (Ext.card_drag_start pg ci ki).1 = pg_outbox pg.
Proof. unfold Ext.card_drag_start. by repeat case_match. Qed.

Lemma drop_card_push_posts (P : msg -> Prop) mc pg cv d :
  (forall s, P (MsgUpdate s)) -> posts_only P pg (drop_card_push mc pg cv d).1.
Proof. intros HP. unfold drop_card_push. repeat case_match; simplify_eq/=; posts_tac. Qed.

Lemma on_drop_push_posts (P : msg -> Prop) mc pg ci :
  (forall s, P (MsgUpdate s)) -> posts_only P pg (Ext.on_drop_push mc pg ci).1.
Proof.
  intros HP. unfold Ext.on_drop_push. destruct (pg_view pg !! ci) as [cv|]; [|by apply posts_only_same].
  destruct (read_gvar _) as [d|]; cbn; [|by apply posts_only_same].
  destruct (negb _); [by apply posts_only_same|].
  pose proof (drop_card_push_posts P mc pg cv d HP) as (ms & Hms & HPms).
  destruct (drop_card_push mc pg cv d) as [pg' [[]|e]]; cbn in *; by exists ms.
Qed.

(** The buttons post [rename-column], [delete-column], [delete-card],
    [add-card] and [add-column]. *)
Definition button_msg (m : msg) : Prop :=
  match m with
  | MsgRenameColumn _ _ | MsgDeleteColumn _ | MsgDeleteCard _ _ | MsgAddCard _ | MsgAddColumn => True
  | _ => False
  end.

Lemma buttons_post pg ev :
  match ev with EvRenameBlur _ _ | EvDeleteColumn _ | EvDeleteCard _ _ | EvAddCard | EvAddColumn => True | _ => False end ->
  posts_only button_msg pg (Page.handle pg ev).1.
Proof.
  destruct ev; try done; intros _; cbn [Page.handle]; unfold save_rename;
    repeat case_match; simplify_eq/=; posts_tac.
Qed.

(** The messages the host of [src/extension.js] treats as the current
    host does: its branch chain ([EarlyHost.receive_core_ext]) gives
    the outcome of [Host.receive_core] on every document, prompt answer
    and time (a [move-column] falls through its chain instead). *)
Definition handled_by_ext_host (m : msg) : Prop :=
  forall data prompt now, receive_core_ext data m prompt now = receive_core data m prompt now.

(** The messages the earliest host ([EarlyHost.on_message_v0]) applies:
    an [update] whose board replaces the whole text of any document. *)
Definition applied_by_v0_host (m : msg) : Prop :=
  exists d, m = MsgUpdate d /\ forall h, hs_text (on_message_v0 h m) = json_stringify d.

Lemma ext_handle_posts pg ev : posts_only handled_by_ext_host pg (Ext.handle pg ev).1.
Proof.
  destruct ev; cbn [Ext.handle];
    try (apply posts_only_same; first [by rewrite render_title_outbox|by rewrite card_drag_start_outbox|done]);
    try (apply on_drop_push_posts; done).
  all: apply (posts_only_impl button_msg); [by apply buttons_post|by intros [] ? ? ? ?].
Qed.

Lemma v0_handle_posts pg ev : posts_only applied_by_v0_host pg (V0.handle pg ev).1.
Proof.
  destruct ev; cbn [V0.handle]; try (apply posts_only_same; first [by rewrite render_title_outbox|by rewrite card_drag_start_outbox|done]).
  apply on_drop_push_posts. intros d. exists d. split; [done|]. intros h. apply on_message_v0_text.
Qed.

(** ** The drag context of the first version of [part_001] *)

Lemma js_get_not_null v k : v <> JNull -> is_ok (js_get (Some v) k) = true.
Proof. by destruct v. Qed.

Lemma drop_card_push_keeps mc pg cv d :
  pg_view (drop_card_push mc pg cv d).1 = pg_view pg /\ same_drag pg (drop_card_push mc pg cv d).1.
Proof. unfold drop_card_push. by repeat case_match; simplify_eq/=. Qed.

Lemma view_ok_same pg pg' : pg_view pg' = pg_view pg -> view_ok pg -> view_ok pg'.
Proof. unfold view_ok. by intros ->. Qed.

Lemma v1_on_drop_inv pg ci : page_inv pg -> page_inv (V1.on_drop pg ci).1.
Proof.
  intros [Hd Hv]. unfold V1.on_drop. destruct (pg_view pg !! ci) as [cv|]; [|done].
  destruct (read_gvar _) as [d|]; cbn; [|done]. destruct (negb _); [done|].
  match goal with |- context [let '(_, _) := ?m in _] => destruct m as [pg' r] eqn:E end.
  assert (Hpg' : pg_view pg' = pg_view pg /\ same_drag pg pg').
  { destruct (pg_draggedType pg).
    - by injection E as <- _.
    - repeat case_match; simplify_eq; done.
    - pose proof (drop_card_push_keeps moveCard_append pg cv d) as Hc. by rewrite E in Hc. }
  destruct Hpg' as [Hv' Hs']. destruct r as [[]|]; cbn.
  - split; [done|]. by eapply view_ok_same.
  - split; [by eapply drag_ok_same|by eapply view_ok_same].
Qed.

Lemma v1_handle_inv pg ev : page_inv pg -> page_inv (V1.handle pg ev).1.
Proof.
  intros Hinv. pose proof Hinv as [Hd Hv]. destruct ev; cbn [V1.handle];
    try (by apply handle_inv); try (by apply v1_on_drop_inv).
  - rewrite render_title_true. exact (handle_inv pg (EvData data) Hinv).
  - unfold V1.card_drag_start. destruct (pg_view pg !! ci) as [cv|] eqn:E; [|done].
    destruct (cv_cards cv !! ki) as [card|] eqn:Ek; [|done].
    destruct (Forall_lookup_1 _ _ _ _ Hv E) as [Hc Hk].
    pose proof (js_get_not_null _ "id" Hc) as Hid.
    destruct (js_get _ "id"); [|done]. split; [|done]. cbn.
    pose proof (Forall_lookup_1 _ _ _ _ Hk Ek). split; by eexists.
  - destruct (pg_view pg !! ci); [|done]. by destruct (cv_cards _ !! ki).
Qed.

(** ** Theorems *)

(** C33. Drag and drop of a card on the page of [src/extension.js]:
    on a board with unique ids, dragging the card [k] of column [c] and
    dropping it on column [d] posts one [update] carrying the board
    where spec §4.1's [move_card] put [k] last in [d] (nothing moves
    when [d] is [c]), resets [dragged] and [fromColumn], and leaves the
    old board on screen until the host sends the new one. *)
Theorem ext_card_drop_appends (b : board) (ci ki cj : nat) (c d : column) (k : card) (y : Q) (boxes : list box) :
  wf b -> b !! ci = Some c -> col_cards c !! ki = Some k -> b !! cj = Some d ->
  Ext.handle (sc_run ext_page Ext.page_init [EvData (board_to_json b); EvCardDragStart ci ki]) (EvDrop cj y boxes)
  = (Page (board_to_json (append_move b c d k)) (map cv_of b) true (Assigned (Some JNull)) DTNull
          (Assigned (Some JNull)) None [MsgUpdate (board_to_json (append_move b c d k))], Ok tt).
Proof.
  intros Hwf Hc Hk Hd. rewrite (ext_after_drag_start b ci ki c k Hc Hk). cbn [Ext.handle].
  exact (ext_drop_on_board b true ci ki cj c d k DTNull Hwf Hc Hk Hd).
Qed.

(** C34. The page of [src/extension.js] has no [ondragend]: after a
    card drag that ends outside any column, [dragged] still holds the
    card, and the next drop on a column (of text or a file dragged in)
    moves that card and posts the update.  The current page resets the
    drag context at [dragend], and the same drop posts nothing. *)
Theorem ext_cancelled_drag_still_moves (b : board) (ci ki cj : nat) (c d : column) (k : card)
    (y : Q) (boxes : list box) :
  wf b -> b !! ci = Some c -> col_cards c !! ki = Some k -> b !! cj = Some d ->
  pg_outbox (Ext.handle (sc_run ext_page Ext.page_init
               [EvData (board_to_json b); EvCardDragStart ci ki; EvCardDragEnd ci ki]) (EvDrop cj y boxes)).1
  = [MsgUpdate (board_to_json (append_move b c d k))]
  /\ pg_outbox (Page.handle (Page.run Page.page_init
               [EvData (board_to_json b); EvCardDragStart ci ki; EvCardDragEnd ci ki]) (EvDrop cj y boxes)).1
  = [].
Proof.
  intros Hwf Hc Hk Hd. split.
  - change (sc_run ext_page Ext.page_init [EvData (board_to_json b); EvCardDragStart ci ki; EvCardDragEnd ci ki])
      with (sc_run ext_page (sc_run ext_page Ext.page_init [EvData (board_to_json b); EvCardDragStart ci ki])
              [EvCardDragEnd ci ki]).
    rewrite (ext_after_drag_start b ci ki c k Hc Hk). cbn [sc_run sc_handle ext_page Ext.handle fst].
    by rewrite (ext_drop_on_board b true ci ki cj c d k DTNull Hwf Hc Hk Hd).
  - change (Page.run Page.page_init [EvData (board_to_json b); EvCardDragStart ci ki; EvCardDragEnd ci ki])
      with (Page.run (Page.run Page.page_init [EvData (board_to_json b); EvCardDragStart ci ki]) [EvCardDragEnd ci ki]).
    rewrite (page_after_card_drag_start b ci ki c k Hc Hk). cbn [Page.run Page.handle fst pg_view].
    rewrite list_lookup_fmap, Hc. cbn [fmap option_fmap option_map cv_cards cv_of].
    rewrite list_lookup_fmap, Hk. cbn [fmap option_fmap option_map fst].
    unfold on_drop. cbn [pg_view set_drag set_dragging]. rewrite list_lookup_fmap, Hd. done.
Qed.

(** C35. Every message the pages of [src/extension.js] and of the
    earliest version post, in any run of their handlers, is one their
    own host acts on: the [extension.js] host's branch chain
    ([EarlyHost.receive_core_ext]) treats each message its page posts
    exactly as the current host's [receive_core] does (the page never
    posts [move-column], which that chain lacks), and the earliest
    host ([EarlyHost.on_message_v0]) replaces the document's text by
    the board of each message the earliest page posts. *)
Theorem ext_posts_handled (pg pg' : page) :
  (rtc (sc_step ext_page) (sc_init ext_page) pg -> Forall handled_by_ext_host (pg_outbox pg)) /\
  (rtc (sc_step v0_page) (sc_init v0_page) pg' -> Forall applied_by_v0_host (pg_outbox pg')).
Proof.
  split; apply reachable_posts_only; first [apply ext_handle_posts|apply v0_handle_posts|constructor].
Qed.

(** C36. The drag-safety half of the current page's C16 ([drag_ok]) holds
    for the first version of [src/unnamed/part_001], whose card drop
    appends: in every reachable page a drag in progress has a non-null
    [dragged], and a card drag an assigned [fromColumn]. *)
Theorem v1_reachable_drag_ok (pg : page) : rtc (sc_step v1_page) (sc_init v1_page) pg -> drag_ok pg.
Proof.
  intros Hr. cut (page_inv pg); [by intros []|].
  apply (sc_reachable v1_page); [split; [done|constructor]|apply v1_handle_inv|done].
Qed.

(** ** Witnesses *)

Lemma spec_board_wf : wf spec_board.
Proof. split; apply (bool_decide_unpack _); vm_compute; reflexivity. Qed.

Lemma ext_card_drop_appends_witness :
  (wf spec_board /\ spec_board !! 0%nat = Some (Column "a" "A" [Card "c1" "X"; Card "c2" "Y"])
   /\ [Card "c1" "X"; Card "c2" "Y"] !! 0%nat = Some (Card "c1" "X")
   /\ spec_board !! 1%nat = Some (Column "b" "B" [])) /\
  Ext.handle (sc_run ext_page Ext.page_init [EvData (board_to_json spec_board); EvCardDragStart 0 0]) (EvDrop 1 0 [])
  = (Page (board_to_json (append_move spec_board (Column "a" "A" [Card "c1" "X"; Card "c2" "Y"])
                            (Column "b" "B" []) (Card "c1" "X")))
          (map cv_of spec_board) true (Assigned (Some JNull)) DTNull (Assigned (Some JNull)) None
          [MsgUpdate (board_to_json (append_move spec_board (Column "a" "A" [Card "c1" "X"; Card "c2" "Y"])
                                       (Column "b" "B" []) (Card "c1" "X")))], Ok tt).
Proof.
  split; [split; [exact spec_board_wf|repeat split]|].
  exact (ext_card_drop_appends spec_board 0 0 1 _ _ _ 0 [] spec_board_wf eq_refl eq_refl eq_refl).
Defined.

Lemma ext_cancelled_drag_still_moves_witness :
  (wf spec_board /\ spec_board !! 0%nat = Some (Column "a" "A" [Card "c1" "X"; Card "c2" "Y"])
   /\ [Card "c1" "X"; Card "c2" "Y"] !! 0%nat = Some (Card "c1" "X")
   /\ spec_board !! 1%nat = Some (Column "b" "B" [])) /\
  pg_outbox (Ext.handle (sc_run ext_page Ext.page_init
               [EvData (board_to_json spec_board); EvCardDragStart 0 0; EvCardDragEnd 0 0]) (EvDrop 1 0 [])).1
  = [MsgUpdate (board_to_json (append_move spec_board (Column "a" "A" [Card "c1" "X"; Card "c2" "Y"])
                                 (Column "b" "B" []) (Card "c1" "X")))]
  /\ pg_outbox (Page.handle (Page.run Page.page_init
               [EvData (board_to_json spec_board); EvCardDragStart 0 0; EvCardDragEnd 0 0]) (EvDrop 1 0 [])).1
  = [].
Proof.
  split; [split; [exact spec_board_wf|repeat split]|].
  exact (ext_cancelled_drag_still_moves spec_board 0 0 1 _ _ _ 0 [] spec_board_wf eq_refl eq_refl eq_refl).
Defined.

Lemma ext_posts_handled_witness :
  (rtc (sc_step ext_page) (sc_init ext_page)
     (sc_run ext_page Ext.page_init [EvData (board_to_json spec_board); EvCardDragStart 0 0; EvDrop 1 0 []; EvAddColumn])
   /\ rtc (sc_step v0_page) (sc_init v0_page)
     (V0.handle (V0.handle (V0.handle Ext.page_init (EvData (board_to_json spec_board))).1
                           (EvCardDragStart 0 0)).1 (EvDrop 1 0 [])).1)
  /\ Forall handled_by_ext_host
       (pg_outbox (sc_run ext_page Ext.page_init
          [EvData (board_to_json spec_board); EvCardDragStart 0 0; EvDrop 1 0 []; EvAddColumn]))
  /\ Forall applied_by_v0_host
       (pg_outbox (V0.handle (V0.handle (V0.handle Ext.page_init (EvData (board_to_json spec_board))).1
                                        (EvCardDragStart 0 0)).1 (EvDrop 1 0 [])).1).
Proof.
  assert (H1 : rtc (sc_step ext_page) (sc_init ext_page)
    (sc_run ext_page Ext.page_init [EvData (board_to_json spec_board); EvCardDragStart 0 0; EvDrop 1 0 []; EvAddColumn]))
    by apply sc_run_reachable.
  assert (H2 : rtc (sc_step v0_page) (sc_init v0_page)
    (V0.handle (V0.handle (V0.handle Ext.page_init (EvData (board_to_json spec_board))).1
                          (EvCardDragStart 0 0)).1 (EvDrop 1 0 [])).1).
  { eapply rtc_l; [by exists (EvData (board_to_json spec_board))|].
    eapply rtc_l; [by exists (EvCardDragStart 0 0)|].
    eapply rtc_l; [by exists (EvDrop 1 0 [])|]. apply rtc_refl. }
  split; [split; assumption|].
  split; [exact (proj1 (ext_posts_handled _ Ext.page_init) H1)|exact (proj2 (ext_posts_handled Ext.page_init _) H2)].
Defined.

Lemma v1_reachable_drag_ok_witness :
  rtc (sc_step v1_page) (sc_init v1_page)
    (V1.handle (V1.handle page_init (EvData (board_to_json spec_board))).1 (EvCardDragStart 0 0)).1
  /\ drag_ok (V1.handle (V1.handle page_init (EvData (board_to_json spec_board))).1 (EvCardDragStart 0 0)).1.
Proof.
  assert (H : rtc (sc_step v1_page) (sc_init v1_page)
    (V1.handle (V1.handle page_init (EvData (board_to_json spec_board))).1 (EvCardDragStart 0 0)).1).
  { eapply rtc_l; [by exists (EvData (board_to_json spec_board))|].
    eapply rtc_l; [by exists (EvCardDragStart 0 0)|]. apply rtc_refl. }
  split; [exact H|]. exact (v1_reachable_drag_ok _ H).
Defined.
