(* ===== verification/DropIndex.v ===== *)
(** * DropIndex: the index a card drop computes.

    [Page.drop_index] (lines 537-540 of [src/unnamed/part_000]) turns
    the card the pointer is above into an index of the target column:
    [cards.findIndex(c => c.id === afterElement.dataset.id)], or
    [cards.length] below the last card.  The index is in
    [[-1, cards.length]]; above a card it is the position of the first
    card with that id, so [moveCard] inserts before the hovered card.
    It is [-1] when the pointer is above a card whose [dataset.id]
    (always a string) equals no card's [id]: on a column whose ids are
    numbers (a hand-edited file) this happens above every card, and
    [moveCard] then splices at [-1], before the last card
    ([Prelude.js_splice_insert_neg1]). *)

From S2P Require Import Prelude Json Board Host Webview DragDrop Page.

(** ** Lemmas *)

(** [findIndex] returns the first element the callback accepts, or
    [-1] when it accepts none. *)
Lemma js_findIndex_cases {A} (p : A -> result bool) l i :
  js_findIndex p l = Ok i ->
  (i = -1 /\ Forall (fun x => p x = Ok false) l)%Z \/
  exists k x, i = Z.of_nat k /\ l !! k = Some x /\ p x = Ok true /\
    forall j y, (j < k)%nat -> l !! j = Some y -> p y = Ok false.
Proof.
  unfold js_findIndex. destruct (find_index_nat p l) as [[j|]|] eqn:E; cbn; intros [= <-].
  - right. destruct (find_index_nat_Some _ _ _ E) as (x & Hx & Hp & Hb). by exists j, x.
  - left. split; [done|]. apply List.Forall_forall. intros x Hx%list_elem_of_In. by apply (find_index_nat_None _ _ E).
Qed.

(** A card whose [id] is a number is [===] to no string. *)
Lemma id_is_num did k n : js_get (Some k) "id" = Ok (Some (JNum n)) -> id_is (Some (JStr did)) k = Ok false.
Proof. intros H. unfold id_is. by rewrite H. Qed.

(** ** Theorem *)

(** C39. The index of a card drop ([drop_index], lines 537-540): when
    it returns [i] for a drop on column [col], the target column found
    in [state] has cards [cards], and
    - [-1 <= i <= cards.length];
    - below every card, [i = cards.length] (append);
    - above the card element whose [dataset.id] is [did], [i] is the
      position of the first card with [c.id === did] (the card is
      inserted before it), or [-1] when no card has that id;
    - on a column whose card ids are numbers (a hand-edited file), the
      index is [-1] above every card, since [dataset.id] is a string:
      [moveCard]'s [splice(toIndex, 0, card)] then inserts the card
      before the last card, wherever the pointer is. *)
Theorem drop_index_hovered (state col : json) (after : option string) (i : Z) :
  drop_index state col after = Ok i ->
  exists cid cols tc cards,
    js_get (Some col) "id" = Ok cid /\ get_array state "columns" = Ok cols
    /\ js_find (id_is cid) cols = Ok (Some tc) /\ get_array tc "cards" = Ok cards
    /\ (-1 <= i <= Z.of_nat (length cards))%Z
    /\ (after = None -> i = Z.of_nat (length cards))
    /\ (forall did, after = Some did ->
          (i = (-1)%Z /\ Forall (fun k => id_is (Some (JStr did)) k = Ok false) cards)
          \/ exists k card, i = Z.of_nat k /\ cards !! k = Some card /\ id_is (Some (JStr did)) card = Ok true
               /\ forall j c, (j < k)%nat -> cards !! j = Some c -> id_is (Some (JStr did)) c = Ok false)
    /\ (Forall (fun k => exists n, js_get (Some k) "id" = Ok (Some (JNum n))) cards -> forall did, after = Some did ->
          i = (-1)%Z /\ forall x, (js_splice cards i 0 [x]).1
                                  = take (length cards - 1) cards ++ x :: drop (length cards - 1) cards).
Proof.
  unfold drop_index.
  destruct (js_get _ "id") as [cid|] eqn:E1; [|done].
  destruct (get_array state "columns") as [cols|] eqn:E2; [|done].
  destruct (js_find _ cols) as [[tc|]|] eqn:E3; [|done|done].
  destruct (get_array tc "cards") as [cards|] eqn:E4; [|done].
  intros Hi. exists cid, cols, tc, cards.
  assert (Hcases : forall did, after = Some did ->
          (i = (-1)%Z /\ Forall (fun k => id_is (Some (JStr did)) k = Ok false) cards)
          \/ exists k card, i = Z.of_nat k /\ cards !! k = Some card /\ id_is (Some (JStr did)) card = Ok true
               /\ forall j c, (j < k)%nat -> cards !! j = Some c -> id_is (Some (JStr did)) c = Ok false).
  { intros did ->. by apply js_findIndex_cases. }
  split_and!; try done.
  1,2: destruct after as [did|]; [|injection Hi as <-; lia];
    destruct (Hcases did eq_refl) as [[-> _]|(k & x & -> & Hk%lookup_lt_Some & _)]; lia.
  - intros ->. by injection Hi as <-.
  - intros Hnum did Hd. destruct (Hcases did Hd) as [[-> _]|(k & x & _ & Hk & Hx & _)].
    + split; [done|]. intros y. by rewrite js_splice_insert_neg1.
    + destruct (Forall_lookup_1 _ _ _ _ Hnum Hk) as [n Hn]. by rewrite (id_is_num did x n Hn) in Hx.
Qed.

(** ** Witness *)

(** A column whose cards carry numeric ids, as a hand-edited file may
    have: the pointer above the card [7] yields [dataset.id = "7"],
    which is [=== 7] for no card, and the index is [-1]. *)
Definition numeric_state : json :=
  JObj [("columns", JArr [JObj [("id", JStr "a"); ("title", JStr "A");
           ("cards", JArr [JObj [("id", JNum 7); ("title", JStr "X")]; JObj [("id", JNum 8); ("title", JStr "Y")]])]])].

Lemma drop_index_hovered_witness :
  drop_index numeric_state (JObj [("id", JStr "a")]) (Some "7") = Ok (-1)%Z /\
  exists cid cols tc cards,
    js_get (Some (JObj [("id", JStr "a")])) "id" = Ok cid /\ get_array numeric_state "columns" = Ok cols
    /\ js_find (id_is cid) cols = Ok (Some tc) /\ get_array tc "cards" = Ok cards
    /\ (-1 <= -1 <= Z.of_nat (length cards))%Z
    /\ (Some "7" = None -> (-1)%Z = Z.of_nat (length cards))
    /\ (forall did, Some "7" = Some did ->
          ((-1)%Z = (-1)%Z /\ Forall (fun k => id_is (Some (JStr did)) k = Ok false) cards)
          \/ exists k card, (-1)%Z = Z.of_nat k /\ cards !! k = Some card /\ id_is (Some (JStr did)) card = Ok true
               /\ forall j c, (j < k)%nat -> cards !! j = Some c -> id_is (Some (JStr did)) c = Ok false)
    /\ (Forall (fun k => exists n, js_get (Some k) "id" = Ok (Some (JNum n))) cards -> forall did, Some "7" = Some did ->
          (-1)%Z = (-1)%Z /\ forall x, (js_splice cards (-1) 0 [x]).1
                                  = take (length cards - 1) cards ++ x :: drop (length cards - 1) cards).
Proof.
  assert (H : drop_index numeric_state (JObj [("id", JStr "a")]) (Some "7") = Ok (-1)%Z) by (vm_compute; reflexivity).
  split; [exact H|]. exact (drop_index_hovered _ _ _ _ H).
Defined.
