(* ===== verification/Sync.v ===== *)
(** * Sync: the page, the document and the file after a card drop.

    Composes the two programs: the page ([Page.handle], lines 526-550
    of [src/unnamed/part_000]) posts the board after a drop; the host
    ([HostDoc.on_message], lines 168-261) writes it into the document,
    saves it and sends the document back ([sendData], lines 151-158,
    from the change listener); the page's [message] listener (lines
    441-446) renders what it receives.  The theorem: after a card drop
    the page, the document, the file on disk and the board the host
    sends back all hold the board of spec §4.1's [move_card], and the
    echo leaves the page's view as the drop left it. *)

From S2P Require Import Prelude Json Codec Board Host HostDoc Webview DragDrop Page.
From Stdlib Require Import QArith.

(** ** Lemmas *)

(** The host on an [update] carrying an encoded board, on a document
    holding an encoded board: the text and the file become the new
    board's, and the page is sent that board. *)
Lemma on_message_update (b b' : board) (disk : string) (posted : list json) (now : Z) :
  on_message (HState (json_stringify (board_to_json b)) disk posted []) (MsgUpdate (board_to_json b')) now
  = HState (json_stringify (board_to_json b')) (json_stringify (board_to_json b'))
           (posted ++ [board_to_json b']) [].
Proof. unfold on_message. cbn [hs_text]. rewrite parse_board. unfold finish. cbn. apply write_board. Qed.

(** Receiving the board the page already shows re-renders the same view. *)
Lemma echo_same_view (pg : page) (b : board) :
  pg_state pg = board_to_json b ->
  (handle pg (EvData (board_to_json b))).1
  = Page (board_to_json b) (map cv_of b) true (pg_dragged pg) (pg_draggedType pg)
         (pg_fromColumn pg) None (pg_outbox pg).
Proof. intros _. cbn [handle]. by rewrite (render_enc _ b). Qed.

(** ** Theorem *)

(** C40. Page and document agree after a card drop (spec §4.2-§4.4,
    the Render Mirror): on a page showing a board [b] with unique ids,
    whose document is the host's text of [b], dragging the card [ki] of
    column [ci] and dropping it on column [cj] posts one [update]; the
    host, processing it, leaves the document and the saved file as the
    text of the board [b'] that [move_card] gives, a text that parses
    back to [b']; the board it sends back is [b']; and the page, on
    receiving it, shows [b'] with the same view it had after the drop. *)
Theorem card_drop_round_trip (b : board) (ci ki cj : nat) (c d : column) (k : card)
    (y : Q) (boxes : list box) (disk : string) (posted : list json) (now : Z) :
  wf b -> b !! ci = Some c -> col_cards c !! ki = Some k -> b !! cj = Some d ->
  let b' := move_card (col_id c) (col_id d) (card_id k)
              (Some (drop_target d (getDragAfterElement
                       (container_from (Some (ci, ki)) cj 0 (map card_to_json (col_cards d)) boxes) y))) b in
  exists pg',
    handle (run page_init [EvData (board_to_json b); EvCardDragStart ci ki]) (EvDrop cj y boxes) = (pg', Ok tt)
    /\ pg_outbox pg' = [MsgUpdate (board_to_json b')]
    /\ exists h', fold_left (fun h m => on_message h m now) (pg_outbox pg')
                     (HState (json_stringify (board_to_json b)) disk posted []) = h'
       /\ hs_text h' = hs_disk h' /\ json_parse (hs_disk h') = Some (board_to_json b')
       /\ hs_posted h' = posted ++ [board_to_json b']
       /\ pg_state (handle pg' (EvData (board_to_json b'))).1 = board_to_json b'
       /\ pg_view (handle pg' (EvData (board_to_json b'))).1 = pg_view pg'
       /\ pg_view pg' = map cv_of b'.
Proof.
  intros Hwf Hc Hk Hd b'. rewrite (card_drop_page b ci ki cj c d k y boxes Hwf Hc Hk Hd).
  eexists. split; [reflexivity|]. split; [reflexivity|]. eexists. split; [reflexivity|].
  cbn [fold_left pg_outbox drop_reset post set_drag app]. rewrite on_message_update.
  cbn [hs_text hs_disk hs_posted]. rewrite (echo_same_view _ b') by reflexivity.
  split_and!; try reflexivity. apply parse_board.
Qed.

(** ** Witness *)

Lemma card_drop_round_trip_witness :
  (wf spec_board /\ spec_board !! 0%nat = Some (Column "a" "A" [Card "c1" "X"; Card "c2" "Y"])
   /\ [Card "c1" "X"; Card "c2" "Y"] !! 0%nat = Some (Card "c1" "X")
   /\ spec_board !! 1%nat = Some (Column "b" "B" [])) /\
  let b' := move_card "a" "b" "c1"
              (Some (drop_target (Column "b" "B" []) (getDragAfterElement
                       (container_from (Some (0%nat, 0%nat)) 1 0 [] []) 0))) spec_board in
  exists pg',
    handle (run page_init [EvData (board_to_json spec_board); EvCardDragStart 0 0]) (EvDrop 1 0 []) = (pg', Ok tt)
    /\ pg_outbox pg' = [MsgUpdate (board_to_json b')]
    /\ exists h', fold_left (fun h m => on_message h m 0%Z) (pg_outbox pg')
                     (HState (json_stringify (board_to_json spec_board)) "" [] []) = h'
       /\ hs_text h' = hs_disk h' /\ json_parse (hs_disk h') = Some (board_to_json b')
       /\ hs_posted h' = [] ++ [board_to_json b']
       /\ pg_state (handle pg' (EvData (board_to_json b'))).1 = board_to_json b'
       /\ pg_view (handle pg' (EvData (board_to_json b'))).1 = pg_view pg'
       /\ pg_view pg' = map cv_of b'.
Proof.
  assert (Hwf : wf spec_board) by (split; apply (bool_decide_unpack _); vm_compute; reflexivity).
  split; [split; [exact Hwf|split; [reflexivity|split; reflexivity]]|].
  exact (card_drop_round_trip spec_board 0 0 1 _ _ _ 0 [] "" [] 0 Hwf eq_refl eq_refl eq_refl).
Defined.
