(* ===== verification/Files.v ===== *)
(** * Files: the board files ([openPreview], [createBoard]).

    Models [openPreview] (lines 70-103) and [createBoard] (lines
    105-144) of [src/unnamed/part_000] on a workspace: its first root
    folder, the file system as a finite map from paths to contents
    ([vscode.workspace.fs]), the error messages shown and the files
    opened in the board editor.  [fs.stat] throwing is the path being
    absent from the map; the text written is [JSON.stringify] of the
    template ([Codec]).  The user's answer to [showInputBox] is an
    argument.

    The theorems: neither command ever overwrites a file; the name
    [createBoard] derives from the user's answer has only letters,
    digits, [-] and inner spaces; a created file holds the default
    template, a well-formed board, in a text that parses back to it. *)

From S2P Require Import Prelude Json Codec Board HostDoc Page.
From stdpp Require Import gmap.
From Stdlib Require Import Ascii.

(** ** State *)

(** The argument [openPreview] receives: nothing (command palette), a
    [vscode.Uri] (tree view, [createBoard]) or another value. *)
Inductive uri_arg := ArgNone | ArgUri (path : string) | ArgOther.

#[export] Instance uri_arg_eq_dec : EqDecision uri_arg.
Proof. solve_decision. Defined.

Record workspace := Workspace {
  ws_root : option string;          (** [vscode.workspace.workspaceFolders[0].uri] *)
  ws_files : gmap string string;    (** the file system *)
  ws_errors : list string;          (** [showErrorMessage] calls, oldest first *)
  ws_opened : list string           (** [executeCommand('vscode.openWith', uri, ...)] *)
}.

(** [vscode.Uri.joinPath(root, name)]. *)
Definition join_path (root name : string) : string := (root ++ "/" ++ name)%string.

Definition show_error (w : workspace) (m : string) : workspace :=
  Workspace (ws_root w) (ws_files w) (ws_errors w ++ [m]) (ws_opened w).

(** [vscode.workspace.fs.writeFile(uri, ...)]. *)
Definition write_file (w : workspace) (p text : string) : workspace :=
  Workspace (ws_root w) (<[p := text]> (ws_files w)) (ws_errors w) (ws_opened w).

Definition open_with (w : workspace) (p : string) : workspace :=
  Workspace (ws_root w) (ws_files w) (ws_errors w) (ws_opened w ++ [p]).

(** The [initialTodo] of [openPreview] (lines 84-90) and of
    [createBoard] (lines 130-136). *)
Definition template_preview : board :=
  [Column "Ideas" "Ideas" []; Column "In-Progress" "In Progress" []; Column "Done" "Done" []].

Definition template_create : board :=
  [Column "todo" "To Do" []; Column "doing" "Doing" []; Column "done" "Done" []].

(** ** [openPreview(uri)] (lines 70-103) *)

Definition openPreview (w : workspace) (uri : uri_arg) : result workspace :=
  if bool_decide (uri = ArgNone) && bool_decide (ws_root w = None)
  then Ok (show_error w "Open a workspace first.")
  else
    p <- match uri with
         | ArgUri p => Ok p
         | _ => match ws_root w with
                | Some r => Ok (join_path r "todo.board.json")
                | None => Throw TypeError          (* [workspaceFolders[0]] on undefined *)
                end
         end ;;
    let w1 := match ws_files w !! p with
              | Some _ => w
              | None => write_file w p (json_stringify (board_to_json template_preview))
              end in
    Ok (open_with w1 p).

(** ** [createBoard()] (lines 105-144) *)

(** A character the pattern [/[^a-z0-9\- ]/gi] keeps. *)
Definition is_name_char (c : ascii) : bool :=
  let n := nat_of_ascii c in
  bool_decide (97 <= n <= 122 \/ 65 <= n <= 90 \/ 48 <= n <= 57 \/ n = 45 \/ n = 32)%nat.

Fixpoint sfilter (p : ascii -> bool) (s : string) : string :=
  match s with
  | EmptyString => EmptyString
  | String c s' => if p c then String c (sfilter p s') else sfilter p s'
  end.

(** [name.replace(/[^a-z0-9\- ]/gi, '').trim()] (line 118). *)
Definition safe_name (name : string) : string := trim (sfilter is_name_char name).

(** [(safeName || 'untitled') + '.board.json'] (line 119). *)
Definition board_filename (name : string) : string :=
  ((if bool_decide (safe_name name = "") then "untitled" else safe_name name) ++ ".board.json")%string.

Definition createBoard (w : workspace) (answer : option string) : result workspace :=
  match ws_root w with
  | None => Ok (show_error w "Open a workspace first.")
  | Some r =>
      match answer with
      | None => Ok w                                        (* [if (!name) return;] *)
      | Some name =>
          if bool_decide (name = "") then Ok w
          else
            let filename := board_filename name in
            let p := join_path r filename in
            match ws_files w !! p with
            | Some _ => Ok (show_error w ("File already exists: " ++ filename)%string)
            | None => openPreview (write_file w p (json_stringify (board_to_json template_create))) (ArgUri p)
            end
      end
  end.

(** ** Lemmas *)

(** Every character satisfies [p]. *)
Fixpoint forall_chars (p : ascii -> bool) (s : string) : bool :=
  match s with
  | EmptyString => true
  | String c s' => p c && forall_chars p s'
  end.

Lemma forall_chars_sfilter p s : forall_chars p (sfilter p s) = true.
Proof. induction s as [|c s IH]; [done|]. simpl. destruct (p c) eqn:E; simpl; [by rewrite E, IH|done]. Qed.

Lemma forall_chars_srev_app p s acc :
  forall_chars p (srev_app s acc) = forall_chars p s && forall_chars p acc.
Proof.
  revert acc. induction s as [|c s IH]; intros acc; [done|]. simpl. rewrite IH. simpl.
  by destruct (p c), (forall_chars p s), (forall_chars p acc).
Qed.

Lemma forall_chars_trim_left p s : forall_chars p s = true -> forall_chars p (trim_left s) = true.
Proof.
  induction s as [|c s IH]; [done|]. simpl. intros [Hc Hs]%andb_prop.
  destruct (is_space c); [by apply IH|]. simpl. by rewrite Hc, Hs.
Qed.

(** [trim] keeps a substring: the characters it returns are among the
    input's. *)
Lemma forall_chars_trim p s : forall_chars p s = true -> forall_chars p (trim s) = true.
Proof.
  intros Hs. unfold trim. rewrite forall_chars_srev_app, andb_true_r.
  apply forall_chars_trim_left. rewrite forall_chars_srev_app, andb_true_r.
  by apply forall_chars_trim_left.
Qed.

(** The stem of the file name: letters, digits, [-] and spaces, never
    empty. *)
Lemma board_filename_stem name :
  exists s, board_filename name = (s ++ ".board.json")%string /\ s <> "" /\ forall_chars is_name_char s = true.
Proof.
  unfold board_filename. case_bool_decide as H.
  - by exists "untitled".
  - exists (safe_name name). split_and!; [done|done|].
    apply forall_chars_trim, forall_chars_sfilter.
Qed.

Lemma openPreview_keeps w u w' :
  openPreview w u = Ok w' -> forall p c, ws_files w !! p = Some c -> ws_files w' !! p = Some c.
Proof.
  unfold openPreview. intros Hw p c Hp.
  destruct (_ && _); [by injection Hw as <-|].
  destruct (match u with ArgUri p => Ok p | _ => _ end) as [q|]; [|discriminate].
  injection Hw as <-. cbn [open_with ws_files].
  destruct (ws_files w !! q) eqn:Eq; [done|].
  cbn [write_file ws_files]. rewrite lookup_insert_ne; [done|]. intros ->. congruence.
Qed.

Lemma show_error_files w m : ws_files (show_error w m) = ws_files w.
Proof. done. Qed.

(** The result of [createBoard] when it writes the new file. *)
Lemma createBoard_write w r name :
  ws_root w = Some r -> name <> "" -> ws_files w !! join_path r (board_filename name) = None ->
  createBoard w (Some name)
  = Ok (open_with (write_file w (join_path r (board_filename name)) (json_stringify (board_to_json template_create)))
                  (join_path r (board_filename name))).
Proof.
  intros Hr Hn Hp. unfold createBoard. rewrite Hr, bool_decide_false by done. cbn zeta. rewrite Hp.
  unfold openPreview. rewrite (bool_decide_false (ArgUri _ = ArgNone)) by done. cbn [andb].
  cbn [write_file ws_files]. by rewrite lookup_insert_eq.
Qed.

(** ** Theorems *)

(** C26. The board-file commands never overwrite a file: every file of
    the workspace keeps its contents through [createBoard] (which
    refuses an existing name) and the [openPreview] it ends with (which
    creates the file only when [fs.stat] fails). *)
Theorem createBoard_never_overwrites (w w' : workspace) (answer : option string) :
  createBoard w answer = Ok w' -> forall p c, ws_files w !! p = Some c -> ws_files w' !! p = Some c.
Proof.
  unfold createBoard. intros Hw p c Hp.
  destruct (ws_root w) as [r|]; [|by injection Hw as <-].
  destruct answer as [name|]; [|by injection Hw as <-].
  case_bool_decide; [by injection Hw as <-|]. cbn zeta in Hw.
  destruct (ws_files w !! join_path r (board_filename name)) eqn:E; [by injection Hw as <-|].
  apply (openPreview_keeps _ _ _ Hw). cbn [write_file ws_files].
  rewrite lookup_insert_ne; [done|]. intros <-. congruence.
Qed.

(** C27. The only file [createBoard] adds is directly in the root
    folder, named by a non-empty stem of letters, digits, [-] and spaces
    and [.board.json]: whatever the user types (a [/], [..], a
    backslash), the file cannot land elsewhere. *)
Theorem createBoard_new_file_name (w w' : workspace) (name p : string) :
  createBoard w (Some name) = Ok w' -> ws_files w !! p = None -> is_Some (ws_files w' !! p) ->
  exists r s, ws_root w = Some r /\ p = join_path r (s ++ ".board.json") /\ s <> ""
              /\ forall_chars is_name_char s = true.
Proof.
  intros Hw Hp [c Hc]. destruct (ws_root w) as [r|] eqn:Er.
  2:{ unfold createBoard in Hw. rewrite Er in Hw. injection Hw as <-. cbn in Hc. congruence. }
  destruct (decide (name = "")) as [->|Hn].
  { unfold createBoard in Hw. rewrite Er in Hw. injection Hw as <-. congruence. }
  destruct (ws_files w !! join_path r (board_filename name)) eqn:E.
  { unfold createBoard in Hw. rewrite Er, bool_decide_false in Hw by done. cbn zeta in Hw.
    rewrite E in Hw. injection Hw as <-. cbn in Hc. congruence. }
  rewrite (createBoard_write w r name Er Hn E) in Hw. injection Hw as <-.
  cbn [open_with write_file ws_files] in Hc.
  destruct (decide (p = join_path r (board_filename name))) as [->|Hne];
    [|rewrite lookup_insert_ne in Hc by done; congruence].
  destruct (board_filename_stem name) as (s & Es & Hs & Hc').
  exists r, s. by rewrite Es.
Qed.

(** C28. A board created by [createBoard] (spec §3 lifecycle: a new
    board has the default three-column template): on a fresh name the
    command writes the template and opens it, the template is a
    well-formed board, and the text written reads back as it. *)
Theorem createBoard_creates_template (w : workspace) (r name : string) :
  ws_root w = Some r -> name <> "" -> ws_files w !! join_path r (board_filename name) = None ->
  createBoard w (Some name)
  = Ok (open_with (write_file w (join_path r (board_filename name)) (json_stringify (board_to_json template_create)))
                  (join_path r (board_filename name)))
  /\ wf template_create
  /\ json_parse (json_stringify (board_to_json template_create)) = Some (board_to_json template_create).
Proof.
  intros Hr Hn Hp. split_and!.
  - by apply createBoard_write.
  - split; apply (bool_decide_unpack _); vm_compute; reflexivity.
  - apply parse_board.
Qed.

(** C29. [openPreview] called with a value that is not a [vscode.Uri]
    (truthy, so the "Open a workspace first." guard is skipped) in a
    window with no folder reads [workspaceFolders[0]] on [undefined]
    and throws. *)
Theorem openPreview_non_uri_no_workspace_throws (w : workspace) :
  ws_root w = None -> openPreview w ArgOther = Throw TypeError.
Proof. intros Hr. unfold openPreview. by rewrite Hr. Qed.

(** ** Witnesses *)

(** A workspace rooted at [/ws] holding one board file. *)
Definition ws_sample : workspace := Workspace (Some "/ws") {["/ws/todo.board.json" := "{}"]} [] [].

(** The workspace after [createBoard] with the answer [../Plan]. *)
Definition ws_after_plan : workspace :=
  open_with (write_file ws_sample (join_path "/ws" (board_filename "../Plan"))
                        (json_stringify (board_to_json template_create)))
            (join_path "/ws" (board_filename "../Plan")).

Lemma createBoard_never_overwrites_witness :
  (createBoard ws_sample (Some "../Plan") = Ok ws_after_plan
   /\ ws_files ws_sample !! "/ws/todo.board.json" = Some "{}") /\
  ws_files ws_after_plan !! "/ws/todo.board.json" = Some "{}".
Proof.
  assert (H1 : createBoard ws_sample (Some "../Plan") = Ok ws_after_plan) by (vm_compute; reflexivity).
  assert (H2 : ws_files ws_sample !! "/ws/todo.board.json" = Some "{}") by (vm_compute; reflexivity).
  split; [split; [exact H1|exact H2]|]. exact (createBoard_never_overwrites _ _ _ H1 _ _ H2).
Defined.

Lemma createBoard_new_file_name_witness :
  (createBoard ws_sample (Some "../Plan") = Ok ws_after_plan
   /\ ws_files ws_sample !! "/ws/Plan.board.json" = None
   /\ is_Some (ws_files ws_after_plan !! "/ws/Plan.board.json")) /\
  exists r s, ws_root ws_sample = Some r /\ "/ws/Plan.board.json" = join_path r (s ++ ".board.json")%string
              /\ s <> "" /\ forall_chars is_name_char s = true.
Proof.
  assert (H1 : createBoard ws_sample (Some "../Plan") = Ok ws_after_plan) by (vm_compute; reflexivity).
  assert (H2 : ws_files ws_sample !! "/ws/Plan.board.json" = None) by (vm_compute; reflexivity).
  assert (H3 : is_Some (ws_files ws_after_plan !! "/ws/Plan.board.json")) by (eexists; vm_compute; reflexivity).
  split; [split; [exact H1|split; [exact H2|exact H3]]|].
  exact (createBoard_new_file_name _ _ _ _ H1 H2 H3).
Defined.

Lemma createBoard_creates_template_witness :
  (ws_root ws_sample = Some "/ws" /\ "../Plan" <> ""
   /\ ws_files ws_sample !! join_path "/ws" (board_filename "../Plan") = None) /\
  (createBoard ws_sample (Some "../Plan")
   = Ok (open_with (write_file ws_sample (join_path "/ws" (board_filename "../Plan"))
                      (json_stringify (board_to_json template_create)))
                   (join_path "/ws" (board_filename "../Plan")))
   /\ wf template_create
   /\ json_parse (json_stringify (board_to_json template_create)) = Some (board_to_json template_create)).
Proof.
  assert (H1 : ws_root ws_sample = Some "/ws") by reflexivity.
  assert (H2 : "../Plan" <> "") by discriminate.
  assert (H3 : ws_files ws_sample !! join_path "/ws" (board_filename "../Plan") = None) by (vm_compute; reflexivity).
  split; [split; [exact H1|split; [exact H2|exact H3]]|].
  exact (createBoard_creates_template _ _ _ H1 H2 H3).
Defined.

Lemma openPreview_non_uri_no_workspace_throws_witness :
  ws_root (Workspace None ∅ [] []) = None /\ openPreview (Workspace None ∅ [] []) ArgOther = Throw TypeError.
Proof.
  assert (H : ws_root (Workspace None ∅ [] []) = None) by reflexivity.
  split; [exact H|]. exact (openPreview_non_uri_no_workspace_throws _ H).
Defined.
