(* ===== verification/Launcher.v ===== *)
(** * Launcher: the tree view of board files and the extension's commands.

    Models [BoardProvider.getChildren] (lines 48-67 of
    [src/unnamed/part_000]): the board files [findFiles('**/*.board.json')]
    finds in the workspace folder, each shown by its path relative to
    the folder and bound to the command [todoBoard.openPreview] with its
    Uri; and the two commands [activate] registers (lines 13-19), run by
    [executeCommand].  The file watcher's [refresh] (lines 7-10) only
    asks VS Code to call [getChildren] again, which here is a function
    of the workspace: the tree always shows the current files.

    The theorem: every item of the tree opens the file it names without
    writing anything, and a board made by [createBoard] appears in the
    tree under its file name. *)

From S2P Require Import Prelude Json Codec Board HostDoc Page Files.
From stdpp Require Import gmap.

Local Arguments String.append : simpl nomatch.

(** ** The tree view *)

(** [s] ends with [suf]. *)
Fixpoint ends_with (suf s : string) : bool :=
  bool_decide (s = suf) || match s with String _ s' => ends_with suf s' | EmptyString => false end.

(** The glob [**/*.board.json] inside the folder [r]: the path lies
    under [r] and its last segment ends with [.board.json]. *)
Definition is_board_file (r p : string) : bool :=
  match Codec.strip_prefix (r ++ "/")%string p with Some rel => ends_with ".board.json" rel | None => false end.

(** [vscode.workspace.findFiles('**/*.board.json')] (line 53): the
    matching files, in the order the file system lists them; nothing
    without a folder. *)
Definition findFiles (w : workspace) : list string :=
  match ws_root w with
  | Some r => filter (fun p => is_board_file r p = true) (fst <$> map_to_list (ws_files w))
  | None => []
  end.

(** [vscode.workspace.asRelativePath(uri)] (line 56). *)
Definition asRelativePath (w : workspace) (p : string) : string :=
  match ws_root w with Some r => default p (Codec.strip_prefix (r ++ "/")%string p) | None => p end.

(** The fields of the [TreeItem] the code builds (lines 55-64). *)
Record tree_item := TreeItem { ti_label : string; ti_command : string; ti_arguments : list uri_arg }.

(** [getChildren(element)] (lines 48-67): the board files at the root,
    nothing under an item. *)
Definition getChildren (w : workspace) (element : option tree_item) : list tree_item :=
  match element with
  | Some _ => []
  | None => (fun p => TreeItem (asRelativePath w p) "todoBoard.openPreview" [ArgUri p]) <$> findFiles w
  end.

(** [vscode.commands.executeCommand(name, ...args)] on the commands
    registered at lines 13-19; [openPreview(uri)] gets the first
    argument ([undefined] when there is none) and [createBoard] reads
    its name from the input box ([answer]).  [None]: not a command of
    the extension. *)
Definition executeCommand (w : workspace) (name : string) (args : list uri_arg) (answer : option string)
    : option (result workspace) :=
  if bool_decide (name = "todoBoard.openPreview") then Some (openPreview w (default ArgNone (head args)))
  else if bool_decide (name = "todoBoard.createBoard") then Some (createBoard w answer)
  else None.

(** ** Lemmas *)

Lemma ends_with_app suf x : ends_with suf (x ++ suf)%string = true.
Proof.
  induction x as [|c x IH].
  - destruct suf; cbn [String.append ends_with]; by rewrite bool_decide_true.
  - cbn [String.append ends_with]. by rewrite IH, orb_true_r.
Qed.

Lemma strip_join r fn : Codec.strip_prefix (r ++ "/")%string (join_path r fn) = Some fn.
Proof. unfold join_path. rewrite <- sapp_assoc. apply strip_prefix_app. Qed.

Lemma findFiles_elem w p :
  p ∈ findFiles w <-> exists r, ws_root w = Some r /\ is_board_file r p = true /\ is_Some (ws_files w !! p).
Proof.
  unfold findFiles. destruct (ws_root w) as [r|].
  - rewrite list_elem_of_filter, list_elem_of_fmap. split.
    + intros [Hp ([q c] & -> & Hq)]. apply elem_of_map_to_list in Hq. by exists r; eauto.
    + intros (r' & [= <-] & Hp & [c Hc]). split; [done|]. exists (p, c). split; [done|].
      by apply elem_of_map_to_list.
  - split; [by intros ?%elem_of_nil|by intros (? & ? & _)].
Qed.

(** The item [getChildren] shows for [p] runs [openPreview] on it. *)
Lemma getChildren_elem w it :
  it ∈ getChildren w None <->
  exists p, p ∈ findFiles w /\ it = TreeItem (asRelativePath w p) "todoBoard.openPreview" [ArgUri p].
Proof. cbn [getChildren]. rewrite list_elem_of_fmap. naive_solver. Qed.

(** [openPreview] on an existing file only opens it. *)
Lemma openPreview_existing w p c :
  ws_files w !! p = Some c -> openPreview w (ArgUri p) = Ok (open_with w p).
Proof. intros Hp. unfold openPreview. cbn. by rewrite Hp. Qed.

(** ** Theorem *)

(** C37. The launcher and the commands agree (spec §3: boards are files
    of the workspace): clicking any item of the tree opens the board
    file it names, writing nothing and showing no error; and after
    [createBoard] makes a board, the tree lists it under its file name
    relative to the folder. *)
Theorem launcher_opens_and_lists (w : workspace) (it : tree_item) (answer : option string) :
  (it ∈ getChildren w None ->
   exists p c, ws_files w !! p = Some c
     /\ executeCommand w (ti_command it) (ti_arguments it) answer = Some (Ok (open_with w p)))
  /\ (forall r name, ws_root w = Some r -> name <> "" -> ws_files w !! join_path r (board_filename name) = None ->
      exists w', createBoard w (Some name) = Ok w'
        /\ TreeItem (board_filename name) "todoBoard.openPreview" [ArgUri (join_path r (board_filename name))]
           ∈ getChildren w' None).
Proof.
  split.
  - intros (p & (r & _ & _ & [c Hc])%findFiles_elem & ->)%getChildren_elem.
    exists p, c. split; [done|]. unfold executeCommand. cbn [ti_command ti_arguments head default].
    rewrite bool_decide_true by done. cbn [id]. by rewrite (openPreview_existing w p c Hc).
  - intros r name Hr Hn Hp. eexists. split; [by apply createBoard_write|].
    apply getChildren_elem. exists (join_path r (board_filename name)). split.
    + apply findFiles_elem. exists r. cbn [ws_root open_with write_file]. split_and!; [done| |].
      * unfold is_board_file. rewrite strip_join.
        destruct (board_filename_stem name) as (s & -> & _). apply ends_with_app.
      * cbn [ws_files open_with write_file]. rewrite lookup_insert_eq. by eexists.
    + unfold asRelativePath. cbn [ws_root open_with write_file]. by rewrite Hr, strip_join.
Qed.

(** ** Witness *)

(** In [ws_sample] the tree shows [todo.board.json], which opens
    [/ws/todo.board.json]; [createBoard] with the answer [Plan] adds
    [Plan.board.json] to the tree. *)
Lemma launcher_opens_and_lists_witness :
  (TreeItem "todo.board.json" "todoBoard.openPreview" [ArgUri "/ws/todo.board.json"] ∈ getChildren ws_sample None
   /\ ws_root ws_sample = Some "/ws" /\ "Plan" <> ""
   /\ ws_files ws_sample !! join_path "/ws" (board_filename "Plan") = None) /\
  (exists p c, ws_files ws_sample !! p = Some c
     /\ executeCommand ws_sample "todoBoard.openPreview" [ArgUri "/ws/todo.board.json"] None
        = Some (Ok (open_with ws_sample p)))
  /\ (exists w', createBoard ws_sample (Some "Plan") = Ok w'
        /\ TreeItem (board_filename "Plan") "todoBoard.openPreview" [ArgUri (join_path "/ws" (board_filename "Plan"))]
           ∈ getChildren w' None).
Proof.
  assert (Hin : TreeItem "todo.board.json" "todoBoard.openPreview" [ArgUri "/ws/todo.board.json"]
                ∈ getChildren ws_sample None) by (apply list_elem_of_In; vm_compute; left; reflexivity).
  assert (Hr : ws_root ws_sample = Some "/ws") by reflexivity.
  assert (Hn : "Plan" <> "") by discriminate.
  assert (Hp : ws_files ws_sample !! join_path "/ws" (board_filename "Plan") = None) by (vm_compute; reflexivity).
  split; [split_and!; assumption|].
  destruct (launcher_opens_and_lists ws_sample
    (TreeItem "todo.board.json" "todoBoard.openPreview" [ArgUri "/ws/todo.board.json"]) None) as [H1 H2].
  split; [exact (H1 Hin)|exact (H2 "/ws" "Plan" Hr Hn Hp)].
Defined.
